(** * YouTubeQuery: ingestion-to-search pipeline

    A shallow embedding of [backend/app/services/vector_search.py],
    [backend/app/services/youtube_service.py], the request validator of
    [backend/app/models.py] and the index helpers of
    [backend/scripts/embed_and_index.py].

    Conventions.
    - Python floats (scores, vector components) are modelled by rationals
      [Q]; comparisons are the rational ones, NaN is not modelled.
    - A pandas [DataFrame] is its column names and its rows in positional
      order; a parquet file holds a frame, a FAISS file holds an index.
    - The file system is a finite map from paths to file contents.
    - The embedding model ([SentenceTransformer.encode]) and
      [faiss.normalize_L2] are external: they are parameters of the
      development. *)

From Stdlib Require Import QArith.
From stdpp Require Import gmap strings list fin_maps sorting.

Local Open Scope list_scope.

(** ** Python exceptions and results *)

Inductive PyError : Type :=
| FileNotFoundError (msg : string)
| ValueError (msg : string)
| KeyError (key : string)
| IndexError (msg : string)
| AssertionError (msg : string)
| TypeError (msg : string)
| RuntimeError (msg : string)
| ArrowInvalid (msg : string).

Inductive Outcome (A : Type) : Type :=
| Ok (a : A)
| Raise (e : PyError).
Arguments Ok {A} a.
Arguments Raise {A} e.

Definition is_ok {A} (o : Outcome A) : bool :=
  match o with Ok _ => true | Raise _ => false end.

(** ** Vectors and rational helpers *)

Definition vec : Type := list Q.

Definition Qltb (x y : Q) : bool := negb (Qle_bool y x).

#[global] Instance Qle_decision (x y : Q) : Decision (x <= y)%Q.
Proof.
  destruct (Qlt_le_dec y x) as [H|H].
  - right. apply Qlt_not_le. exact H.
  - left. exact H.
Defined.

Definition dot (a b : vec) : Q :=
  foldr Qplus 0%Q (zip_with Qmult a b).

Definition sqdist (a b : vec) : Q :=
  foldr Qplus 0%Q (zip_with (λ x y, (x - y) * (x - y))%Q a b).

(** ** Data frames

    A row of the videos / transcripts / embeddings tables.  [None] in
    [transcript] is a missing value (NaN / None).  Columns that are only
    copied through ([channel_id], [published_at], [thumbnail_url],
    [description], [view_count], [duration], [like_count], [tags],
    [transcript_segments]) are represented by [channel] alone. *)

Record Segment : Type := mkSegment {
  seg_text : string;
  seg_start : Q;
  seg_duration : Q
}.

Record VideoRow : Type := mkRow {
  video_id : string;
  title : string;
  channel : option string;
  transcript : option string;
  embedding : option vec
}.

Record DataFrame : Type := mkFrame {
  columns : list string;
  rows : list VideoRow
}.

Definition has_column (c : string) (df : DataFrame) : bool :=
  existsb (String.eqb c) (columns df).

Definition add_column (c : string) (cols : list string) : list string :=
  if existsb (String.eqb c) cols then cols else cols ++ [c].

(** [df.iloc[idx]]: positional access; a negative position counts from
    the end, anything out of range raises [IndexError]. *)
Definition iloc (df : DataFrame) (idx : Z) : option VideoRow :=
  let n := Z.of_nat (length (rows df)) in
  if (0 <=? idx)%Z then rows df !! Z.to_nat idx
  else if (- n <=? idx)%Z then rows df !! Z.to_nat (n + idx)
  else None.

(** ** FAISS flat indexes

    [IndexFlatIP] and [IndexFlatL2]: the stored vectors in insertion order,
    the dimension and the metric the index was created with.  A search is
    exact: every stored vector is scored against the query. *)

Module Faiss.

Inductive MetricType : Type := METRIC_INNER_PRODUCT | METRIC_L2.

Record Index : Type := mkIndex {
  metric_type : MetricType;
  d : nat;
  xb : list vec
}.

Definition ntotal (ix : Index) : nat := length (xb ix).

Definition IndexFlatIP (dimension : nat) : Index :=
  mkIndex METRIC_INNER_PRODUCT dimension [].

Definition IndexFlatL2 (dimension : nat) : Index :=
  mkIndex METRIC_L2 dimension [].

(** [index.add(x)]: appends the rows of [x] after the vectors already
    stored, so the ordinal of a vector is its position. *)
Definition add (ix : Index) (x : list vec) : Index :=
  mkIndex (metric_type ix) (d ix) (xb ix ++ x).

(** One candidate of a search: the distance FAISS reports and the
    label (ordinal), [-1] for an unfilled slot. *)
Definition hit : Type := (Q * Z)%type.

Definition distance (m : MetricType) (q v : vec) : Q :=
  match m with
  | METRIC_INNER_PRODUCT => dot q v
  | METRIC_L2 => sqdist q v
  end.

(** Better-or-equal: larger inner product, smaller L2 distance. *)
Definition better (m : MetricType) (h1 h2 : hit) : Prop :=
  match m with
  | METRIC_INNER_PRODUCT => (h2.1 <= h1.1)%Q
  | METRIC_L2 => (h1.1 <= h2.1)%Q
  end.

#[global] Instance better_dec m h1 h2 : Decision (better m h1 h2).
Proof. destruct m; simpl; apply _. Defined.

Definition FLT_MAX : Q := 340282346638528859811704183484516925440%Q.

Definition unfilled (m : MetricType) : hit :=
  match m with
  | METRIC_INNER_PRODUCT => ((- FLT_MAX)%Q, (-1)%Z)
  | METRIC_L2 => (FLT_MAX, (-1)%Z)
  end.

Definition scored (ix : Index) (q : vec) : list hit :=
  imap (λ i v, (distance (metric_type ix) q v, Z.of_nat i)) (xb ix).

(** The ranking of all stored vectors.  FAISS does not promise an order
    among equal distances; the merge sort used here keeps them in
    ordinal order. *)
Definition ranked (ix : Index) (q : vec) : list hit :=
  merge_sort (better (metric_type ix)) (scored ix q).

(** [index.search(q, k)] for a single query row: the [k] best hits in
    rank order, padded with unfilled slots when fewer than [k] vectors
    are stored.  The Python wrapper asserts [k > 0] and that the query
    has the dimension of the index. *)
Definition search (ix : Index) (q : vec) (k : nat) : Outcome (list hit) :=
  if bool_decide (k = 0) then Raise (AssertionError "k > 0")
  else if bool_decide (length q = d ix) then
    let top := take k (ranked ix q) in
    Ok (top ++ replicate (k - length top) (unfilled (metric_type ix)))
  else Raise (AssertionError "d == self.d").

End Faiss.

(** ** The file system *)

Inductive File : Type :=
| FaissFile (ix : Faiss.Index)
| ParquetFile (df : DataFrame)
| PartialFile.

Abbreviation FS := (gmap string File).

Definition exists_path (fs : FS) (p : string) : bool :=
  match fs !! p with Some _ => true | None => false end.

(** [faiss.read_index] and [pd.read_parquet] on an existing path. *)
Definition read_index (fs : FS) (p : string) : Outcome Faiss.Index :=
  match fs !! p with
  | Some (FaissFile ix) => Ok ix
  | Some _ => Raise (RuntimeError "Error: index file could not be read")
  | None => Raise (RuntimeError "Error: could not open index file")
  end.

Definition read_parquet (fs : FS) (p : string) : Outcome DataFrame :=
  match fs !! p with
  | Some (ParquetFile df) => Ok df
  | Some _ => Raise (ArrowInvalid "Parquet magic bytes not found")
  | None => Raise (FileNotFoundError p)
  end.

(** [faiss.write_index] and [DataFrame.to_parquet] open the destination
    path itself for writing: the file is first truncated, then filled. *)
Inductive DiskStep : Type :=
| OpenTruncate (p : string)
| WriteClose (p : string) (content : File).

Definition disk_step (fs : FS) (s : DiskStep) : FS :=
  match s with
  | OpenTruncate p => <[p := PartialFile]> fs
  | WriteClose p c => <[p := c]> fs
  end.

Definition run_steps (steps : list DiskStep) (fs : FS) : FS :=
  foldl disk_step fs steps.

Definition write_steps (p : string) (content : File) : list DiskStep :=
  [OpenTruncate p; WriteClose p content].

(** ** Settings ([app/config.py]) *)

Record Settings : Type := mkSettings {
  settings_index_path : string;
  settings_embeddings_path : string;
  settings_videos_path : string;
  settings_transcripts_path : string;
  settings_embedding_batch_size : nat
}.

Definition default_settings : Settings := {|
  settings_index_path := "./data/index.faiss";
  settings_embeddings_path := "./data/embeddings.parquet";
  settings_videos_path := "./data/videos.parquet";
  settings_transcripts_path := "./data/transcripts.parquet";
  settings_embedding_batch_size := 32
|}.

(** ** External collaborators of the vector service

    [encode m t] is the embedding the Sentence-Transformer model named [m]
    computes for the text [t]; encoding a list of texts returns their
    embeddings in the order of the texts.  [normalize_L2] is what
    [faiss.normalize_L2] does to one row. *)

Class EmbeddingBackend : Type := {
  encode : string → string → vec;
  normalize_L2 : vec → vec
}.

(** Python truthiness of an optional string argument ([x or default],
    [if model_name and ...]). *)
Definition truthy (s : option string) : bool :=
  match s with
  | Some t => negb (String.eqb t "")
  | None => false
  end.

Definition or_default (s : option string) (dflt : string) : string :=
  match s with
  | Some t => if String.eqb t "" then dflt else t
  | None => dflt
  end.

(** ** [VectorSearchService] *)

Module VectorSearch.

Record Service : Type := mkService {
  model_name : string;
  index_path : string;
  embeddings_path : string;
  index : option Faiss.Index;
  metadata : option DataFrame
}.

Definition set_index (svc : Service) (ix : Faiss.Index) : Service :=
  mkService (model_name svc) (index_path svc) (embeddings_path svc)
            (Some ix) (metadata svc).

Definition set_metadata (svc : Service) (df : DataFrame) : Service :=
  mkService (model_name svc) (index_path svc) (embeddings_path svc)
            (index svc) (Some df).

Definition set_model_name (svc : Service) (m : string) : Service :=
  mkService m (index_path svc) (embeddings_path svc)
            (index svc) (metadata svc).

(** [__init__] *)
Definition init (settings : Settings) (model : string)
    (ipath epath : option string) : Service :=
  mkService model
            (or_default ipath (settings_index_path settings))
            (or_default epath (settings_embeddings_path settings))
            None None.

(** [load_index]: the index attribute is assigned as soon as the index
    file is read, before the metadata file is looked at. *)
Definition load_index (svc : Service) (fs : FS) : Outcome unit * Service :=
  if negb (exists_path fs (index_path svc)) then
    (Raise (FileNotFoundError ("Index not found: " +:+ index_path svc)), svc)
  else
    match read_index fs (index_path svc) with
    | Raise e => (Raise e, svc)
    | Ok ix =>
        let svc1 := set_index svc ix in
        if negb (exists_path fs (embeddings_path svc)) then
          (Raise (FileNotFoundError
                    ("Embeddings metadata not found: " +:+ embeddings_path svc)),
           svc1)
        else
          match read_parquet fs (embeddings_path svc) with
          | Raise e => (Raise e, svc1)
          | Ok df => (Ok tt, set_metadata svc1 df)
          end
    end.

(** [df[df["transcript"].notna() & (df["transcript"] != "")]] *)
Definition has_transcript (r : VideoRow) : bool :=
  match transcript r with
  | Some t => negb (String.eqb t "")
  | None => false
  end.

Definition with_transcripts (df : DataFrame) : DataFrame :=
  mkFrame (columns df) (List.filter has_transcript (rows df)).

Definition transcript_text (r : VideoRow) : string :=
  default "" (transcript r).

Definition set_embedding (r : VideoRow) (e : vec) : VideoRow :=
  mkRow (video_id r) (title r) (channel r) (transcript r) (Some e).

(** [df["embedding"] = list(embeddings)] *)
Definition assign_embeddings (df : DataFrame) (embs : list vec) : DataFrame :=
  mkFrame (add_column "embedding" (columns df))
          (zip_with set_embedding (rows df) embs).

(** [embeddings.shape[1]] of the array of embeddings *)
Definition shape1 (embs : list vec) : nat :=
  match embs with
  | e :: _ => length e
  | [] => 0
  end.

(** The two writes that persist a built index (lines 144-152), in the
    order the code performs them. *)
Definition persist_steps (svc : Service) (ix : Faiss.Index)
    (df : DataFrame) : list DiskStep :=
  write_steps (index_path svc) (FaissFile ix)
  ++ write_steps (embeddings_path svc) (ParquetFile df).

Section WithBackend.
Context `{EmbeddingBackend}.

(** [self.model.encode(texts, batch_size=..., convert_to_numpy=True)] *)
Definition encode_batch (model : string) (texts : list string)
    (batch_size : nat) : list vec :=
  map (encode model) texts.

Definition build_index (settings : Settings) (svc : Service) (fs : FS)
    (model : option string) (batch_size : option nat)
    (force_rebuild : bool) : Outcome (nat * nat) * Service * FS :=
  if exists_path fs (index_path svc) && negb force_rebuild then
    match load_index svc fs with
    | (Raise e, svc') => (Raise e, svc', fs)
    | (Ok _, svc') =>
        match metadata svc', index svc' with
        | Some md, Some ix =>
            (Ok (length (rows md), Faiss.ntotal ix), svc', fs)
        | _, _ => (Raise (TypeError "object of type 'NoneType'"), svc', fs)
        end
    end
  else
    let svc1 :=
      match model with
      | Some m =>
          if truthy model && negb (String.eqb m (model_name svc))
          then set_model_name svc m else svc
      | None => svc
      end in
    let transcripts_path := settings_transcripts_path settings in
    if negb (exists_path fs transcripts_path) then
      (Raise (FileNotFoundError
                ("Transcripts not found: " +:+ transcripts_path)),
       svc1, fs)
    else
      match read_parquet fs transcripts_path with
      | Raise e => (Raise e, svc1, fs)
      | Ok df0 =>
          if negb (has_column "transcript" df0) then
            (Raise (KeyError "transcript"), svc1, fs)
          else
            let df := with_transcripts df0 in
            if bool_decide (length (rows df) = 0) then
              (Raise (ValueError "No videos with transcripts found"),
               svc1, fs)
            else
              let bs := match batch_size with
                        | Some (S b) => S b
                        | _ => settings_embedding_batch_size settings
                        end in
              let texts := map transcript_text (rows df) in
              let embeddings := encode_batch (model_name svc1) texts bs in
              let dimension := shape1 embeddings in
              let ix0 := Faiss.IndexFlatIP dimension in
              let embeddings := map normalize_L2 embeddings in
              let ix := Faiss.add ix0 embeddings in
              let svc2 := set_index svc1 ix in
              let df' := assign_embeddings df embeddings in
              let fs' := run_steps (persist_steps svc2 ix df') fs in
              (Ok (length (rows df'), Faiss.ntotal ix),
               set_metadata svc2 df', fs')
      end.

(** One entry of the list [search] returns (the dictionary built at
    lines 221-234). *)
Record SearchHit : Type := mkHit {
  hit_video_id : string;
  hit_title : string;
  hit_channel : string;
  hit_score : Q;
  hit_snippet : option string;
  hit_start_time : Q
}.

(** [row.get("transcript", "")[:200] + "..." if row.get("transcript")
    else None] *)
Definition snippet_of (r : VideoRow) : option string :=
  match transcript r with
  | Some t => if String.eqb t "" then None
              else Some (String.substring 0 200 t +:+ "...")
  | None => None
  end.

Definition result_of (r : VideoRow) (score : Q) : SearchHit :=
  mkHit (video_id r) (title r) (default "Unknown" (channel r))
        score (snippet_of r) 0%Q.

(** [min_score is not None and score < min_score] *)
Definition below (min_score : option Q) (score : Q) : bool :=
  match min_score with
  | Some m => Qltb score m
  | None => false
  end.

(** The loop of lines 203-236 over [zip(distances[0], indices[0])]. *)
Fixpoint build_results (md : DataFrame) (min_score : option Q)
    (pairs : list Faiss.hit) : Outcome (list SearchHit) :=
  match pairs with
  | [] => Ok []
  | (dist, idx) :: rest =>
      if (idx =? -1)%Z then build_results md min_score rest
      else
        let score := dist in
        if below min_score score then build_results md min_score rest
        else
          match iloc md idx with
          | None =>
              Raise (IndexError "single positional indexer is out-of-bounds")
          | Some row =>
              match build_results md min_score rest with
              | Ok results => Ok (result_of row score :: results)
              | Raise e => Raise e
              end
          end
  end.

Definition search (svc : Service) (query : string) (top_k : nat)
    (metric : string) (min_score : option Q) : Outcome (list SearchHit) :=
  match index svc, metadata svc with
  | Some ix, Some md =>
      let query_embedding :=
        normalize_L2 (encode (model_name svc) query) in
      match Faiss.search ix query_embedding top_k with
      | Raise e => Raise e
      | Ok pairs => build_results md min_score pairs
      end
  | _, _ => Raise (ValueError "Index not loaded. Call load_index() first.")
  end.

End WithBackend.

End VectorSearch.

(** ** Request and response models ([app/models.py], [app/api/search.py]) *)

Module Api.

Definition allowed_metrics : list string :=
  ["cosine"; "euclidean"; "dot_product"].

(** [SearchRequest.validate_metric] *)
Definition validate_metric (v : string) : Outcome string :=
  if existsb (String.eqb v) allowed_metrics then Ok v
  else Raise (ValueError "Metric must be one of the allowed metrics").

(** [SearchResult.score]: [Field(..., ge=0, le=1)] *)
Definition score_in_range (s : Q) : bool :=
  Qle_bool 0 s && Qle_bool s 1.

Inductive Response (A : Type) : Type :=
| Http200 (body : A)
| Http422 (detail : string)
| Http500 (detail : string).
Arguments Http200 {A} body.
Arguments Http422 {A} detail.
Arguments Http500 {A} detail.

Record SearchRequest : Type := mkRequest {
  req_query : string;
  req_top_k : nat;
  req_metric : string;
  req_min_score : option Q
}.

(** Field constraints of [SearchRequest]. *)
Definition request_valid (r : SearchRequest) : bool :=
  (1 <=? String.length (req_query r)) && (String.length (req_query r) <=? 500)
  && (1 <=? req_top_k r) && (req_top_k r <=? 50)
  && is_ok (validate_metric (req_metric r))
  && match req_min_score r with
     | Some m => Qle_bool 0 m && Qle_bool m 1
     | None => true
     end.

(** [POST /search]: every failure inside the handler, the validation of
    a [SearchResult] included, becomes a 500.  A request that violates the
    field constraints does not reach the handler: FastAPI raises
    [RequestValidationError], and the application's own handler for it
    ([validation_exception_handler] of [app/main.py]) builds a
    [JSONResponse] from [ErrorResponse(...).model_dump()], whose
    [timestamp] is a [datetime]; rendering it raises [TypeError], so the
    client receives the server's plain 500 instead of the 422. *)
Definition search_endpoint `{EmbeddingBackend} (svc : VectorSearch.Service)
    (r : SearchRequest) : Response (list VectorSearch.SearchHit) :=
  if negb (request_valid r) then Http500 "Internal Server Error"
  else
    match VectorSearch.search svc (req_query r) (req_top_k r)
                              (req_metric r) (req_min_score r) with
    | Raise e => Http500 "Search failed"
    | Ok results =>
        if forallb (λ h, score_in_range (VectorSearch.hit_score h)) results
        then Http200 results
        else Http500 "Search failed"
    end.

End Api.

(** ** Index helpers of [scripts/embed_and_index.py] *)

Module EmbedScript.

(** [build_faiss_index] *)
Definition build_faiss_index (embeddings : list vec) (metric : string)
    : Outcome Faiss.Index :=
  let dimension := VectorSearch.shape1 embeddings in
  if String.eqb metric "cosine" then
    Ok (Faiss.add (Faiss.IndexFlatIP dimension) embeddings)
  else if String.eqb metric "euclidean" then
    Ok (Faiss.add (Faiss.IndexFlatL2 dimension) embeddings)
  else Raise (ValueError ("Unsupported metric: " +:+ metric)).

(** [save_index] *)
Definition save_index (ix : Faiss.Index) (output_path : string)
    : list DiskStep :=
  write_steps output_path (FaissFile ix).

(** [save_embeddings] *)
Definition save_embeddings (df : DataFrame) (embeddings : list vec)
    (output_path : string) : list DiskStep :=
  write_steps output_path
    (ParquetFile (VectorSearch.assign_embeddings df embeddings)).

End EmbedScript.

(** ** [YouTubeService]: transcript fetching *)

Module YouTube.

(** What one request to the transcript provider
    ([YouTubeTranscriptApi.get_transcript]) can do: return segments,
    raise one of the three "not available" exceptions the service names,
    or raise anything else (network failure, rate limit, ...). *)
Inductive ApiOutcome : Type :=
| Segments (segs : list Segment)
| TranscriptsDisabled
| NoTranscriptFound
| VideoUnavailable
| OtherException (msg : string).

(** The provider: its answer may depend on how many requests for the
    same video came before (a transient failure goes away on a later
    attempt, a permanent one does not). *)
Definition Provider : Type := string → nat → ApiOutcome.

Inductive LogEntry : Type :=
| LogDebug (video : string)
| LogError (video : string).

(** The observable trace of a run: the requests sent upstream, in order,
    and the messages [get_transcript] logs. *)
Record Trace : Type := mkTrace {
  calls : list string;
  logs : list LogEntry
}.

Definition empty_trace : Trace := mkTrace [] [].

Definition attempts (t : Trace) (video : string) : nat :=
  length (List.filter (String.eqb video) (calls t)).

(** [get_transcript] *)
Definition get_transcript (api : Provider) (video : string) (t : Trace)
    : option (list Segment) * Trace :=
  let t1 := mkTrace (calls t ++ [video]) (logs t) in
  match api video (attempts t video) with
  | Segments segs => (Some segs, t1)
  | TranscriptsDisabled | NoTranscriptFound | VideoUnavailable =>
      (None, mkTrace (calls t1) (logs t1 ++ [LogDebug video]))
  | OtherException _ =>
      (None, mkTrace (calls t1) (logs t1 ++ [LogError video]))
  end.

(** One element of the [transcripts] list of [fetch_transcripts]. *)
Record TranscriptEntry : Type := mkEntry {
  te_video_id : string;
  te_transcript : option string;
  te_segments : option (list Segment)
}.

(** [" ".join([seg["text"] for seg in transcript])] *)
Definition join_text (segs : list Segment) : string :=
  String.concat " " (map seg_text segs).

Record LoopState : Type := mkLoop {
  success_count : nat;
  failed_count : nat;
  transcripts : list TranscriptEntry;
  trace : Trace
}.

(** The body of the loop of lines 285-305. *)
Definition fetch_one (api : Provider) (st : LoopState) (row : VideoRow)
    : LoopState :=
  let '(transcript, t') := get_transcript api (video_id row) (trace st) in
  match transcript with
  | Some (seg :: segs) =>
      mkLoop (S (success_count st)) (failed_count st)
             (transcripts st ++
                [mkEntry (video_id row) (Some (join_text (seg :: segs)))
                         (Some (seg :: segs))])
             t'
  | _ =>
      mkLoop (success_count st) (S (failed_count st))
             (transcripts st ++ [mkEntry (video_id row) None None])
             t'
  end.

Definition lacks_transcript (r : VideoRow) : bool :=
  match transcript r with
  | Some t => String.eqb t ""
  | None => true
  end.

Definition set_transcript (r : VideoRow) (t : option string) : VideoRow :=
  mkRow (video_id r) (title r) (channel r) t (embedding r).

(** The value of the [transcript] column of a merged row: without an
    old column the new value; with one, [transcript_new.fillna(old)]. *)
Definition merged_transcript (had_column : bool) (r : VideoRow)
    (new : option string) : option string :=
  if had_column then
    match new with
    | Some t => Some t
    | None => transcript r
    end
  else new.

(** [df.merge(transcript_df, on="video_id", how="left",
    suffixes=("", "_new"))] followed by the update of the [transcript]
    column. *)
Definition merge_rows (had_column : bool) (left : list VideoRow)
    (right : list TranscriptEntry) : list VideoRow :=
  flat_map
    (λ r,
       match List.filter (λ e, String.eqb (te_video_id e) (video_id r)) right with
       | [] => [set_transcript r (merged_transcript had_column r None)]
       | ms => map (λ e, set_transcript r
                          (merged_transcript had_column r (te_transcript e)))
                   ms
       end)
    left.

(** [if video_ids:] on an optional list *)
Definition select_ids (video_ids : option (list string)) (df : DataFrame)
    : DataFrame :=
  match video_ids with
  | Some (v :: vs) =>
      mkFrame (columns df)
              (List.filter (λ r, existsb (String.eqb (video_id r)) (v :: vs))
                           (rows df))
  | _ => df
  end.

Definition skip_existing (force_refresh : bool) (df : DataFrame) : DataFrame :=
  if negb force_refresh && has_column "transcript" df then
    mkFrame (columns df) (List.filter lacks_transcript (rows df))
  else df.

(** [fetch_transcripts]: the frame is read from [settings.videos_path],
    the result is written to [settings.transcripts_path]. *)
Definition fetch_transcripts (settings : Settings) (api : Provider)
    (fs : FS) (t : Trace) (video_ids : option (list string))
    (force_refresh : bool) : Outcome (nat * nat) * FS * Trace :=
  if negb (exists_path fs (settings_videos_path settings)) then
    (Raise (FileNotFoundError
              ("Videos file not found: " +:+ settings_videos_path settings)),
     fs, t)
  else
    match read_parquet fs (settings_videos_path settings) with
    | Raise e => (Raise e, fs, t)
    | Ok df0 =>
        let df := skip_existing force_refresh (select_ids video_ids df0) in
        let st := foldl (fetch_one api) (mkLoop 0 0 [] t) (rows df) in
        match transcripts st with
        | [] => (Raise (KeyError "video_id"), fs, trace st)
        | _ =>
            let had := has_column "transcript" df in
            let result_df :=
              mkFrame (add_column "transcript" (columns df))
                      (merge_rows had (rows df) (transcripts st)) in
            let fs' :=
              run_steps (write_steps (settings_transcripts_path settings)
                                     (ParquetFile result_df)) fs in
            (Ok (success_count st, failed_count st), fs', trace st)
        end
    end.

(** Two answers of the provider that differ at most in the kind of
    failure. *)
Definition same_success (o1 o2 : ApiOutcome) : Prop :=
  match o1, o2 with
  | Segments s1, Segments s2 => s1 = s2
  | Segments _, _ | _, Segments _ => False
  | _, _ => True
  end.

(** Two loop states that differ at most in the log. *)
Definition same_but_logs (s1 s2 : LoopState) : Prop :=
  success_count s1 = success_count s2
  ∧ failed_count s1 = failed_count s2
  ∧ transcripts s1 = transcripts s2
  ∧ calls (trace s1) = calls (trace s2).

Definition is_permanent (o : ApiOutcome) : bool :=
  match o with
  | TranscriptsDisabled | NoTranscriptFound | VideoUnavailable => true
  | _ => false
  end.

(** The columns of the frame [collect_videos] writes to
    [settings.videos_path] (the keys of the dictionaries built by
    [_fetch_video_details]). *)
Definition collected_columns : list string :=
  ["video_id"; "title"; "channel"; "channel_id"; "published_at";
   "description"; "thumbnail_url"; "view_count"; "like_count";
   "duration"; "tags"].

End YouTube.

(** ** Interrupted persists and concrete instances *)

Module Crash.

(** A persist that is interrupted after [k] of its disk steps. *)
Definition interrupted_persist (k : nat) (svc : VectorSearch.Service)
    (ix : Faiss.Index) (df : DataFrame) (fs : FS) : FS :=
  run_steps (take k (VectorSearch.persist_steps svc ix df)) fs.

(** The pair of files that make up the snapshot of a service. *)
Definition snapshot_on_disk (svc : VectorSearch.Service) (fs : FS)
    : option File * option File :=
  (fs !! VectorSearch.index_path svc, fs !! VectorSearch.embeddings_path svc).

End Crash.

Module Toy.

(** A backend with two-dimensional embeddings that are already of unit
    length, so that L2 normalisation leaves them as they are. *)
Definition toy_encode (model text : string) : vec :=
  if String.eqb text "cats" then [1%Q; 0%Q]
  else if String.eqb text "felines" then [(12 # 13)%Q; (5 # 13)%Q]
  else if String.eqb text "puppies" then [(5 # 13)%Q; (12 # 13)%Q]
  else if String.eqb text "dogs" then [0%Q; 1%Q]
  else if String.eqb text "not cats" then [(-1)%Q; 0%Q]
  else [(3 # 5)%Q; (4 # 5)%Q].

#[local] Instance backend : EmbeddingBackend :=
  {| encode := toy_encode; normalize_L2 := λ v, v |}.

Definition row (vid text : string) : VideoRow :=
  mkRow vid ("Title of " +:+ vid) (Some "Channel") (Some text) None.

Definition transcripts_frame : DataFrame :=
  mkFrame (YouTube.collected_columns ++ ["transcript"])
          [row "v1" "cats";
           mkRow "v2" "Title of v2" None None None;
           row "v3" "dogs";
           row "v4" "pets";
           row "v5" "felines";
           row "v6" "not cats";
           row "v7" "puppies"].

Definition svc0 : VectorSearch.Service :=
  VectorSearch.init default_settings "all-MiniLM-L6-v2" None None.

Definition fs0 : FS :=
  {[ settings_transcripts_path default_settings := ParquetFile transcripts_frame ]}.

Definition built : Outcome (nat * nat) * VectorSearch.Service * FS :=
  VectorSearch.build_index default_settings svc0 fs0 None None false.

Definition svc1 : VectorSearch.Service := built.1.2.
Definition fs1 : FS := built.2.

(** A snapshot whose two files disagree: two vectors, one row. *)
Definition mismatched_fs : FS :=
  {[ settings_index_path default_settings :=
       FaissFile (Faiss.mkIndex Faiss.METRIC_INNER_PRODUCT 2
                                [[1%Q; 0%Q]; [0%Q; 1%Q]]);
     settings_embeddings_path default_settings :=
       ParquetFile (mkFrame ["video_id"; "title"; "transcript"; "embedding"]
                            [mkRow "v1" "Title of v1" None (Some "cats")
                                   (Some [1%Q; 0%Q])]) ]}.

(** Ten collected videos, as [collect_videos] stores them. *)
Definition video_ids10 : list string :=
  ["vid1"; "vid2"; "vid3"; "vid4"; "vid5";
   "vid6"; "vid7"; "vid8"; "vid9"; "vid10"].

Definition videos_frame : DataFrame :=
  mkFrame YouTube.collected_columns
          (map (λ v, mkRow v ("Title of " +:+ v) (Some "Channel") None None)
               video_ids10).

Definition videos_fs : FS :=
  {[ settings_videos_path default_settings := ParquetFile videos_frame ]}.

Definition one_segment : list Segment :=
  [mkSegment "hello" 0%Q 1%Q; mkSegment "world" 1%Q 1%Q].

(** Video 7 has no captions, at every attempt; the others answer. *)
Definition provider7 : YouTube.Provider :=
  λ video _, if String.eqb video "vid7" then YouTube.TranscriptsDisabled
             else YouTube.Segments one_segment.

Definition run1 : Outcome (nat * nat) * FS * YouTube.Trace :=
  YouTube.fetch_transcripts default_settings provider7 videos_fs
                            YouTube.empty_trace None false.

Definition run2 : Outcome (nat * nat) * FS * YouTube.Trace :=
  YouTube.fetch_transcripts default_settings provider7 run1.1.2 run1.2
                            None false.

(** The same two runs when the videos file and the transcripts file are
    configured to be one file. *)
Definition one_file_settings : Settings :=
  mkSettings "./data/index.faiss" "./data/embeddings.parquet"
             "./data/videos.parquet" "./data/videos.parquet" 32.

Definition run1_one_file : Outcome (nat * nat) * FS * YouTube.Trace :=
  YouTube.fetch_transcripts one_file_settings provider7 videos_fs
                            YouTube.empty_trace None false.

Definition run2_one_file : Outcome (nat * nat) * FS * YouTube.Trace :=
  YouTube.fetch_transcripts one_file_settings provider7 run1_one_file.1.2
                            run1_one_file.2 None false.

(** A provider that times out on the first request for a video and
    answers from the second request on, and one for which the video has
    no captions. *)
Definition flaky : YouTube.Provider :=
  λ video attempt,
    match attempt with
    | 0 => YouTube.OtherException "Read timed out"
    | S _ => YouTube.Segments one_segment
    end.

Definition gone : YouTube.Provider := λ _ _, YouTube.VideoUnavailable.

Definition always_timeout : YouTube.Provider :=
  λ _ _, YouTube.OtherException "Read timed out".

Definition single_fs : FS :=
  {[ settings_videos_path default_settings :=
       ParquetFile (mkFrame YouTube.collected_columns
                            [mkRow "vid1" "Title" (Some "Channel") None None]) ]}.

Definition ix1 : Faiss.Index :=
  default (Faiss.IndexFlatIP 0) (VectorSearch.index svc1).
Definition md1 : DataFrame :=
  default (mkFrame [] []) (VectorSearch.metadata svc1).

End Toy.

(** ** Vocabulary of the statements about [search] *)

Module SearchSpec.

Import VectorSearch.

(** A slot of the FAISS answer that holds a stored vector. *)
Definition real (h : Faiss.hit) : bool := negb (h.2 =? -1)%Z.

(** The slots the result loop keeps. *)
Definition keeps (min_score : option Q) (h : Faiss.hit) : bool :=
  real h && negb (below min_score h.1).




(** A result entry is the metadata row at the ordinal of the hit,
    carrying the score of the hit. *)
Definition resolves (md : DataFrame) (h : Faiss.hit) (r : SearchHit) : Prop :=
  ∃ row, iloc md h.2 = Some row ∧ r = result_of row h.1.


(** The query vector handed to FAISS (lines 187-193). *)
Definition query_embedding_of `{EmbeddingBackend} (svc : Service)
    (query : string) : vec :=
  normalize_L2 (encode (model_name svc) query).

End SearchSpec.

(** ** Vocabulary for statements about a batch of transcript requests *)

Module FetchSpec.

Import YouTube.

(** The answers the provider gives to a batch that sends one request per
    row, in row order, after the requests [earlier]: the attempt number
    of a request counts the earlier requests for the same video. *)
Fixpoint answers (api : Provider) (earlier : list string)
    (rs : list VideoRow) : list ApiOutcome :=
  match rs with
  | [] => []
  | r :: rs =>
      api (video_id r)
          (length (List.filter (String.eqb (video_id r)) earlier))
      :: answers api (earlier ++ [video_id r]) rs
  end.

(** An answer that carries a transcript: a list of at least one
    segment. *)
Definition answered (o : ApiOutcome) : bool :=
  match o with
  | Segments (_ :: _) => true
  | _ => false
  end.

Definition unanswered (o : ApiOutcome) : bool := negb (answered o).

(** What is recorded for a video whose request got the answer [o]. *)
Definition recorded (video : string) (o : ApiOutcome) : TranscriptEntry :=
  match o with
  | Segments (seg :: segs) =>
      mkEntry video (Some (join_text (seg :: segs))) (Some (seg :: segs))
  | _ => mkEntry video None None
  end.

(** What is logged for it. *)
Definition logged (video : string) (o : ApiOutcome) : list LogEntry :=
  match o with
  | Segments _ => []
  | TranscriptsDisabled | NoTranscriptFound | VideoUnavailable =>
      [LogDebug video]
  | OtherException _ => [LogError video]
  end.

End FetchSpec.

(** ** What a build computes from the transcripts frame *)

Module Snapshot.

Import VectorSearch.

(** The model in use after lines 98-103. *)
Definition chosen_model (svc : Service) (model : option string) : string :=
  match model with
  | Some m => if truthy model && negb (String.eqb m (model_name svc))
              then m else model_name svc
  | None => model_name svc
  end.

(** The stored vectors: one per row that has a transcript, in row order. *)
Definition built_vectors `{EmbeddingBackend} (model : string)
    (df0 : DataFrame) : list vec :=
  map (λ r, normalize_L2 (encode model (transcript_text r)))
      (rows (with_transcripts df0)).

Definition built_index `{EmbeddingBackend} (model : string)
    (df0 : DataFrame) : Faiss.Index :=
  Faiss.mkIndex Faiss.METRIC_INNER_PRODUCT
    (shape1 (map (λ r, encode model (transcript_text r))
                 (rows (with_transcripts df0))))
    (built_vectors model df0).

Definition built_metadata `{EmbeddingBackend} (model : string)
    (df0 : DataFrame) : DataFrame :=
  assign_embeddings (with_transcripts df0) (built_vectors model df0).

Definition ascending (r1 r2 : SearchHit) : Prop :=
  (hit_score r1 <= hit_score r2)%Q.

End Snapshot.

Module ToyL2.

(** The toy vectors in a euclidean index, as the script builds it, next to
    the toy metadata. *)
Definition ix : Faiss.Index :=
  match EmbedScript.build_faiss_index (Faiss.xb Toy.ix1) "euclidean" with
  | Ok ix => ix
  | Raise _ => Faiss.IndexFlatL2 0
  end.

Definition svc : VectorSearch.Service :=
  VectorSearch.set_metadata (VectorSearch.set_index Toy.svc0 ix) Toy.md1.

(** The service after loading the snapshot whose counts disagree. *)
Definition mismatched_svc : VectorSearch.Service :=
  (VectorSearch.load_index Toy.svc0 Toy.mismatched_fs).2.



End ToyL2.

(** ** [YouTubeService]: collection

    The YouTube Data API is external.  A request either answers or raises
    [HttpError]; the three requests the service sends are the fields of
    [DataApi].  A page token is an opaque cursor, here a number. *)

Module Collect.

Inductive ApiResp (A : Type) : Type :=
| Resp (a : A)
| HttpError.
Arguments Resp {A} a.
Arguments HttpError {A}.

(** An item of [playlistItems().list] and of [videos().list], reduced to
    the fields the rows of this development keep. *)
Record Item : Type := mkItem {
  item_video_id : string;
  item_title : string;
  item_channel : string;
  item_published_at : string
}.

Record Page : Type := mkPage {
  page_items : list Item;
  next_page_token : option nat
}.

Record DataApi : Type := mkApi {
  (** [channels().list(part="contentDetails", id=...)]: the uploads
      playlist of the first item, [None] when there are no items *)
  channels_list : string → ApiResp (option string);
  (** [playlistItems().list(playlistId, maxResults, pageToken)] *)
  playlist_items : string → nat → option nat → ApiResp Page;
  (** [videos().list(id=",".join(batch))] *)
  videos_list : list string → ApiResp (list Item)
}.

Definition row_of_item (it : Item) : VideoRow :=
  mkRow (item_video_id it) (item_title it) (Some (item_channel it)) None None.

(** [_extract_channel_id]: [channel_url.split("/")[-1]] *)
Fixpoint split_on (sep : Ascii.ascii) (s : string) : list string :=
  match s with
  | EmptyString => [EmptyString]
  | String c s' =>
      if Ascii.eqb c sep then EmptyString :: split_on sep s'
      else match split_on sep s' with
           | x :: xs => String c x :: xs
           | [] => [String c EmptyString]
           end
  end.

(** The character "/". *)
Definition slash : Ascii.ascii := Ascii.ascii_of_nat 47.

Definition _extract_channel_id (channel_url : string) : string :=
  List.last (split_on slash channel_url) EmptyString.

Fixpoint has_char (c : Ascii.ascii) (s : string) : bool :=
  match s with
  | EmptyString => false
  | String c' s' => Ascii.eqb c' c || has_char c s'
  end.

(** [range(0, len(video_ids), 50)] and [video_ids[i : i + 50]] *)
Definition batches (video_ids : list string) : list (list string) :=
  map (λ k, take 50 (drop (50 * k) video_ids))
      (seq 0 ((length video_ids + 49) / 50)).

(** [_fetch_video_details]: a batch whose request raises [HttpError] is
    logged and skipped. *)
Definition batch_details (api : DataApi) (batch : list string) : list VideoRow :=
  match videos_list api batch with
  | Resp items => map row_of_item items
  | HttpError => []
  end.

Definition _fetch_video_details (api : DataApi) (video_ids : list string)
    : list VideoRow :=
  flat_map (batch_details api) (batches video_ids).

(** The request for a batch did not raise. *)
Definition answered (api : DataApi) (batch : list string) : bool :=
  match videos_list api batch with
  | Resp _ => true
  | HttpError => false
  end.

(** [published_after and snippet["publishedAt"] < published_after] *)
Definition too_early (published_after : option string) (it : Item) : bool :=
  truthy published_after
  && String.ltb (item_published_at it) (default "" published_after).

Definition kept (published_after : option string) (it : Item) : bool :=
  negb (too_early published_after it).

(** The [while len(videos) < max_results] loop of [_fetch_playlist_videos].
    One unit of fuel is one request; [None] means the fuel ran out. *)
Fixpoint playlist_loop (fuel : nat) (api : DataApi) (playlist_id : string)
    (max_results : nat) (published_after : option string)
    (token : option nat) (videos : list VideoRow) : option (list VideoRow) :=
  if length videos <? max_results then
    match fuel with
    | 0 => None
    | S fuel' =>
        match playlist_items api playlist_id
                (50 `min` (max_results - length videos)) token with
        | HttpError => Some videos
        | Resp page =>
            let videos' :=
              videos ++ map row_of_item
                            (List.filter (kept published_after)
                                         (page_items page)) in
            match next_page_token page with
            | None => Some videos'
            | Some t =>
                playlist_loop fuel' api playlist_id max_results
                              published_after (Some t) videos'
            end
        end
    end
  else Some videos.

(** [details_dict.get(video["video_id"], {})] on the dictionary built from
    the detailed rows: the last row with that identifier. *)
Definition details_for (detailed : list VideoRow) (vid : string)
    : option VideoRow :=
  List.find (λ d, String.eqb (video_id d) vid) (rev detailed).

(** [video.update(details)] *)
Definition merge_details (detailed : list VideoRow) (video : VideoRow)
    : VideoRow :=
  match details_for detailed (video_id video) with
  | Some d => mkRow (video_id d) (title d) (channel d)
                    (transcript video) (embedding video)
  | None => video
  end.

Definition _fetch_playlist_videos (fuel : nat) (api : DataApi)
    (playlist_id : string) (max_results : nat)
    (published_after : option string) : option (list VideoRow) :=
  match playlist_loop fuel api playlist_id max_results published_after
                      None [] with
  | None => None
  | Some [] => Some []
  | Some videos =>
      let detailed := _fetch_video_details api (map video_id videos) in
      Some (map (merge_details detailed) videos)
  end.

Inductive CollectError : Type :=
| CollectValueError (msg : string)
| CollectHttpError.

Inductive CollectResult : Type :=
| Collected (n : nat)
| CollectFailed (e : CollectError).

Definition truthy_list {A} (l : option (list A)) : bool :=
  match l with
  | Some (_ :: _) => true
  | _ => false
  end.

(** The columns of [pd.DataFrame(videos)]: the keys of the playlist
    dictionaries, and those of the detail dictionaries when the list was
    built from details. *)
Definition playlist_columns : list string :=
  ["video_id"; "title"; "channel"; "channel_id"; "published_at";
   "description"; "thumbnail_url"].

(** The saving step of lines 124-131. *)
Definition save_videos (settings : Settings) (cols : list string)
    (videos : list VideoRow) (fs : FS) : CollectResult * FS :=
  match videos with
  | [] => (Collected 0, fs)
  | _ => (Collected (length videos),
          run_steps (write_steps (settings_videos_path settings)
                                 (ParquetFile (mkFrame cols videos))) fs)
  end.

Definition playlist_frame_columns (api : DataApi) (videos : list VideoRow)
    : list string :=
  match _fetch_video_details api (map video_id videos) with
  | [] => playlist_columns
  | detailed =>
      if existsb (λ v, match details_for detailed (video_id v) with
                       | Some _ => true
                       | None => false
                       end) videos
      then YouTube.collected_columns else playlist_columns
  end.

(** [collect_videos].  [None]: the paging ran out of fuel. *)
Definition collect_videos (fuel : nat) (settings : Settings) (api : DataApi)
    (fs : FS) (channel_id channel_url playlist_id : option string)
    (video_ids : option (list string)) (max_results : nat)
    (published_after : option string) : option (CollectResult * FS) :=
  if truthy_list video_ids then
    Some (save_videos settings YouTube.collected_columns
            (_fetch_video_details api (default [] video_ids)) fs)
  else if truthy channel_id || truthy channel_url then
    let cid := if truthy channel_url
               then _extract_channel_id (default "" channel_url)
               else default "" channel_id in
    match channels_list api cid with
    | HttpError => Some (CollectFailed CollectHttpError, fs)
    | Resp None =>
        Some (CollectFailed (CollectValueError ("Channel not found: " +:+ cid)),
              fs)
    | Resp (Some uploads_playlist_id) =>
        match _fetch_playlist_videos fuel api uploads_playlist_id max_results
                                     published_after with
        | None => None
        | Some videos =>
            Some (save_videos settings (playlist_frame_columns api videos)
                              videos fs)
        end
    end
  else if truthy playlist_id then
    match _fetch_playlist_videos fuel api (default "" playlist_id) max_results
                                 published_after with
    | None => None
    | Some videos =>
        Some (save_videos settings (playlist_frame_columns api videos)
                          videos fs)
    end
  else
    Some (CollectFailed
            (CollectValueError
               "Must provide channel_id, channel_url, playlist_id, or video_ids"),
          fs).

(** A playlist held upstream as a list of items; the cursor is the offset
    of the next item.  The answer respects [maxResults]. *)
Definition list_playlist (items : list Item) (max_per_page : nat)
    (token : option nat) : ApiResp Page :=
  let off := default 0 token in
  Resp (mkPage (take max_per_page (drop off items))
               (if off + max_per_page <? length items
                then Some (off + max_per_page) else None)).

(** An upstream with one playlist and the details of its videos. *)
Definition list_api (items : list Item) : DataApi :=
  mkApi (λ _, Resp (Some "uploads"))
        (λ _, list_playlist items)
        (λ batch,
           Resp (flat_map (λ vid, List.filter
                                    (λ it, String.eqb (item_video_id it) vid)
                                    items) batch)).

End Collect.

(** ** Vocabulary for statements about the paging of a playlist *)

Module CollectSpec.

Import Collect.

(** The videos a page contributes. *)
Definition contribution (published_after : option string) (page : Page)
    : list Item :=
  List.filter (kept published_after) (page_items page).

(** [reads api playlist max_results published_after token n pages]: the
    pages a paging run reads from the upstream, in order, starting at the
    cursor [token] with [n] videos gathered so far.  A page is requested
    only while fewer than [max_results] videos are gathered; it is the
    upstream's answer to the request for at most
    [min(50, max_results - n)] items at the current cursor; the next
    request uses the cursor the page hands out, and there is none after a
    page without a cursor. *)
Inductive reads (api : DataApi) (playlist : string) (max_results : nat)
    (published_after : option string)
    : option nat → nat → list Page → Prop :=
| reads_stop token n :
    reads api playlist max_results published_after token n []
| reads_page token n page pages :
    n < max_results →
    playlist_items api playlist (50 `min` (max_results - n)) token
    = Resp page →
    (next_page_token page = None → pages = []) →
    reads api playlist max_results published_after (next_page_token page)
          (n + length (contribution published_after page)) pages →
    reads api playlist max_results published_after token n (page :: pages).

End CollectSpec.

Module ToyCollect.

(** Scenario: five uploads dated before the bound, then three after. *)
Definition item (n date : string) : Collect.Item :=
  Collect.mkItem ("vid" +:+ n) ("Title " +:+ n) "Channel" date.

Definition uploads : list Collect.Item :=
  [item "1" "2023-01-01T00:00:00Z"; item "2" "2023-02-01T00:00:00Z";
   item "3" "2023-03-01T00:00:00Z"; item "4" "2023-04-01T00:00:00Z";
   item "5" "2023-05-01T00:00:00Z"; item "6" "2024-01-01T00:00:00Z";
   item "7" "2024-02-01T00:00:00Z"; item "8" "2024-03-01T00:00:00Z"].

Definition api : Collect.DataApi := Collect.list_api uploads.

End ToyCollect.

(** ** [get_video_details] *)

Module VideoDetails.

(** The dictionary [get_video_details] returns: the row and, under the key
    "transcript", either nothing or a list of segments. *)
Record VideoData : Type := mkData {
  data_row : VideoRow;
  data_transcript : option (list Segment)
}.

(** [df[df["video_id"] == video_id]] followed by [row.iloc[0]] *)
Definition local_row (df : DataFrame) (vid : string) : option VideoRow :=
  List.find (λ r, String.eqb (video_id r) vid) (rows df).

(** [pd.notna(video_data.get("transcript"))] *)
Definition stored_transcript_present (df : DataFrame) (r : VideoRow) : bool :=
  has_column "transcript" df
  && match transcript r with Some _ => true | None => false end.

(** The fallback of lines 367-374. *)
Definition from_api (api : Collect.DataApi) (provider : YouTube.Provider)
    (vid : string) (t : YouTube.Trace) : option VideoData * YouTube.Trace :=
  match Collect._fetch_video_details api [vid] with
  | v :: _ =>
      let '(segs, t') := YouTube.get_transcript provider vid t in
      (Some (mkData v segs), t')
  | [] => (None, t)
  end.

(** [get_video_details]; every exception inside is turned into [None]. *)
Definition get_video_details (settings : Settings) (api : Collect.DataApi)
    (provider : YouTube.Provider) (fs : FS) (vid : string) (t : YouTube.Trace)
    : option VideoData * YouTube.Trace :=
  if exists_path fs (settings_transcripts_path settings) then
    match read_parquet fs (settings_transcripts_path settings) with
    | Raise _ => (None, t)
    | Ok df =>
        match local_row df vid with
        | Some r =>
            if stored_transcript_present df r then
              let '(segs, t') := YouTube.get_transcript provider vid t in
              (Some (mkData r segs), t')
            else (Some (mkData r None), t)
        | None => from_api api provider vid t
        end
    end
  else from_api api provider vid t.

End VideoDetails.

(** ** The HTTP handlers of [app/api] *)

Module Endpoints.

(** What a handler body can raise: an [HTTPException] or anything else.
    [HTTPException] is itself an [Exception]. *)
Inductive Exn : Type :=
| HTTPException (status_code : nat) (detail : string)
| OtherExn (message : string).

Inductive Reply (A : Type) : Type :=
| Reply200 (body : A)
| ReplyError (status_code : nat) (detail : string).
Arguments Reply200 {A} body.
Arguments ReplyError {A} status_code detail.

Definition status_text (n : nat) : string :=
  if n =? 400 then "400" else if n =? 404 then "404"
  else if n =? 500 then "500" else if n =? 503 then "503" else "?".

(** [str(e)] *)
Definition exn_str (e : Exn) : string :=
  match e with
  | HTTPException s d => status_text s +:+ ": " +:+ d
  | OtherExn m => m
  end.

(** [except Exception as e: raise HTTPException(500, prefix + str(e))],
    the only handler of the ingestion and search routes. *)
Definition catch_all {A} (prefix : string) (body : Exn + A) : Reply A :=
  match body with
  | inr v => Reply200 v
  | inl e => ReplyError 500 (prefix +:+ exn_str e)
  end.

(** [except HTTPException: raise] followed by [except Exception ...], the
    handlers of the video routes. *)
Definition reraise_http {A} (prefix : string) (body : Exn + A) : Reply A :=
  match body with
  | inr v => Reply200 v
  | inl (HTTPException s d) => ReplyError s d
  | inl e => ReplyError 500 (prefix +:+ exn_str e)
  end.

Record CollectRequest : Type := mkCollectRequest {
  cr_channel_id : option string;
  cr_channel_url : option string;
  cr_playlist_id : option string;
  cr_video_ids : option (list string);
  cr_max_results : nat;
  cr_published_after : option string
}.

(** [IngestCollectRequest]: [max_results] has [ge=1, le=500]. *)
Definition collect_request_valid (r : CollectRequest) : bool :=
  (1 <=? cr_max_results r) && (cr_max_results r <=? 500).

(** [any([channel_id, channel_url, playlist_id, video_ids])] *)
Definition any_selector (r : CollectRequest) : bool :=
  truthy (cr_channel_id r) || truthy (cr_channel_url r)
  || truthy (cr_playlist_id r) || Collect.truthy_list (cr_video_ids r).

Definition collect_error_str (e : Collect.CollectError) : string :=
  match e with
  | Collect.CollectValueError m => m
  | Collect.CollectHttpError => "HttpError"
  end.

(** The body of [POST /collect] inside its [try]. *)
Definition collect_body (fuel : nat) (settings : Settings)
    (api : Collect.DataApi) (fs : FS) (r : CollectRequest)
    : option ((Exn + nat) * FS) :=
  if negb (any_selector r) then
    Some (inl (HTTPException 400
                 "Must provide channel_id, channel_url, playlist_id, or video_ids"),
          fs)
  else
    match Collect.collect_videos fuel settings api fs (cr_channel_id r)
            (cr_channel_url r) (cr_playlist_id r) (cr_video_ids r)
            (cr_max_results r) (cr_published_after r) with
    | None => None
    | Some (Collect.Collected n, fs') => Some (inr n, fs')
    | Some (Collect.CollectFailed e, fs') =>
        Some (inl (OtherExn (collect_error_str e)), fs')
    end.

Definition collect_endpoint (fuel : nat) (settings : Settings)
    (api : Collect.DataApi) (fs : FS) (r : CollectRequest)
    : option (Reply nat * FS) :=
  if negb (collect_request_valid r) then
    (* the application's handler for [RequestValidationError] raises
       while rendering its 422 (see [Api.search_endpoint]) *)
    Some (ReplyError 500 "Internal Server Error", fs)
  else
    match collect_body fuel settings api fs r with
    | None => None
    | Some (body, fs') => Some (catch_all "Collection failed: " body, fs')
    end.

(** [str(e)] for the exceptions of the services. *)
Definition py_str (e : PyError) : string :=
  match e with
  | FileNotFoundError m | ValueError m | IndexError m | AssertionError m
  | TypeError m | RuntimeError m | ArrowInvalid m => m
  | KeyError k => "'" +:+ k +:+ "'"
  end.

Record TranscriptsBody : Type := mkTranscriptsBody {
  tb_status : string;
  tb_fetched : nat;
  tb_failed : nat
}.

(** [POST /transcripts] *)
Definition transcripts_endpoint (settings : Settings)
    (provider : YouTube.Provider) (fs : FS) (t : YouTube.Trace)
    (video_ids : option (list string)) (force_refresh : bool)
    : Reply TranscriptsBody * FS * YouTube.Trace :=
  let '(res, fs', t') :=
    YouTube.fetch_transcripts settings provider fs t video_ids force_refresh in
  (catch_all "Transcript fetching failed: "
     match res with
     | Ok (success_count, failed_count) =>
         inr (mkTranscriptsBody
                (if failed_count =? 0 then "success" else "partial")
                success_count failed_count)
     | Raise e => inl (OtherExn (py_str e))
     end,
   fs', t').

(** The body of [GET /{video_id}]: [VideoDetail] requires a channel name,
    and carries a transcript only when the list of segments is not empty. *)
Record VideoDetail : Type := mkDetail {
  vd_video_id : string;
  vd_title : string;
  vd_channel : string;
  vd_transcript : option (list Segment)
}.

Definition to_video_detail (d : VideoDetails.VideoData) : Exn + VideoDetail :=
  match channel (VideoDetails.data_row d) with
  | None => inl (OtherExn "validation error for VideoDetail: channel")
  | Some c =>
      inr (mkDetail (video_id (VideoDetails.data_row d))
                    (title (VideoDetails.data_row d)) c
                    match VideoDetails.data_transcript d with
                    | Some (seg :: segs) => Some (seg :: segs)
                    | _ => None
                    end)
  end.

(** [GET /{video_id}] *)
Definition video_endpoint (settings : Settings) (api : Collect.DataApi)
    (provider : YouTube.Provider) (fs : FS) (vid : string) (t : YouTube.Trace)
    : Reply VideoDetail * YouTube.Trace :=
  let '(data, t') :=
    VideoDetails.get_video_details settings api provider fs vid t in
  (reraise_http "Failed to fetch video: "
     match data with
     | None => inl (HTTPException 404 ("Video not found: " +:+ vid))
     | Some d => to_video_detail d
     end,
   t').

(** [GET /{video_id}/transcript] *)
Definition video_transcript_endpoint (provider : YouTube.Provider)
    (vid : string) (t : YouTube.Trace)
    : Reply (list Segment) * YouTube.Trace :=
  let '(segs, t') := YouTube.get_transcript provider vid t in
  (reraise_http "Failed to fetch transcript: "
     match segs with
     | None =>
         inl (HTTPException 404
                ("Transcript not available for video: " +:+ vid))
     | Some s => inr s
     end,
   t').

Record SystemStatus : Type := mkStatus {
  st_status : string;
  st_index_loaded : bool;
  st_index_size : nat;
  st_total_videos : nat;
  st_youtube_api_available : bool
}.

(** [len(vector_search.metadata) if vector_search.metadata else 0]: the
    truth value of a [DataFrame] is not defined, asking for it raises
    [ValueError]. *)
Definition len_if_truthy (md : option DataFrame) : Exn + nat :=
  match md with
  | None => inr 0
  | Some _ =>
      inl (OtherExn "The truth value of a DataFrame is ambiguous.")
  end.

(** [GET /status]; [youtube_ok] is what [test_connection] answers. *)
Definition get_system_status (vector_search : option VectorSearch.Service)
    (youtube_ok : bool) : SystemStatus :=
  let '(index_loaded, index_size, total_videos) :=
    match vector_search with
    | Some svc =>
        match VectorSearch.index svc with
        | Some ix =>
            match len_if_truthy (VectorSearch.metadata svc) with
            | inr n => (true, Faiss.ntotal ix, n)
            | inl _ => (true, Faiss.ntotal ix, 0)
            end
        | None => (false, 0, 0)
        end
    | None => (false, 0, 0)
    end in
  mkStatus (if index_loaded && youtube_ok then "healthy"
            else if index_loaded || youtube_ok then "degraded"
            else "unhealthy")
           index_loaded index_size total_videos youtube_ok.

End Endpoints.

(** ** [scripts/embed_and_index.py]: [main] *)

Module EmbedMain.

Record Args : Type := mkArgs {
  arg_input : string;
  arg_output_index : string;
  arg_output_embeddings : string;
  arg_model : string;
  arg_batch_size : nat;
  arg_metric : string;
  arg_force : bool
}.

(** [load_transcripts] *)
Definition load_transcripts (fs : FS) (input_path : string)
    : Outcome DataFrame :=
  if negb (exists_path fs input_path) then
    Raise (FileNotFoundError ("Transcripts file not found: " +:+ input_path))
  else
    match read_parquet fs input_path with
    | Raise e => Raise e
    | Ok df =>
        if has_column "transcript" df
        then Ok (VectorSearch.with_transcripts df)
        else Raise (KeyError "transcript")
    end.

(** [generate_embeddings]: [encode_normalized m t] is the embedding
    [model.encode(..., normalize_embeddings=True)] computes for [t]. *)
Definition generate_embeddings (encode_normalized : string → string → vec)
    (texts : list string) (model : string) (batch_size : nat) : list vec :=
  map (encode_normalized model) texts.

(** How one of the two writes of [main] can go: to its end, or raise
    before the destination is opened (the directory cannot be created, the
    path cannot be opened for writing), or raise after the destination was
    opened and truncated (disk full, serialisation error). *)
Inductive WriteFault : Type :=
| NoFault
| FailsBeforeOpen
| FailsWhileWriting.

Record Faults : Type := mkFaults {
  index_fault : WriteFault;
  embeddings_fault : WriteFault
}.

Definition try_write (fault : WriteFault) (steps : list DiskStep) (fs : FS)
    : Outcome unit * FS :=
  match fault with
  | NoFault => (Ok tt, run_steps steps fs)
  | FailsBeforeOpen =>
      (Raise (RuntimeError "could not open the file for writing"), fs)
  | FailsWhileWriting =>
      (Raise (RuntimeError "write failed"), run_steps (take 1 steps) fs)
  end.

(** [main]: the exit code of the process and the disk it leaves.  The
    two saves run one after the other inside the [try] block of lines
    176-239: an exception in either of them is caught by
    [except Exception] and the process exits with 1, leaving on disk
    whatever was written before. *)
Definition main (encode_normalized : string → string → vec)
    (faults : Faults) (args : Args) (fs : FS) : nat * FS :=
  if negb (existsb (String.eqb (arg_metric args)) ["cosine"; "euclidean"]) then
    (* argparse: [choices=["cosine", "euclidean"]] *)
    (2, fs)
  else if exists_path fs (arg_output_index args) && negb (arg_force args) then
    (0, fs)
  else
    match load_transcripts fs (arg_input args) with
    | Raise _ => (1, fs)
    | Ok df =>
        if bool_decide (length (rows df) = 0) then (1, fs)
        else if negb (has_column "published_at" df) then (1, fs)
        else
          let texts := map VectorSearch.transcript_text (rows df) in
          let embeddings :=
            generate_embeddings encode_normalized texts (arg_model args)
                                (arg_batch_size args) in
          match EmbedScript.build_faiss_index embeddings (arg_metric args) with
          | Raise _ => (1, fs)
          | Ok index =>
              match try_write (index_fault faults)
                      (EmbedScript.save_index index (arg_output_index args))
                      fs with
              | (Raise _, fs1) => (1, fs1)
              | (Ok _, fs1) =>
                  match try_write (embeddings_fault faults)
                          (EmbedScript.save_embeddings df embeddings
                             (arg_output_embeddings args))
                          fs1 with
                  | (Raise _, fs2) => (1, fs2)
                  | (Ok _, fs2) => (0, fs2)
                  end
              end
          end
    end.

End EmbedMain.

(** ** Further concrete instances *)

Module ToyExtra.

Definition unwrap {A} (o : Outcome (list A)) : list A :=
  match o with Ok l => l | Raise _ => [] end.

Definition cats3 : list VectorSearch.SearchHit :=
  unwrap (@VectorSearch.search Toy.backend Toy.svc1 "cats" 3 "cosine" None).

Definition cats3_l2 : list VectorSearch.SearchHit :=
  unwrap (@VectorSearch.search Toy.backend ToyL2.svc "cats" 3 "euclidean" None).

Definition mismatched_ix : Faiss.Index :=
  default (Faiss.IndexFlatIP 0) (VectorSearch.index ToyL2.mismatched_svc).

Definition mismatched_md : DataFrame :=
  default (mkFrame [] []) (VectorSearch.metadata ToyL2.mismatched_svc).

(** A forced rebuild on top of the toy snapshot. *)
Definition rebuilt : Outcome (nat * nat) * VectorSearch.Service * FS :=
  @VectorSearch.build_index Toy.backend default_settings Toy.svc1 Toy.fs1
                            None None true.

(** An API that knows every video asked for. *)
Definition echo_api : Collect.DataApi :=
  Collect.mkApi (λ _, Collect.Resp None)
                (λ _ _ _, Collect.HttpError)
                (λ batch, Collect.Resp
                            (map (λ vid, Collect.mkItem vid "Title" "Channel"
                                                        "2024-01-01T00:00:00Z")
                                 batch)).

Definition bound : option string := Some "2024-01-01T00:00:00Z".

Definition paged : list VideoRow :=
  default [] (Collect.playlist_loop 9 ToyCollect.api "uploads" 3 bound None []).

Definition collected : option (Collect.CollectResult * FS) :=
  Collect.collect_videos 9 default_settings ToyCollect.api ∅
                         (Some "X") None None None 3 bound.

Definition collected_fs : FS :=
  match collected with
  | Some (_, fs) => fs
  | None => ∅
  end.



Definition no_selector : Endpoints.CollectRequest :=
  Endpoints.mkCollectRequest None None None None 10 None.

Definition broken_fs : FS :=
  {[ settings_transcripts_path default_settings := PartialFile ]}.

Definition script_args : EmbedMain.Args :=
  EmbedMain.mkArgs "./data/transcripts.parquet" "./data/index.faiss"
                   "./data/embeddings.parquet" "all-MiniLM-L6-v2" 32
                   "cosine" false.

End ToyExtra.

(** * Properties *)

(** ** Rationals, lists and disk steps *)


Lemma Qltb_true_lt x y : Qltb x y = true ↔ (x < y)%Q.
Proof.
  unfold Qltb. rewrite negb_true_iff. split.
  - intros Hb. apply Qnot_le_lt. intros Hle.
    apply Qle_bool_iff in Hle. congruence.
  - intros Hlt. destruct (Qle_bool y x) eqn:E; [|done].
    apply Qle_bool_iff in E. exfalso. exact (Qlt_not_le _ _ Hlt E).
Qed.

Lemma run_write_steps p c (fs : FS) :
  run_steps (write_steps p c) fs = <[p := c]> fs.
Proof.
  unfold run_steps, write_steps. simpl. apply insert_insert_eq.
Qed.

Lemma run_steps_app s1 s2 (fs : FS) :
  run_steps (s1 ++ s2) fs = run_steps s2 (run_steps s1 fs).
Proof. unfold run_steps. apply foldl_app. Qed.

Lemma filter_all_false {A} (p : A → bool) (l : list A) :
  Forall (λ x, p x = false) l → List.filter p l = [].
Proof.
  induction 1 as [|x l Hx _ IH]; simpl; [done|]. by rewrite Hx.
Qed.

Lemma filter_all_true {A} (p : A → bool) (l : list A) :
  (∀ x, p x = true) → List.filter p l = l.
Proof.
  intros Hp. induction l as [|x l IH]; simpl; [done|].
  by rewrite Hp, IH.
Qed.


Lemma filter_length_perm {A} (p : A → bool) (l1 l2 : list A) :
  l1 ≡ₚ l2 → length (List.filter p l1) = length (List.filter p l2).
Proof.
  induction 1 as [|x l1 l2 _ IH|x y l|l1 l2 l3 _ IH1 _ IH2]; simpl.
  - done.
  - destruct (p x); simpl; congruence.
  - destruct (p x), (p y); simpl; done.
  - congruence.
Qed.

(** ** The FAISS model *)

#[global] Instance better_transitive m : Transitive (Faiss.better m).
Proof.
  intros x y z. destruct m; unfold Faiss.better; intros H1 H2.
  - eapply Qle_trans; eassumption.
  - eapply Qle_trans; eassumption.
Qed.

#[global] Instance better_total m : Total (Faiss.better m).
Proof.
  intros x y. destruct m; unfold Faiss.better.
  - destruct (Qlt_le_dec x.1 y.1) as [Hlt|Hle]; [right|left]; [|done].
    by apply Qlt_le_weak.
  - destruct (Qlt_le_dec x.1 y.1) as [Hlt|Hle]; [left|right]; [|done].
    by apply Qlt_le_weak.
Qed.

Lemma scored_elem ix q (h : Faiss.hit) :
  h ∈ Faiss.scored ix q →
  ∃ i v, Faiss.xb ix !! i = Some v
         ∧ h = (Faiss.distance (Faiss.metric_type ix) q v, Z.of_nat i).
Proof.
  unfold Faiss.scored. rewrite elem_of_lookup_imap.
  intros (i & v & -> & Hv). eauto.
Qed.

Lemma ranked_perm ix q : Faiss.ranked ix q ≡ₚ Faiss.scored ix q.
Proof. apply merge_sort_Permutation. Qed.

Lemma ranked_sorted ix q :
  StronglySorted (Faiss.better (Faiss.metric_type ix)) (Faiss.ranked ix q).
Proof. apply StronglySorted_merge_sort; apply _. Qed.

Lemma ranked_length ix q : length (Faiss.ranked ix q) = Faiss.ntotal ix.
Proof.
  rewrite (Permutation_length (ranked_perm ix q)).
  unfold Faiss.scored, Faiss.ntotal. apply length_imap.
Qed.

Lemma ranked_elem ix q (h : Faiss.hit) :
  h ∈ Faiss.ranked ix q →
  ∃ i v, Faiss.xb ix !! i = Some v
         ∧ h = (Faiss.distance (Faiss.metric_type ix) q v, Z.of_nat i).
Proof. rewrite (ranked_perm ix q). apply scored_elem. Qed.

Lemma search_ok ix q k :
  k ≠ 0 → length q = Faiss.d ix →
  Faiss.search ix q k =
    Ok (take k (Faiss.ranked ix q)
        ++ replicate (k - length (take k (Faiss.ranked ix q)))
                     (Faiss.unfilled (Faiss.metric_type ix))).
Proof.
  intros Hk Hd. unfold Faiss.search.
  rewrite bool_decide_eq_false_2 by done.
  by rewrite bool_decide_eq_true_2 by done.
Qed.

(** ** The result loop of [search] *)

Section SearchLoop.
Import VectorSearch SearchSpec.

Lemma StronglySorted_take {A} (R : relation A) (l : list A) k :
  StronglySorted R l → StronglySorted R (take k l).
Proof.
  intros Hs. revert k. induction Hs as [|x l Hs IH Hx]; intros [|k]; simpl;
    try constructor; [apply IH | by apply Forall_take].
Qed.

Lemma StronglySorted_filter {A} (R : relation A) (p : A → bool) (l : list A) :
  StronglySorted R l → StronglySorted R (List.filter p l).
Proof.
  induction 1 as [|x l Hs IH Hx]; simpl; [constructor|].
  destruct (p x); [|done]. constructor; [done|].
  rewrite Forall_forall in Hx. apply Forall_forall. intros y Hy.
  apply list_elem_of_In, List.filter_In in Hy as [Hy _].
  by apply Hx, list_elem_of_In.
Qed.

Lemma build_results_inv md ms pairs rs :
  build_results md ms pairs = Ok rs →
  Forall2 (resolves md) (List.filter (keeps ms) pairs) rs.
Proof.
  revert rs. induction pairs as [|[dist idx] pairs IH]; intros rs; simpl.
  - intros [= <-]. constructor.
  - unfold keeps at 1, real. simpl.
    destruct (idx =? -1)%Z; simpl; [apply IH|].
    destruct (below ms dist); simpl; [apply IH|].
    destruct (iloc md idx) as [row|] eqn:Hrow; [|done].
    destruct (build_results md ms pairs) as [rs'|] eqn:Hrest; [|done].
    intros [= <-]. constructor; [|by apply IH].
    exists row. done.
Qed.

Lemma build_results_total md ms pairs :
  (∀ h, h ∈ pairs → keeps ms h = true → is_Some (iloc md h.2)) →
  ∃ rs, build_results md ms pairs = Ok rs.
Proof.
  induction pairs as [|[dist idx] pairs IH]; intros Hrows; simpl.
  - eauto.
  - destruct IH as [rs' Hrs'].
    { intros h Hh. apply Hrows. by right. }
    pose proof (Hrows (dist, idx) ltac:(left)) as Hhd.
    unfold keeps, real in Hhd. simpl in Hhd.
    destruct (idx =? -1)%Z; [eauto|].
    destruct (below ms dist); [eauto|].
    destruct Hhd as [row ->]; [done|]. rewrite Hrs'. eauto.
Qed.



Lemma keeps_unfilled ms m : keeps ms (Faiss.unfilled m) = false.
Proof. by destruct m. Qed.

Lemma ranked_real ix q (h : Faiss.hit) :
  h ∈ Faiss.ranked ix q → real h = true.
Proof.
  intros (i & v & _ & ->)%ranked_elem. unfold real. simpl.
  apply negb_true_iff, Z.eqb_neq. lia.
Qed.

Lemma ranked_iloc ix q md (h : Faiss.hit) :
  Faiss.ntotal ix ≤ length (rows md) →
  h ∈ Faiss.ranked ix q → is_Some (iloc md h.2).
Proof.
  intros Hlen (i & v & Hv & ->)%ranked_elem. unfold iloc. simpl.
  rewrite (proj2 (Z.leb_le _ _)) by lia. rewrite Nat2Z.id.
  apply lookup_lt_is_Some. apply lookup_lt_Some in Hv.
  unfold Faiss.ntotal in Hlen. lia.
Qed.

(** What the loop keeps of a FAISS answer: the placeholders go, and of
    the stored vectors those below [min_score]. *)
Lemma keeps_answer ix q k ms :
  List.filter (keeps ms)
    (take k (Faiss.ranked ix q)
     ++ replicate (k - length (take k (Faiss.ranked ix q)))
                  (Faiss.unfilled (Faiss.metric_type ix)))
  = List.filter (λ h, negb (below ms h.1)) (take k (Faiss.ranked ix q)).
Proof.
  rewrite List.filter_app.
  rewrite (filter_all_false _ (replicate _ _)).
  - rewrite app_nil_r. apply List.filter_ext_in. intros h Hh.
    unfold keeps. rewrite (ranked_real ix q h); [done|].
    apply list_elem_of_In, elem_of_take in Hh as (i & Hi & _).
    by eapply list_elem_of_lookup_2.
  - apply Forall_replicate, keeps_unfilled.
Qed.

End SearchLoop.

(** ** [search] on a loaded service *)

Section SearchLoaded.
Import VectorSearch SearchSpec.
Context `{EmbeddingBackend}.

Lemma search_loaded svc ix md query k metric ms :
  index svc = Some ix → metadata svc = Some md →
  Faiss.ntotal ix ≤ length (rows md) →
  k ≠ 0 →
  length (SearchSpec.query_embedding_of svc query) = Faiss.d ix →
  ∃ rs, search svc query k metric ms = Ok rs
        ∧ Forall2 (resolves md)
            (List.filter (λ h, negb (below ms h.1))
               (take k (Faiss.ranked ix (SearchSpec.query_embedding_of svc query))))
            rs.
Proof.
  intros Hix Hmd Hlen Hk Hd. unfold search. rewrite Hix, Hmd.
  fold (SearchSpec.query_embedding_of svc query).
  rewrite (search_ok _ _ _ Hk Hd).
  destruct (build_results_total md ms
              (take k (Faiss.ranked ix (SearchSpec.query_embedding_of svc query))
               ++ replicate
                    (k - length (take k (Faiss.ranked ix
                                           (SearchSpec.query_embedding_of svc query))))
                    (Faiss.unfilled (Faiss.metric_type ix))))
    as [rs Hrs].
  - intros h [Hin|Hin]%elem_of_app Hkeep.
    + apply elem_of_take in Hin as (i & Hi & _).
      eapply ranked_iloc; [done|]. by eapply list_elem_of_lookup_2.
    + apply elem_of_replicate in Hin as [-> _].
      by rewrite keeps_unfilled in Hkeep.
  - exists rs. split; [done|].
    apply build_results_inv in Hrs. by rewrite keeps_answer in Hrs.
Qed.



End SearchLoaded.



(** ** What a build leaves behind *)

Section Build.
Import VectorSearch SearchSpec.
Context `{EmbeddingBackend}.

Lemma persist_steps_run svc ix df (fs : FS) :
  run_steps (persist_steps svc ix df) fs
  = <[embeddings_path svc := ParquetFile df]>
      (<[index_path svc := FaissFile ix]> fs).
Proof.
  unfold persist_steps. by rewrite run_steps_app, !run_write_steps.
Qed.

Lemma model_name_choice svc (model : option string) :
  index_path
    (match model with
     | Some m => if truthy model && negb (String.eqb m (model_name svc))
                 then set_model_name svc m else svc
     | None => svc
     end) = index_path svc
  ∧ embeddings_path
    (match model with
     | Some m => if truthy model && negb (String.eqb m (model_name svc))
                 then set_model_name svc m else svc
     | None => svc
     end) = embeddings_path svc.
Proof.
  destruct model as [m|]; [|done].
  by destruct (truthy (Some m) && negb (String.eqb m (model_name svc))).
Qed.

(** A call of [build_index] that does not take the early return and
    succeeds: the index holds, in row order, the normalised embedding of
    the transcript of every row that has one, the metadata holds those
    rows with their embeddings, and both were written to disk. *)
Lemma build_index_built settings svc (fs : FS) model bs force counts svc' fs' :
  exists_path fs (index_path svc) && negb force = false →
  build_index settings svc fs model bs force = (Ok counts, svc', fs') →
  ∃ df0 embs dim,
    read_parquet fs (settings_transcripts_path settings) = Ok df0
    ∧ embs = map (λ r, normalize_L2 (encode (model_name svc')
                                            (transcript_text r)))
                 (rows (with_transcripts df0))
    ∧ rows (with_transcripts df0) ≠ []
    ∧ index svc' = Some (Faiss.mkIndex Faiss.METRIC_INNER_PRODUCT dim embs)
    ∧ metadata svc' = Some (assign_embeddings (with_transcripts df0) embs)
    ∧ index_path svc' = index_path svc
    ∧ embeddings_path svc' = embeddings_path svc
    ∧ fs' = <[embeddings_path svc :=
                ParquetFile (assign_embeddings (with_transcripts df0) embs)]>
              (<[index_path svc :=
                   FaissFile (Faiss.mkIndex Faiss.METRIC_INNER_PRODUCT dim embs)]>
                 fs)
    ∧ counts = (length embs, length embs).
Proof.
  intros Hcond. unfold build_index. rewrite Hcond.
  pose proof (model_name_choice svc model) as [Hip Hep].
  set (svc1 := match model with Some _ => _ | None => _ end) in *.
  destruct (exists_path fs (settings_transcripts_path settings)); simpl; [|done].
  destruct (read_parquet fs (settings_transcripts_path settings))
    as [df0|] eqn:Hread; [|done].
  destruct (has_column "transcript" df0); simpl; [|done].
  case_bool_decide as Hempty; [done|].
  intros [= <- <- <-].
  set (rs := List.filter has_transcript (rows df0)) in *.
  set (b := match bs with Some (S _) => _ | _ => _ end).
  assert (Hembs :
    map normalize_L2
        (encode_batch (model_name svc1) (map transcript_text rs) b)
    = map (λ r, normalize_L2 (encode (model_name svc1) (transcript_text r)))
          rs).
  { unfold encode_batch. by rewrite !map_map. }
  exists df0, (map (λ r, normalize_L2 (encode (model_name svc1)
                                          (transcript_text r))) rs),
    (shape1 (encode_batch (model_name svc1) (map transcript_text rs) b)).
  split_and!.
  - done.
  - done.
  - intros Heq. change (rs = []) in Heq. by rewrite Heq in Hempty.
  - simpl. by rewrite Hembs.
  - simpl. by rewrite Hembs.
  - done.
  - done.
  - rewrite !insert_insert_eq. unfold Faiss.add. simpl.
    by rewrite Hip, Hep, Hembs.
  - unfold Faiss.ntotal, assign_embeddings. simpl. rewrite Hembs.
    rewrite length_zip_with, !length_map. fold rs. f_equal. lia.
Qed.

Lemma assign_embeddings_lookup df (f : VideoRow → vec) i :
  rows (assign_embeddings df (map f (rows df))) !! i
  = (λ r, set_embedding r (f r)) <$> rows df !! i.
Proof.
  unfold assign_embeddings. simpl. revert i.
  induction (rows df) as [|r l IH]; intros [|i]; simpl; done.
Qed.

Lemma Forall2_Forall_right {A B} (R : A → B → Prop) (P : B → Prop) l k :
  Forall2 R l k → (∀ x y, x ∈ l → R x y → P y) → Forall P k.
Proof.
  induction 1 as [|x y l k Hxy _ IH]; intros HP; constructor.
  - eapply HP; [left|done].
  - apply IH. intros x' y' Hx'. apply HP. by right.
Qed.

(** Every entry of a successful search is a metadata row looked up at
    the ordinal of a stored vector, scored against that vector. *)
Lemma search_inv svc ix md query k metric ms rs :
  index svc = Some ix → metadata svc = Some md →
  search svc query k metric ms = Ok rs →
  Forall (λ r, ∃ i v row,
            Faiss.xb ix !! i = Some v ∧ rows md !! i = Some row
            ∧ r = result_of row (Faiss.distance (Faiss.metric_type ix)
                                   (query_embedding_of svc query) v)) rs.
Proof.
  intros Hix Hmd. unfold search. rewrite Hix, Hmd.
  fold (query_embedding_of svc query). unfold Faiss.search.
  case_bool_decide; [done|]. case_bool_decide; [|done].
  intros Hrs%build_results_inv. rewrite keeps_answer in Hrs.
  eapply Forall2_Forall_right; [exact Hrs|].
  intros h r Hh (row & Hrow & ->).
  apply list_elem_of_In, List.filter_In in Hh as [Hh _].
  apply list_elem_of_In, elem_of_take in Hh as (j & Hj & _).
  apply list_elem_of_lookup_2, ranked_elem in Hj as (i & v & Hv & ->).
  exists i, v, row. split_and!; [done| |done].
  unfold iloc in Hrow. simpl in Hrow.
  rewrite (proj2 (Z.leb_le _ _)) in Hrow by lia.
  by rewrite Nat2Z.id in Hrow.
Qed.

End Build.

(** C1. After a successful build the index and the metadata have the same
    number of entries; the vector at ordinal [i] is the normalised
    embedding of the transcript of metadata row [i] (and is the embedding
    stored in that row); and every entry of a later search is the row at
    the ordinal of the vector that produced its score, so its [video_id]
    is that of the video whose transcript was embedded into that vector. *)
Theorem build_index_ordinal_alignment `{EmbeddingBackend}
    settings (svc : VectorSearch.Service) (fs : FS) model bs force
    counts svc' fs' :
  exists_path fs (VectorSearch.index_path svc) && negb force = false →
  VectorSearch.build_index settings svc fs model bs force
    = (Ok counts, svc', fs') →
  ∃ ix md,
    VectorSearch.index svc' = Some ix
    ∧ VectorSearch.metadata svc' = Some md
    ∧ Faiss.ntotal ix = length (rows md)
    ∧ (∀ i, i < Faiss.ntotal ix →
         ∃ v row,
           Faiss.xb ix !! i = Some v ∧ rows md !! i = Some row
           ∧ VectorSearch.has_transcript row = true
           ∧ v = normalize_L2 (encode (VectorSearch.model_name svc')
                                      (VectorSearch.transcript_text row))
           ∧ embedding row = Some v)
    ∧ (∀ query top_k metric min_score rs,
         VectorSearch.search svc' query top_k metric min_score = Ok rs →
         Forall (λ r, ∃ i v row,
                   Faiss.xb ix !! i = Some v ∧ rows md !! i = Some row
                   ∧ v = normalize_L2 (encode (VectorSearch.model_name svc')
                                              (VectorSearch.transcript_text row))
                   ∧ VectorSearch.hit_video_id r = video_id row
                   ∧ VectorSearch.hit_score r
                     = dot (SearchSpec.query_embedding_of svc' query) v) rs).
Proof.
  intros Hcond Hbuild.
  destruct (build_index_built _ _ _ _ _ _ _ _ _ Hcond Hbuild)
    as (df0 & embs & dim & _ & Hembs & _ & Hix & Hmd & _ & _ & _ & _).
  set (f := λ r, normalize_L2 (encode (VectorSearch.model_name svc')
                                      (VectorSearch.transcript_text r))) in *.
  subst embs.
  assert (Halign : ∀ i v,
            map f (rows (VectorSearch.with_transcripts df0)) !! i = Some v →
            ∃ row, rows (VectorSearch.assign_embeddings
                           (VectorSearch.with_transcripts df0)
                           (map f (rows (VectorSearch.with_transcripts df0))))
                     !! i = Some row
                   ∧ VectorSearch.has_transcript row = true
                   ∧ v = f row ∧ embedding row = Some v).
  { intros i v Hv.
    apply list_lookup_fmap_Some in Hv as (r & -> & Hr).
    exists (VectorSearch.set_embedding r (f r)).
    rewrite assign_embeddings_lookup, Hr. split_and!; try done.
    apply list_elem_of_lookup_2, list_elem_of_In in Hr.
    unfold VectorSearch.with_transcripts in Hr. simpl in Hr.
    by apply List.filter_In in Hr as [_ Hr]. }
  eexists _, _. split_and!; [exact Hix | exact Hmd | | |].
  - unfold Faiss.ntotal, VectorSearch.assign_embeddings. simpl.
    rewrite length_zip_with, length_map. lia.
  - intros i Hi. unfold Faiss.ntotal in Hi. simpl in *.
    destruct (lookup_lt_is_Some_2 _ _ Hi) as [v Hv].
    destruct (Halign i v Hv) as (row & Hrow & Ht & Hf & He).
    by exists v, row.
  - intros query top_k metric min_score rs Hrs.
    eapply Forall_impl; [exact (search_inv _ _ _ _ _ _ _ _ Hix Hmd Hrs)|].
    simpl. intros r (i & v & row & Hv & Hrow & ->).
    destruct (Halign i v Hv) as (row' & Hrow' & _ & Hf & _).
    assert (Some row' = Some row) as [= ->].
    { rewrite <- Hrow'. exact Hrow. }
    by exists i, v, row.
Qed.

(** ** Loading *)

Section Load.
Import VectorSearch.

Lemma exists_path_true (fs : FS) p f : fs !! p = Some f → exists_path fs p = true.
Proof. unfold exists_path. by intros ->. Qed.

Lemma exists_path_false (fs : FS) p : fs !! p = None → exists_path fs p = false.
Proof. unfold exists_path. by intros ->. Qed.

Lemma load_index_ok svc (fs : FS) ix md :
  fs !! index_path svc = Some (FaissFile ix) →
  fs !! embeddings_path svc = Some (ParquetFile md) →
  load_index svc fs = (Ok (), set_metadata (set_index svc ix) md).
Proof.
  intros Hi He. unfold load_index, read_index, read_parquet.
  rewrite (exists_path_true _ _ _ Hi), (exists_path_true _ _ _ He).
  by rewrite Hi, He.
Qed.

Lemma load_index_inv svc (fs : FS) u svc' :
  load_index svc fs = (Ok u, svc') →
  ∃ ix md, fs !! index_path svc = Some (FaissFile ix)
           ∧ fs !! embeddings_path svc = Some (ParquetFile md)
           ∧ svc' = set_metadata (set_index svc ix) md.
Proof.
  unfold load_index, read_index, read_parquet, exists_path.
  destruct (fs !! index_path svc) as [[ix| |]|]; simpl; try done.
  destruct (fs !! embeddings_path svc) as [[|md|]|]; simpl; try done.
  intros [= <-]. eauto.
Qed.

Lemma reload_same svc ix md :
  index svc = Some ix → metadata svc = Some md →
  set_metadata (set_index svc ix) md = svc.
Proof. destruct svc. simpl. by intros -> ->. Qed.

End Load.

(** C4 (as the code has it). [load_index] raises [FileNotFoundError] with
    the message "Index not found: ..." when the index file is absent, and
    the same exception class with the different message "Embeddings
    metadata not found: ..." when the index file is readable and only the
    metadata file is absent (the index attribute has then already been
    replaced); when both files are readable it succeeds and installs both,
    whatever the number of vectors and the number of rows are. *)
Theorem load_index_outcomes (svc : VectorSearch.Service) (fs : FS) :
  (fs !! VectorSearch.index_path svc = None →
     VectorSearch.load_index svc fs
     = (Raise (FileNotFoundError
                 ("Index not found: " +:+ VectorSearch.index_path svc)), svc))
  ∧ (∀ ix, fs !! VectorSearch.index_path svc = Some (FaissFile ix) →
       fs !! VectorSearch.embeddings_path svc = None →
       VectorSearch.load_index svc fs
       = (Raise (FileNotFoundError
                   ("Embeddings metadata not found: "
                    +:+ VectorSearch.embeddings_path svc)),
          VectorSearch.set_index svc ix))
  ∧ (∀ ix md, fs !! VectorSearch.index_path svc = Some (FaissFile ix) →
       fs !! VectorSearch.embeddings_path svc = Some (ParquetFile md) →
       VectorSearch.load_index svc fs
       = (Ok (), VectorSearch.set_metadata (VectorSearch.set_index svc ix) md))
  ∧ "Index not found: " +:+ VectorSearch.index_path svc
    ≠ "Embeddings metadata not found: " +:+ VectorSearch.embeddings_path svc.
Proof.
  split_and!.
  - intros Hi. unfold VectorSearch.load_index.
    by rewrite (exists_path_false _ _ Hi).
  - intros ix Hi He. unfold VectorSearch.load_index, read_index.
    rewrite (exists_path_true _ _ _ Hi), (exists_path_false _ _ He).
    by rewrite Hi.
  - intros ix md. apply load_index_ok.
  - simpl. discriminate.
Qed.

(** C9. With [force_rebuild = false], a call of [build_index] on a disk
    that holds a readable snapshot returns the counts of that snapshot,
    succeeds, and leaves the disk as it is; and when a first call with
    [force_rebuild = false] succeeded (whether it built or loaded), a
    second such call returns the same pair of counts, leaves the service as
    the first call left it and writes nothing. *)
Theorem build_index_without_force_is_noop `{EmbeddingBackend}
    settings (svc : VectorSearch.Service) (fs : FS) model bs model2 bs2 :
  (∀ ix md,
     fs !! VectorSearch.index_path svc = Some (FaissFile ix) →
     fs !! VectorSearch.embeddings_path svc = Some (ParquetFile md) →
     VectorSearch.build_index settings svc fs model bs false
     = (Ok (length (rows md), Faiss.ntotal ix),
        VectorSearch.set_metadata (VectorSearch.set_index svc ix) md, fs))
  ∧ (VectorSearch.index_path svc ≠ VectorSearch.embeddings_path svc →
     ∀ counts svc' fs',
       VectorSearch.build_index settings svc fs model bs false
       = (Ok counts, svc', fs') →
       VectorSearch.build_index settings svc' fs' model2 bs2 false
       = (Ok counts, svc', fs')).
Proof.
  assert (Hload : ∀ (svc0 : VectorSearch.Service) (fs0 : FS) mo b ix md,
     fs0 !! VectorSearch.index_path svc0 = Some (FaissFile ix) →
     fs0 !! VectorSearch.embeddings_path svc0 = Some (ParquetFile md) →
     VectorSearch.build_index settings svc0 fs0 mo b false
     = (Ok (length (rows md), Faiss.ntotal ix),
        VectorSearch.set_metadata (VectorSearch.set_index svc0 ix) md, fs0)).
  { intros svc0 fs0 mo b ix md Hi He. unfold VectorSearch.build_index.
    rewrite (exists_path_true _ _ _ Hi). simpl.
    by rewrite (load_index_ok _ _ _ _ Hi He). }
  split; [apply Hload|].
  intros Hne counts svc' fs' Hfirst.
  destruct (exists_path fs (VectorSearch.index_path svc)) eqn:Hex.
  - unfold VectorSearch.build_index in Hfirst. rewrite Hex in Hfirst.
    simpl in Hfirst.
    destruct (VectorSearch.load_index svc fs) as [[u|e] svc1] eqn:Hl;
      [|done].
    apply load_index_inv in Hl as (ix & md & Hi & He & ->).
    simpl in Hfirst. injection Hfirst as <- <- <-.
    rewrite (Hload _ fs model2 bs2 ix md) by done. done.
  - assert (Hcond : exists_path fs (VectorSearch.index_path svc) && negb false
                    = false) by by rewrite Hex.
    destruct (build_index_built _ _ _ _ _ _ _ _ _ Hcond Hfirst)
      as (df0 & embs & dim & _ & Hembs & _ & Hix & Hmd & Hip & Hep & -> & ->).
    rewrite (Hload svc' _ model2 bs2
               (Faiss.mkIndex Faiss.METRIC_INNER_PRODUCT dim embs)
               (VectorSearch.assign_embeddings
                  (VectorSearch.with_transcripts df0) embs)).
    + rewrite (reload_same _ _ _ Hix Hmd). do 3 f_equal.
      unfold VectorSearch.assign_embeddings. simpl.
      rewrite length_zip_with. rewrite Hembs at 1 3.
      rewrite !length_map. unfold Faiss.ntotal. simpl.
      by rewrite Nat.min_id.
    + rewrite Hip. rewrite lookup_insert_ne by done. apply lookup_insert_eq.
    + rewrite Hep. apply lookup_insert_eq.
Qed.

(** ** Persisting *)

(** C3 (as the code has it). A persist writes the index file and then the
    metadata file, each in place at its final path: no other path (such as
    a temporary file) is ever written and nothing is renamed.  Interrupted
    before its first step it leaves the disk unchanged; interrupted during
    the index write it leaves a partial index file next to the previous
    metadata; interrupted between the two writes it leaves the new index
    next to the previous metadata; interrupted during the metadata write it
    leaves the new index next to a partial metadata file; run to its end it
    leaves the new pair. *)
Theorem persist_writes_in_place (svc : VectorSearch.Service) ix df (fs : FS) :
  VectorSearch.index_path svc ≠ VectorSearch.embeddings_path svc →
  Crash.interrupted_persist 0 svc ix df fs = fs
  ∧ Crash.snapshot_on_disk svc (Crash.interrupted_persist 1 svc ix df fs)
    = (Some PartialFile, fs !! VectorSearch.embeddings_path svc)
  ∧ Crash.snapshot_on_disk svc (Crash.interrupted_persist 2 svc ix df fs)
    = (Some (FaissFile ix), fs !! VectorSearch.embeddings_path svc)
  ∧ Crash.snapshot_on_disk svc (Crash.interrupted_persist 3 svc ix df fs)
    = (Some (FaissFile ix), Some PartialFile)
  ∧ (∀ k, 4 ≤ k →
       Crash.interrupted_persist k svc ix df fs
       = run_steps (VectorSearch.persist_steps svc ix df) fs
       ∧ Crash.snapshot_on_disk svc (Crash.interrupted_persist k svc ix df fs)
         = (Some (FaissFile ix), Some (ParquetFile df)))
  ∧ (∀ k p, p ≠ VectorSearch.index_path svc →
       p ≠ VectorSearch.embeddings_path svc →
       Crash.interrupted_persist k svc ix df fs !! p = fs !! p).
Proof.
  intros Hne. unfold Crash.snapshot_on_disk, Crash.interrupted_persist.
  split_and!.
  - done.
  - simpl. by simplify_map_eq.
  - simpl. by simplify_map_eq.
  - simpl. by simplify_map_eq.
  - intros k Hk.
    assert (Htake : take k (VectorSearch.persist_steps svc ix df)
                    = VectorSearch.persist_steps svc ix df).
    { apply take_ge. simpl. lia. }
    rewrite Htake. split; [done|]. simpl. by simplify_map_eq.
  - intros k p Hp1 Hp2.
    destruct k as [|[|[|[|k]]]]; simpl; try done.
    all: rewrite ?take_nil; simpl.
    all: by rewrite ?lookup_insert_ne by done.
Qed.

(** C3, counterexample. Re-persisting the snapshot of the toy service and
    stopping during the first write leaves a partial index file where the
    previous index file was: the previous snapshot is not intact. *)
Lemma persist_interrupted_corrupts_snapshot :
  Crash.snapshot_on_disk Toy.svc1 Toy.fs1
    = (Some (FaissFile Toy.ix1), Some (ParquetFile Toy.md1))
  ∧ Crash.snapshot_on_disk Toy.svc1
      (Crash.interrupted_persist 1 Toy.svc1 Toy.ix1 Toy.md1 Toy.fs1)
    = (Some PartialFile, Some (ParquetFile Toy.md1))
  ∧ Crash.snapshot_on_disk Toy.svc1
      (Crash.interrupted_persist 1 Toy.svc1 Toy.ix1 Toy.md1 Toy.fs1)
    ≠ Crash.snapshot_on_disk Toy.svc1 Toy.fs1.
Proof.
  split_and!.
  - vm_compute. reflexivity.
  - vm_compute. reflexivity.
  - vm_compute. discriminate.
Qed.

(** C4, counterexample. A snapshot with two vectors and one metadata row
    loads successfully; the disagreeing counts become the loaded state. *)
Lemma load_index_accepts_count_mismatch :
  ∃ svc' ix md,
    VectorSearch.load_index Toy.svc0 Toy.mismatched_fs = (Ok (), svc')
    ∧ VectorSearch.index svc' = Some ix
    ∧ VectorSearch.metadata svc' = Some md
    ∧ Faiss.ntotal ix = 2 ∧ length (rows md) = 1.
Proof.
  eexists _, _, _. split_and!; vm_compute; reflexivity.
Qed.

(** ** The metric argument *)

Lemma validate_metric_allowed v :
  is_ok (Api.validate_metric v) = true
  ↔ v = "cosine" ∨ v = "euclidean" ∨ v = "dot_product".
Proof.
  unfold Api.validate_metric, Api.allowed_metrics. simpl.
  destruct (String.eqb_spec v "cosine") as [->|H1]; simpl; [tauto|].
  destruct (String.eqb_spec v "euclidean") as [->|H2]; simpl; [tauto|].
  destruct (String.eqb_spec v "dot_product") as [->|H3]; simpl; [tauto|].
  split; [done|]. intros [?|[?|?]]; done.
Qed.

(** C6 (as the code has it). The request validator only checks that the
    metric is one of the three names; every build creates an inner-product
    index over normalised vectors, whatever metric is named later; and
    [search] does not look at its [metric] argument: under any metric it
    returns what it returns under "cosine". *)
Theorem search_ignores_metric `{EmbeddingBackend}
    (svc : VectorSearch.Service) query top_k metric min_score :
  VectorSearch.search svc query top_k metric min_score
  = VectorSearch.search svc query top_k "cosine" min_score
  ∧ (is_ok (Api.validate_metric metric) = true
     ↔ metric = "cosine" ∨ metric = "euclidean" ∨ metric = "dot_product")
  ∧ (∀ settings (fs : FS) model bs force counts svc' fs',
       exists_path fs (VectorSearch.index_path svc) && negb force = false →
       VectorSearch.build_index settings svc fs model bs force
       = (Ok counts, svc', fs') →
       ∃ ix, VectorSearch.index svc' = Some ix
             ∧ Faiss.metric_type ix = Faiss.METRIC_INNER_PRODUCT).
Proof.
  split_and!.
  - reflexivity.
  - apply validate_metric_allowed.
  - intros settings fs model bs force counts svc' fs' Hcond Hbuild.
    destruct (build_index_built _ _ _ _ _ _ _ _ _ Hcond Hbuild)
      as (df0 & embs & dim & _ & _ & _ & Hix & _).
    eexists. split; [exact Hix|done].
Qed.

(** C6, counterexample. The toy service holds an inner-product (cosine)
    index; a search that asks for the euclidean metric passes validation,
    does not fail, and returns the cosine answer. *)
Lemma search_accepts_other_metric :
  Faiss.metric_type Toy.ix1 = Faiss.METRIC_INNER_PRODUCT
  ∧ VectorSearch.index Toy.svc1 = Some Toy.ix1
  ∧ is_ok (Api.validate_metric "euclidean") = true
  ∧ is_ok (@VectorSearch.search Toy.backend Toy.svc1 "cats" 2 "euclidean" None)
    = true
  ∧ map VectorSearch.hit_video_id
        (match @VectorSearch.search Toy.backend Toy.svc1 "cats" 2
                                    "euclidean" None with
         | Ok rs => rs
         | Raise _ => []
         end) = ["v1"; "v5"].
Proof.
  split_and!; vm_compute; reflexivity.
Qed.

(** ** Scores *)

(** C8, evaluated. Against the cosine index of the toy service the query
    "not cats" (whose embedding is opposite to that of "cats") gets the
    scores 0, -5/13, -3/5, -12/13 and -1 among its six results: scores
    below 0 are returned as they are, and the search endpoint, whose
    response model requires a score between 0 and 1, answers 500. *)
Theorem search_returns_negative_cosine_score :
  ∃ rs,
    Faiss.metric_type Toy.ix1 = Faiss.METRIC_INNER_PRODUCT
    ∧ @VectorSearch.search Toy.backend Toy.svc1 "not cats" 6 "cosine" None
      = Ok rs
    ∧ map VectorSearch.hit_video_id rs = ["v6"; "v3"; "v7"; "v4"; "v5"; "v1"]
    ∧ Forall2 Qeq (map VectorSearch.hit_score rs)
        [1%Q; 0%Q; (- 5 # 13)%Q; (- 3 # 5)%Q; (- 12 # 13)%Q; (- 1)%Q]
    ∧ Exists (λ r, (VectorSearch.hit_score r < 0)%Q) rs
    ∧ @Api.search_endpoint Toy.backend Toy.svc1
        (Api.mkRequest "not cats" 6 "cosine" None)
      = Api.Http500 "Search failed".
Proof.
  eexists. split_and!.
  - vm_compute. reflexivity.
  - vm_compute. reflexivity.
  - vm_compute. reflexivity.
  - repeat constructor.
  - apply Exists_cons_tl, Exists_cons_tl, Exists_cons_hd. simpl.
    vm_compute. reflexivity.
  - vm_compute. reflexivity.
Qed.

(** ** More slots requested than vectors stored *)

(** C10 (as the code has it). On a loaded index of [n] vectors whose
    metadata has a row for every vector, a search with [top_k > n] and a
    query of the index's dimension succeeds; its entries are exactly the
    stored vectors that are not below [min_score], in rank order, each
    resolved through its own ordinal (no placeholder slot is surfaced);
    there are at most [n] of them, and exactly [n] when no [min_score] is
    supplied. *)
Theorem search_beyond_index_size `{EmbeddingBackend}
    (svc : VectorSearch.Service) ix md query top_k metric min_score :
  VectorSearch.index svc = Some ix →
  VectorSearch.metadata svc = Some md →
  Faiss.ntotal ix ≤ length (rows md) →
  length (SearchSpec.query_embedding_of svc query) = Faiss.d ix →
  Faiss.ntotal ix < top_k →
  ∃ rs,
    VectorSearch.search svc query top_k metric min_score = Ok rs
    ∧ Forall2 (SearchSpec.resolves md)
        (List.filter (λ h, negb (VectorSearch.below min_score h.1))
           (Faiss.ranked ix (SearchSpec.query_embedding_of svc query))) rs
    ∧ Forall (λ r, ∃ i v row,
                Faiss.xb ix !! i = Some v ∧ rows md !! i = Some row
                ∧ VectorSearch.hit_video_id r = video_id row) rs
    ∧ length rs
      = length (List.filter (λ h, negb (VectorSearch.below min_score h.1))
                  (Faiss.scored ix (SearchSpec.query_embedding_of svc query)))
    ∧ length rs ≤ Faiss.ntotal ix
    ∧ (min_score = None → length rs = Faiss.ntotal ix).
Proof.
  intros Hix Hmd Hlen Hd Hk.
  assert (Hk0 : top_k ≠ 0) by lia.
  destruct (search_loaded svc ix md query top_k metric min_score
              Hix Hmd Hlen Hk0 Hd) as (rs & Hrs & Hres).
  set (qe := SearchSpec.query_embedding_of svc query) in *.
  rewrite take_ge in Hres by (rewrite ranked_length; lia).
  assert (Hcount : length rs
            = length (List.filter
                        (λ h, negb (VectorSearch.below min_score h.1))
                        (Faiss.scored ix qe))).
  { rewrite <- (Forall2_length _ _ _ Hres).
    apply filter_length_perm, ranked_perm. }
  assert (Hscored : length (Faiss.scored ix qe) = Faiss.ntotal ix).
  { unfold Faiss.scored, Faiss.ntotal. apply length_imap. }
  exists rs. split_and!; try done.
  - eapply Forall_impl; [exact (search_inv _ _ _ _ _ _ _ _ Hix Hmd Hrs)|].
    simpl. intros r (i & v & row & Hv & Hrow & ->). by exists i, v, row.
  - rewrite Hcount, <- Hscored. apply List.filter_length_le.
  - intros ->. rewrite Hcount, <- Hscored. by rewrite filter_all_true.
Qed.

(** C10, counterexample. The toy index holds six vectors; a search with
    [top_k = 7] and [min_score = 0.9] returns two entries, not six. *)
Lemma min_score_returns_fewer_than_stored :
  ∃ rs,
    VectorSearch.index Toy.svc1 = Some Toy.ix1
    ∧ Faiss.ntotal Toy.ix1 = 6
    ∧ @VectorSearch.search Toy.backend Toy.svc1 "cats" 7 "cosine"
                           (Some (9 # 10)%Q) = Ok rs
    ∧ length rs = 2.
Proof.
  eexists. split_and!; vm_compute; reflexivity.
Qed.

(** ** Transcript fetching *)

Section Fetch.
Import YouTube.

Lemma get_transcript_calls api video t :
  calls (get_transcript api video t).2 = calls t ++ [video].
Proof.
  unfold get_transcript. by destruct (api video (attempts t video)).
Qed.

Lemma get_transcript_none api video t :
  (get_transcript api video t).1 = None
  ↔ ∀ segs, api video (attempts t video) ≠ Segments segs.
Proof.
  unfold get_transcript.
  destruct (api video (attempts t video)) as [segs| | | |msg]; simpl;
    split; try done.
  intros Hno. by destruct (Hno segs).
Qed.

Lemma get_transcript_logs api video t :
  logs (get_transcript api video t).2
  = logs t ++ match api video (attempts t video) with
              | Segments _ => []
              | OtherException _ => [LogError video]
              | _ => [LogDebug video]
              end.
Proof.
  unfold get_transcript.
  destruct (api video (attempts t video)); simpl; by rewrite ?app_nil_r.
Qed.

Lemma fetch_one_calls api st row :
  calls (trace (fetch_one api st row)) = calls (trace st) ++ [video_id row]
  ∧ success_count (fetch_one api st row) + failed_count (fetch_one api st row)
    = S (success_count st + failed_count st)
  ∧ length (transcripts (fetch_one api st row)) = S (length (transcripts st)).
Proof.
  unfold fetch_one.
  pose proof (get_transcript_calls api (video_id row) (trace st)) as Hc.
  destruct (get_transcript api (video_id row) (trace st)) as [[[|seg segs]|] t'];
    simpl in *; rewrite ?length_app; simpl; split_and!; try done; lia.
Qed.

Lemma fetch_loop_calls api rs st :
  calls (trace (foldl (fetch_one api) st rs))
  = calls (trace st) ++ map video_id rs
  ∧ success_count (foldl (fetch_one api) st rs)
    + failed_count (foldl (fetch_one api) st rs)
    = success_count st + failed_count st + length rs
  ∧ length (transcripts (foldl (fetch_one api) st rs))
    = length (transcripts st) + length rs.
Proof.
  revert st. induction rs as [|r rs IH]; intros st; simpl.
  - rewrite app_nil_r. split_and!; lia || done.
  - destruct (IH (fetch_one api st r)) as (Hc & Hn & Hl).
    destruct (fetch_one_calls api st r) as (Hc1 & Hn1 & Hl1).
    rewrite Hc, Hn, Hl, Hc1, Hn1, Hl1. rewrite <- app_assoc.
    split_and!; [done|lia|lia].
Qed.

Lemma fetch_one_agree api1 api2 st1 st2 row :
  (∀ v n, same_success (api1 v n) (api2 v n)) →
  same_but_logs st1 st2 →
  same_but_logs (fetch_one api1 st1 row) (fetch_one api2 st2 row).
Proof.
  intros Hsame (Hs & Hf & Ht & Hc).
  unfold fetch_one, get_transcript, attempts. rewrite Hc.
  specialize (Hsame (video_id row)
                (length (List.filter (String.eqb (video_id row))
                                     (calls (trace st2))))).
  unfold same_but_logs.
  destruct (api1 _ _) as [[|seg1 segs1]| | | |m1], (api2 _ _)
    as [[|seg2 segs2]| | | |m2]; simpl in *; try done;
    try (injection Hsame as -> ->);
    by rewrite ?Hs, ?Hf, ?Ht, ?Hc.
Qed.

Lemma fetch_loop_agree api1 api2 rs st1 st2 :
  (∀ v n, same_success (api1 v n) (api2 v n)) →
  same_but_logs st1 st2 →
  same_but_logs (foldl (fetch_one api1) st1 rs)
                (foldl (fetch_one api2) st2 rs).
Proof.
  intros Hsame. revert st1 st2.
  induction rs as [|r rs IH]; intros st1 st2 Hst; simpl; [done|].
  apply IH. by apply fetch_one_agree.
Qed.

(** One turn of the loop, in terms of the provider's answer. *)
Lemma fetch_one_step api st row :
  fetch_one api st row
  = let o := api (video_id row) (attempts (trace st) (video_id row)) in
    mkLoop (success_count st + (if FetchSpec.answered o then 1 else 0))
           (failed_count st + (if FetchSpec.answered o then 0 else 1))
           (transcripts st ++ [FetchSpec.recorded (video_id row) o])
           (mkTrace (calls (trace st) ++ [video_id row])
                    (logs (trace st) ++ FetchSpec.logged (video_id row) o)).
Proof.
  unfold fetch_one, get_transcript.
  destruct (api (video_id row) (attempts (trace st) (video_id row)))
    as [[|seg segs]| | | |msg]; simpl;
    rewrite ?app_nil_r, ?Nat.add_0_r, ?Nat.add_1_r; reflexivity.
Qed.

Lemma answers_length api earlier rs :
  length (FetchSpec.answers api earlier rs) = length rs.
Proof.
  revert earlier. induction rs as [|r rs IH]; intros earlier; simpl; [done|].
  by rewrite IH.
Qed.

(** The whole loop. *)
Lemma fetch_loop_state api rs st :
  foldl (fetch_one api) st rs
  = let outs := FetchSpec.answers api (calls (trace st)) rs in
    mkLoop
      (success_count st + length (List.filter FetchSpec.answered outs))
      (failed_count st + length (List.filter FetchSpec.unanswered outs))
      (transcripts st ++ zip_with FetchSpec.recorded (map video_id rs) outs)
      (mkTrace (calls (trace st) ++ map video_id rs)
               (logs (trace st)
                ++ concat (zip_with FetchSpec.logged (map video_id rs) outs))).
Proof.
  revert st. induction rs as [|r rs IH]; intros st.
  - destruct st as [s f ts [c l]]. simpl.
    by rewrite !Nat.add_0_r, !app_nil_r.
  - change (foldl (fetch_one api) st (r :: rs))
      with (foldl (fetch_one api) (fetch_one api st r) rs).
    rewrite IH, fetch_one_step. unfold attempts. cbn zeta.
    cbn [success_count failed_count transcripts trace calls logs].
    cbn [FetchSpec.answers map zip_with concat List.filter].
    unfold FetchSpec.unanswered at 2.
    destruct (FetchSpec.answered
                (api (video_id r)
                   (length (List.filter (String.eqb (video_id r))
                                        (calls (trace st))))));
      cbn [negb length]; rewrite <- !app_assoc; cbn [app];
      f_equal; lia.
Qed.

Lemma recorded_id video o :
  te_video_id (FetchSpec.recorded video o) = video.
Proof. by destruct o as [[|seg segs]| | | |msg]. Qed.

Lemma recorded_ids vs outs e :
  e ∈ zip_with FetchSpec.recorded vs outs → te_video_id e ∈ vs.
Proof.
  revert outs. induction vs as [|v vs IH]; intros [|o outs] He;
    simpl in He; try by apply elem_of_nil in He.
  apply elem_of_cons in He as [->|He].
  - rewrite recorded_id. by left.
  - right. by eapply IH.
Qed.

(** With pairwise different identifiers, the entries recorded for a
    batch hold exactly one entry for each of its rows. *)
Lemma recorded_filter rs outs i r o :
  NoDup (map video_id rs) →
  rs !! i = Some r →
  outs !! i = Some o →
  List.filter (λ e, String.eqb (te_video_id e) (video_id r))
              (zip_with FetchSpec.recorded (map video_id rs) outs)
  = [FetchSpec.recorded (video_id r) o].
Proof.
  revert outs i. induction rs as [|x rs IH]; intros [|o0 outs] i Hnd Hr Ho;
    try done.
  simpl in Hnd. apply NoDup_cons in Hnd as [Hx Hnd].
  simpl. rewrite recorded_id.
  destruct i as [|i]; simpl in Hr, Ho.
  - injection Hr as ->. injection Ho as ->.
    rewrite String.eqb_refl. f_equal.
    apply filter_all_false, Forall_forall. intros e He.
    apply String.eqb_neq. intros Heq. apply Hx. rewrite <- Heq.
    by eapply recorded_ids.
  - destruct (String.eqb_spec (video_id x) (video_id r)) as [Heq|Hne].
    + destruct Hx. rewrite Heq. apply list_elem_of_fmap. exists r.
      split; [done|]. by eapply list_elem_of_lookup_2.
    + by eapply IH.
Qed.

Lemma flat_map_zip_with {A B C} (g : A → list C) (h : A → B → C)
    (l : list A) (outs : list B) :
  length outs = length l →
  (∀ i x o, l !! i = Some x → outs !! i = Some o → g x = [h x o]) →
  flat_map g l = zip_with h l outs.
Proof.
  revert outs. induction l as [|x l IH]; intros [|o outs] Hlen Hg;
    try done.
  change (flat_map g (x :: l)) with (g x ++ flat_map g l).
  rewrite (Hg 0 x o) by done. simpl. f_equal.
  apply IH; [by injection Hlen|].
  intros i y o' Hy Ho'. by apply (Hg (S i)).
Qed.

(** What the merge of lines 308-316 makes of the recorded entries when
    the selected rows have pairwise different identifiers: row by row,
    the transcript recorded for the row's own request. *)
Lemma merge_rows_recorded had rs outs :
  NoDup (map video_id rs) →
  length outs = length rs →
  merge_rows had rs (zip_with FetchSpec.recorded (map video_id rs) outs)
  = zip_with
      (λ r o, set_transcript r
                (merged_transcript had r
                   (te_transcript (FetchSpec.recorded (video_id r) o))))
      rs outs.
Proof.
  intros Hnd Hlen. unfold merge_rows.
  apply flat_map_zip_with; [done|].
  intros i r o Hr Ho. by rewrite (recorded_filter rs outs i r o).
Qed.

(** A request that brings no transcript: what the loop body does. *)
Lemma fetch_one_unanswered api st row :
  FetchSpec.answered
    (api (video_id row) (attempts (trace st) (video_id row))) = false →
  fetch_one api st row
  = mkLoop (success_count st) (S (failed_count st))
           (transcripts st ++ [mkEntry (video_id row) None None])
           (mkTrace
              (calls (trace st) ++ [video_id row])
              (logs (trace st)
               ++ match api (video_id row)
                            (attempts (trace st) (video_id row)) with
                  | Segments _ => []
                  | TranscriptsDisabled | NoTranscriptFound
                  | VideoUnavailable => [LogDebug (video_id row)]
                  | OtherException _ => [LogError (video_id row)]
                  end)).
Proof.
  rewrite fetch_one_step. cbn zeta.
  destruct (api (video_id row) (attempts (trace st) (video_id row)))
    as [[|seg segs]| | | |msg]; simpl; try done; intros _;
    by rewrite ?Nat.add_0_r, ?Nat.add_1_r.
Qed.

(** A successful batch, in terms of the provider's answers. *)
Lemma fetch_transcripts_batch settings api (fs : FS) t video_ids force
    counts fs' t' :
  fetch_transcripts settings api fs t video_ids force = (Ok counts, fs', t') →
  ∃ df0,
    read_parquet fs (settings_videos_path settings) = Ok df0
    ∧ let sel := skip_existing force (select_ids video_ids df0) in
      let outs := FetchSpec.answers api (calls t) (rows sel) in
      let entries :=
        zip_with FetchSpec.recorded (map video_id (rows sel)) outs in
      counts = (length (List.filter FetchSpec.answered outs),
                length (List.filter FetchSpec.unanswered outs))
      ∧ fs' = <[settings_transcripts_path settings :=
                  ParquetFile
                    (mkFrame (add_column "transcript" (columns sel))
                       (merge_rows (has_column "transcript" sel)
                                   (rows sel) entries))]> fs
      ∧ calls t' = calls t ++ map video_id (rows sel)
      ∧ logs t'
        = logs t
          ++ concat (zip_with FetchSpec.logged (map video_id (rows sel)) outs).
Proof.
  unfold fetch_transcripts.
  destruct (exists_path fs (settings_videos_path settings)); [|done].
  simpl negb. cbv iota.
  destruct (read_parquet fs (settings_videos_path settings)) as [df0|e];
    [|done].
  cbv zeta. rewrite fetch_loop_state.
  cbn [success_count failed_count transcripts trace calls logs app plus].
  set (sel := skip_existing force (select_ids video_ids df0)).
  destruct (zip_with FetchSpec.recorded (map video_id (rows sel))
              (FetchSpec.answers api (calls t) (rows sel)))
    as [|e es] eqn:Hentries; [done|].
  intros [= <- <- <-]. exists df0. split; [done|]. cbv zeta.
  fold sel. rewrite Hentries, insert_insert_eq. by split_and!.
Qed.

End Fetch.

(** Two providers that differ only in the kind of their failures lead to
    the same result, the same requests and the same disk; every selected
    video is requested once. *)
Lemma fetch_transcripts_kinds_agree
    settings (api1 api2 : YouTube.Provider) (fs : FS) t video_ids force :
  (∀ v n, YouTube.same_success (api1 v n) (api2 v n)) →
  (YouTube.fetch_transcripts settings api1 fs t video_ids force).1
  = (YouTube.fetch_transcripts settings api2 fs t video_ids force).1
  ∧ YouTube.calls
      (YouTube.fetch_transcripts settings api1 fs t video_ids force).2
    = YouTube.calls
        (YouTube.fetch_transcripts settings api2 fs t video_ids force).2
  ∧ (∀ counts,
       (YouTube.fetch_transcripts settings api1 fs t video_ids force).1.1
       = Ok counts →
       ∃ df0,
         read_parquet fs (settings_videos_path settings) = Ok df0
         ∧ YouTube.calls
             (YouTube.fetch_transcripts settings api1 fs t video_ids force).2
           = YouTube.calls t
             ++ map video_id
                  (rows (YouTube.skip_existing force
                           (YouTube.select_ids video_ids df0)))
         ∧ counts.1 + counts.2
           = length (rows (YouTube.skip_existing force
                             (YouTube.select_ids video_ids df0))))
  ∧ (∀ video t0,
       YouTube.calls (YouTube.get_transcript api1 video t0).2
       = YouTube.calls t0 ++ [video]
       ∧ ((YouTube.get_transcript api1 video t0).1 = None
          ↔ ∀ segs, api1 video (YouTube.attempts t0 video)
                    ≠ YouTube.Segments segs)).
Proof.
  intros Hsame. unfold YouTube.fetch_transcripts.
  destruct (exists_path fs (settings_videos_path settings)); simpl.
  2:{ split_and!; try done. intros video t0. split.
      - apply get_transcript_calls.
      - apply get_transcript_none. }
  destruct (read_parquet fs (settings_videos_path settings)) as [df0|e];
    simpl.
  2:{ split_and!; try done. intros video t0. split.
      - apply get_transcript_calls.
      - apply get_transcript_none. }
  set (rs := rows (YouTube.skip_existing force
                     (YouTube.select_ids video_ids df0))).
  pose proof (fetch_loop_agree api1 api2 rs
                (YouTube.mkLoop 0 0 [] t) (YouTube.mkLoop 0 0 [] t) Hsame
                ltac:(done)) as (Hs & Hf & Ht & Hc).
  pose proof (fetch_loop_calls api1 rs (YouTube.mkLoop 0 0 [] t))
    as (Hcalls & Hn & _).
  simpl in Hcalls, Hn.
  rewrite <- Ht, <- Hs, <- Hf.
  destruct (YouTube.transcripts
              (foldl (YouTube.fetch_one api1) (YouTube.mkLoop 0 0 [] t) rs))
    as [|e es]; simpl.
  - split_and!; try done. intros video t0. split.
    + apply get_transcript_calls.
    + apply get_transcript_none.
  - split_and!; try done.
    + intros counts [= <-]. exists df0. by split_and!.
    + intros video t0. split.
      * apply get_transcript_calls.
      * apply get_transcript_none.
Qed.

(** C7 (as the code has it). Every video of a batch is requested from the
    provider exactly once, whatever the answer: a failed request is not
    repeated.  A failure of any kind makes [get_transcript] return [None],
    and two providers that differ only in the kind of their failures lead
    to the same counts, the same requests and the same file on disk: a
    transient error and a permanent unavailability are recorded alike.
    A request that brings no transcript makes the loop record the video
    with transcript [None], add one to [failed_count] and nothing to
    [success_count], and log one message: at debug level for
    [TranscriptsDisabled], [NoTranscriptFound] and [VideoUnavailable], at
    error level for any other exception.  A batch that succeeds returns
    the number of answered and of unanswered requests, has logged the
    messages of its requests in order, and has written the selected rows
    merged with the recorded entries; when the selected rows have
    pairwise different identifiers, the row written for a video carries
    the transcript recorded for its own request. *)
Theorem fetch_transcripts_requests_once_any_failure
    settings (api1 api2 : YouTube.Provider) (fs : FS) t video_ids force :
  (∀ v n, YouTube.same_success (api1 v n) (api2 v n)) →
  (YouTube.fetch_transcripts settings api1 fs t video_ids force).1
  = (YouTube.fetch_transcripts settings api2 fs t video_ids force).1
  ∧ YouTube.calls
      (YouTube.fetch_transcripts settings api1 fs t video_ids force).2
    = YouTube.calls
        (YouTube.fetch_transcripts settings api2 fs t video_ids force).2
  ∧ (∀ counts,
       (YouTube.fetch_transcripts settings api1 fs t video_ids force).1.1
       = Ok counts →
       ∃ df0,
         read_parquet fs (settings_videos_path settings) = Ok df0
         ∧ YouTube.calls
             (YouTube.fetch_transcripts settings api1 fs t video_ids force).2
           = YouTube.calls t
             ++ map video_id
                  (rows (YouTube.skip_existing force
                           (YouTube.select_ids video_ids df0)))
         ∧ counts.1 + counts.2
           = length (rows (YouTube.skip_existing force
                             (YouTube.select_ids video_ids df0))))
  ∧ (∀ video t0,
       YouTube.calls (YouTube.get_transcript api1 video t0).2
       = YouTube.calls t0 ++ [video]
       ∧ ((YouTube.get_transcript api1 video t0).1 = None
          ↔ ∀ segs, api1 video (YouTube.attempts t0 video)
                    ≠ YouTube.Segments segs))
  ∧ (∀ st row,
       FetchSpec.answered
         (api1 (video_id row)
               (YouTube.attempts (YouTube.trace st) (video_id row)))
       = false →
       YouTube.fetch_one api1 st row
       = YouTube.mkLoop
           (YouTube.success_count st) (S (YouTube.failed_count st))
           (YouTube.transcripts st
            ++ [YouTube.mkEntry (video_id row) None None])
           (YouTube.mkTrace
              (YouTube.calls (YouTube.trace st) ++ [video_id row])
              (YouTube.logs (YouTube.trace st)
               ++ match api1 (video_id row)
                             (YouTube.attempts (YouTube.trace st)
                                               (video_id row)) with
                  | YouTube.Segments _ => []
                  | YouTube.TranscriptsDisabled | YouTube.NoTranscriptFound
                  | YouTube.VideoUnavailable =>
                      [YouTube.LogDebug (video_id row)]
                  | YouTube.OtherException _ =>
                      [YouTube.LogError (video_id row)]
                  end)))
  ∧ (∀ counts fs' t',
       YouTube.fetch_transcripts settings api1 fs t video_ids force
       = (Ok counts, fs', t') →
       ∃ df0,
         read_parquet fs (settings_videos_path settings) = Ok df0
         ∧ let sel :=
             YouTube.skip_existing force (YouTube.select_ids video_ids df0) in
           let outs := FetchSpec.answers api1 (YouTube.calls t) (rows sel) in
           let entries :=
             zip_with FetchSpec.recorded (map video_id (rows sel)) outs in
           counts = (length (List.filter FetchSpec.answered outs),
                     length (List.filter FetchSpec.unanswered outs))
           ∧ fs' = <[settings_transcripts_path settings :=
                       ParquetFile
                         (mkFrame (add_column "transcript" (columns sel))
                            (YouTube.merge_rows (has_column "transcript" sel)
                                                (rows sel) entries))]> fs
           ∧ YouTube.logs t'
             = YouTube.logs t
               ++ concat (zip_with FetchSpec.logged
                                   (map video_id (rows sel)) outs)
           ∧ (NoDup (map video_id (rows sel)) →
              YouTube.merge_rows (has_column "transcript" sel)
                                 (rows sel) entries
              = zip_with
                  (λ r o,
                     YouTube.set_transcript r
                       (YouTube.merged_transcript
                          (has_column "transcript" sel) r
                          (YouTube.te_transcript
                             (FetchSpec.recorded (video_id r) o))))
                  (rows sel) outs)).
Proof.
  intros Hsame.
  destruct (fetch_transcripts_kinds_agree settings api1 api2 fs t video_ids
              force Hsame) as (H1 & H2 & H3 & H4).
  split_and!; try done.
  - intros st row. apply fetch_one_unanswered.
  - intros counts fs' t' Hrun.
    destruct (fetch_transcripts_batch _ _ _ _ _ _ _ _ _ Hrun)
      as (df0 & Hread & Hcounts & Hfs & _ & Hlogs).
    exists df0. split; [done|]. cbv zeta. split_and!; try done.
    intros Hnd. apply merge_rows_recorded; [done|].
    apply answers_length.
Qed.

(** C7, counterexample. The provider [flaky] would answer the second
    request for the video; the batch sends one request, records the video
    as failed, and leaves on disk exactly what it leaves when the video is
    permanently unavailable. *)
Lemma transient_error_not_retried :
  Toy.flaky "vid1" 1 = YouTube.Segments Toy.one_segment
  ∧ (YouTube.fetch_transcripts default_settings Toy.flaky Toy.single_fs
                               YouTube.empty_trace None false).1.1
    = Ok (0, 1)
  ∧ YouTube.calls
      (YouTube.fetch_transcripts default_settings Toy.flaky Toy.single_fs
                                 YouTube.empty_trace None false).2
    = ["vid1"]
  ∧ (YouTube.fetch_transcripts default_settings Toy.flaky Toy.single_fs
                               YouTube.empty_trace None false).1
    = (YouTube.fetch_transcripts default_settings Toy.gone Toy.single_fs
                                 YouTube.empty_trace None false).1.
Proof.
  split_and!; vm_compute; reflexivity.
Qed.

(** C5, evaluated. Ten collected videos, video 7 without captions.  The
    first run returns (9, 1) after one request per video and leaves the
    videos file, which has no transcript column, as it was.  The second
    run, without [force_refresh], reads that same file and requests all
    ten videos again: the nine transcripts that had succeeded are fetched a
    second time. *)
Theorem fetch_transcripts_rerun_requests_all_again :
  Toy.run1.1.1 = Ok (9, 1)
  ∧ YouTube.calls Toy.run1.2 = Toy.video_ids10
  ∧ has_column "transcript" Toy.videos_frame = false
  ∧ Toy.run1.1.2 !! settings_videos_path default_settings
    = Some (ParquetFile Toy.videos_frame)
  ∧ Toy.run2.1.1 = Ok (9, 1)
  ∧ YouTube.calls Toy.run2.2 = Toy.video_ids10 ++ Toy.video_ids10.
Proof.
  split_and!; vm_compute; reflexivity.
Qed.

(** The skip of lines 274-276 does work on a frame that has the transcript
    column: when the videos file and the transcripts file are the same
    file, the second run requests video 7 only. *)
Example fetch_transcripts_rerun_one_file :
  Toy.run1_one_file.1.1 = Ok (9, 1)
  ∧ Toy.run2_one_file.1.1 = Ok (0, 1)
  ∧ YouTube.calls Toy.run2_one_file.2 = Toy.video_ids10 ++ ["vid7"].
Proof.
  split_and!; vm_compute; reflexivity.
Qed.

(** The repetition is general: when the videos file and the transcripts
    file are different files, a successful run leaves the videos file
    untouched, so a second run with the same arguments repeats every
    request of the first. *)
Lemma fetch_transcripts_rerun_repeats settings api (fs : FS) t video_ids force
    counts fs' t' :
  settings_videos_path settings ≠ settings_transcripts_path settings →
  YouTube.fetch_transcripts settings api fs t video_ids force
    = (Ok counts, fs', t') →
  ∃ ids,
    YouTube.calls t' = YouTube.calls t ++ ids
    ∧ YouTube.calls
        (YouTube.fetch_transcripts settings api fs' t' video_ids force).2
      = YouTube.calls t ++ ids ++ ids.
Proof.
  intros Hne Hrun.
  assert (Hfs : fs' !! settings_videos_path settings
                = fs !! settings_videos_path settings).
  { revert Hrun. unfold YouTube.fetch_transcripts.
    destruct (exists_path fs _); simpl; [|done].
    destruct (read_parquet fs _); [|done].
    destruct (YouTube.transcripts _); [done|].
    intros [= _ <- _]. unfold run_steps, write_steps. simpl.
    by rewrite !lookup_insert_ne by done. }
  revert Hrun. unfold YouTube.fetch_transcripts, read_parquet, exists_path.
  rewrite Hfs.
  destruct (fs !! settings_videos_path settings) as [[|df0|]|]; simpl;
    try done.
  set (rs := rows (YouTube.skip_existing force
                     (YouTube.select_ids video_ids df0))).
  pose proof (fetch_loop_calls api rs (YouTube.mkLoop 0 0 [] t))
    as (Hc1 & _ & _).
  destruct (YouTube.transcripts
              (foldl (YouTube.fetch_one api) (YouTube.mkLoop 0 0 [] t) rs));
    [done|].
  intros [= _ _ <-]. exists (map video_id rs). split; [exact Hc1|].
  pose proof (fetch_loop_calls api rs
                (YouTube.mkLoop 0 0 []
                   (YouTube.trace
                      (foldl (YouTube.fetch_one api)
                             (YouTube.mkLoop 0 0 [] t) rs))))
    as (Hc2 & _ & _).
  simpl in Hc1, Hc2.
  destruct (YouTube.transcripts _); simpl; rewrite Hc2, Hc1;
    by rewrite <- app_assoc.
Qed.

(** ** The statements at the toy instances *)

(** C1 at the toy service: the build of six transcripts. *)
Lemma build_index_ordinal_alignment_witness :
  exists_path Toy.fs0 (VectorSearch.index_path Toy.svc0) && negb false = false
  ∧ @VectorSearch.build_index Toy.backend default_settings Toy.svc0 Toy.fs0
                              None None false
    = (Ok (6, 6), Toy.svc1, Toy.fs1)
  ∧ ∃ ix md,
      VectorSearch.index Toy.svc1 = Some ix
      ∧ VectorSearch.metadata Toy.svc1 = Some md
      ∧ Faiss.ntotal ix = length (rows md).
Proof.
  assert (H1 : exists_path Toy.fs0 (VectorSearch.index_path Toy.svc0)
               && negb false = false) by (vm_compute; reflexivity).
  assert (H2 : @VectorSearch.build_index Toy.backend default_settings
                 Toy.svc0 Toy.fs0 None None false
               = (Ok (6, 6), Toy.svc1, Toy.fs1)) by (vm_compute; reflexivity).
  split; [exact H1|]. split; [exact H2|].
  destruct (@build_index_ordinal_alignment Toy.backend default_settings
              Toy.svc0 Toy.fs0 None None false (6, 6) Toy.svc1 Toy.fs1 H1 H2)
    as (ix & md & Hix & Hmd & Hlen & _).
  exists ix, md. split; [exact Hix|]. split; [exact Hmd|exact Hlen].
Defined.


(** C3 at the toy service: a persist stopped between its two writes. *)
Lemma persist_writes_in_place_witness :
  VectorSearch.index_path Toy.svc1 ≠ VectorSearch.embeddings_path Toy.svc1
  ∧ Crash.snapshot_on_disk Toy.svc1
      (Crash.interrupted_persist 2 Toy.svc1 Toy.ix1 Toy.md1 Toy.fs0)
    = (Some (FaissFile Toy.ix1),
       Toy.fs0 !! VectorSearch.embeddings_path Toy.svc1).
Proof.
  assert (H1 : VectorSearch.index_path Toy.svc1
               ≠ VectorSearch.embeddings_path Toy.svc1)
    by (vm_compute; discriminate).
  split; [exact H1|].
  destruct (persist_writes_in_place Toy.svc1 Toy.ix1 Toy.md1 Toy.fs0 H1)
    as (_ & _ & H2 & _).
  exact H2.
Defined.

(** C4 at the toy service: an empty disk, and the snapshot whose counts
    disagree. *)
Lemma load_index_outcomes_witness :
  Toy.mismatched_fs !! VectorSearch.index_path Toy.svc0
    = Some (FaissFile (Faiss.mkIndex Faiss.METRIC_INNER_PRODUCT 2
                                     [[1%Q; 0%Q]; [0%Q; 1%Q]]))
  ∧ (∅ : FS) !! VectorSearch.index_path Toy.svc0 = None
  ∧ VectorSearch.load_index Toy.svc0 ∅
    = (Raise (FileNotFoundError
                ("Index not found: " +:+ VectorSearch.index_path Toy.svc0)),
       Toy.svc0)
  ∧ is_ok (VectorSearch.load_index Toy.svc0 Toy.mismatched_fs).1 = true.
Proof.
  assert (H1 : Toy.mismatched_fs !! VectorSearch.index_path Toy.svc0
               = Some (FaissFile (Faiss.mkIndex Faiss.METRIC_INNER_PRODUCT 2
                                                [[1%Q; 0%Q]; [0%Q; 1%Q]])))
    by (vm_compute; reflexivity).
  assert (H2 : (∅ : FS) !! VectorSearch.index_path Toy.svc0 = None)
    by (vm_compute; reflexivity).
  split; [exact H1|]. split; [exact H2|].
  destruct (load_index_outcomes Toy.svc0 ∅) as (Habsent & _).
  destruct (load_index_outcomes Toy.svc0 Toy.mismatched_fs)
    as (_ & _ & Hboth & _).
  split; [exact (Habsent H2)|].
  rewrite (Hboth _ (mkFrame ["video_id"; "title"; "transcript"; "embedding"]
                            [mkRow "v1" "Title of v1" None (Some "cats")
                                   (Some [1%Q; 0%Q])]) H1).
  - reflexivity.
  - vm_compute. reflexivity.
Defined.

(** C9 at the toy service: build, then build again. *)
Lemma build_index_without_force_is_noop_witness :
  VectorSearch.index_path Toy.svc0 ≠ VectorSearch.embeddings_path Toy.svc0
  ∧ @VectorSearch.build_index Toy.backend default_settings Toy.svc0 Toy.fs0
                              None None false
    = (Ok (6, 6), Toy.svc1, Toy.fs1)
  ∧ @VectorSearch.build_index Toy.backend default_settings Toy.svc1 Toy.fs1
                              None None false
    = (Ok (6, 6), Toy.svc1, Toy.fs1).
Proof.
  assert (H1 : VectorSearch.index_path Toy.svc0
               ≠ VectorSearch.embeddings_path Toy.svc0)
    by (vm_compute; discriminate).
  assert (H2 : @VectorSearch.build_index Toy.backend default_settings
                 Toy.svc0 Toy.fs0 None None false
               = (Ok (6, 6), Toy.svc1, Toy.fs1)) by (vm_compute; reflexivity).
  split; [exact H1|]. split; [exact H2|].
  destruct (@build_index_without_force_is_noop Toy.backend default_settings
              Toy.svc0 Toy.fs0 None None None None) as (_ & Hsecond).
  exact (Hsecond H1 (6, 6) Toy.svc1 Toy.fs1 H2).
Defined.

(** C6 at the toy service: the index it builds is an inner-product index. *)
Lemma search_ignores_metric_witness :
  exists_path Toy.fs0 (VectorSearch.index_path Toy.svc0) && negb false = false
  ∧ ∃ ix, VectorSearch.index Toy.svc1 = Some ix
          ∧ Faiss.metric_type ix = Faiss.METRIC_INNER_PRODUCT.
Proof.
  assert (H1 : exists_path Toy.fs0 (VectorSearch.index_path Toy.svc0)
               && negb false = false) by (vm_compute; reflexivity).
  assert (H2 : @VectorSearch.build_index Toy.backend default_settings
                 Toy.svc0 Toy.fs0 None None false
               = (Ok (6, 6), Toy.svc1, Toy.fs1)) by (vm_compute; reflexivity).
  split; [exact H1|].
  destruct (@search_ignores_metric Toy.backend Toy.svc0 "cats" 2 "euclidean"
              None) as (_ & _ & Hbuild).
  exact (Hbuild default_settings Toy.fs0 None None false (6, 6) Toy.svc1
                Toy.fs1 H1 H2).
Defined.

(** C7 at the ten collected videos: a provider that always times out and
    one for which every video is unavailable leave the same result. *)
Lemma fetch_transcripts_requests_once_any_failure_witness :
  (∀ v n, YouTube.same_success (Toy.always_timeout v n) (Toy.gone v n))
  ∧ (YouTube.fetch_transcripts default_settings Toy.always_timeout
                               Toy.videos_fs YouTube.empty_trace None false).1
    = (YouTube.fetch_transcripts default_settings Toy.gone
                                 Toy.videos_fs YouTube.empty_trace None false).1.
Proof.
  assert (H1 : ∀ v n, YouTube.same_success (Toy.always_timeout v n)
                                           (Toy.gone v n))
    by (intros v n; simpl; exact I).
  split; [exact H1|].
  destruct (fetch_transcripts_requests_once_any_failure default_settings
              Toy.always_timeout Toy.gone Toy.videos_fs YouTube.empty_trace
              None false H1) as (Hsame & _).
  exact Hsame.
Defined.

(** C10 at the toy service: seven slots requested, six vectors stored. *)
Lemma search_beyond_index_size_witness :
  VectorSearch.index Toy.svc1 = Some Toy.ix1
  ∧ Faiss.ntotal Toy.ix1 < 7
  ∧ ∃ rs,
      @VectorSearch.search Toy.backend Toy.svc1 "cats" 7 "cosine" None = Ok rs
      ∧ length rs = Faiss.ntotal Toy.ix1.
Proof.
  assert (H1 : VectorSearch.index Toy.svc1 = Some Toy.ix1)
    by (vm_compute; reflexivity).
  assert (H2 : VectorSearch.metadata Toy.svc1 = Some Toy.md1)
    by (vm_compute; reflexivity).
  assert (H3 : Faiss.ntotal Toy.ix1 ≤ length (rows Toy.md1))
    by (vm_compute; lia).
  assert (H4 : length (@SearchSpec.query_embedding_of Toy.backend Toy.svc1 "cats")
               = Faiss.d Toy.ix1) by (vm_compute; reflexivity).
  assert (H5 : Faiss.ntotal Toy.ix1 < 7) by (vm_compute; lia).
  split; [exact H1|]. split; [exact H5|].
  destruct (@search_beyond_index_size Toy.backend Toy.svc1 Toy.ix1 Toy.md1
              "cats" 7 "cosine" None H1 H2 H3 H4 H5)
    as (rs & Hrs & _ & _ & _ & _ & Hn).
  exists rs. split; [exact Hrs|exact (Hn eq_refl)].
Defined.

(** * Further properties of the vector service *)

Section SearchExtras.
Import VectorSearch SearchSpec.
Context `{EmbeddingBackend}.

Lemma search_ok_inv svc ix md query k metric ms rs :
  index svc = Some ix → metadata svc = Some md →
  search svc query k metric ms = Ok rs →
  k ≠ 0
  ∧ Forall2 (resolves md)
      (List.filter (λ h, negb (below ms h.1))
         (take k (Faiss.ranked ix (query_embedding_of svc query)))) rs.
Proof.
  intros Hix Hmd. unfold search. rewrite Hix, Hmd.
  fold (query_embedding_of svc query). unfold Faiss.search.
  case_bool_decide; [done|]. case_bool_decide; [|done].
  intros Hrs%build_results_inv. by rewrite keeps_answer in Hrs.
Qed.

Lemma build_results_raises md ms pairs (h : Faiss.hit) :
  h ∈ pairs → keeps ms h = true → iloc md h.2 = None →
  build_results md ms pairs
  = Raise (IndexError "single positional indexer is out-of-bounds").
Proof.
  intros Hin Hk Hnone.
  induction pairs as [|[dist idx] pairs IH]; [by apply elem_of_nil in Hin|].
  simpl. apply elem_of_cons in Hin as [->|Hin].
  - unfold keeps, real in Hk. simpl in *.
    apply andb_true_iff in Hk as [Hreal Hbelow].
    apply negb_true_iff in Hreal, Hbelow.
    by rewrite Hreal, Hbelow, Hnone.
  - specialize (IH Hin). rewrite IH.
    destruct (idx =? -1)%Z; [done|].
    destruct (below ms dist); [done|].
    by destruct (iloc md idx).
Qed.

Lemma scored_ordinals ix q :
  map snd (Faiss.scored ix q) = map Z.of_nat (seq 0 (length (Faiss.xb ix))).
Proof.
  unfold Faiss.scored.
  assert (Hgen : ∀ (l : list vec) n,
            map snd (imap (λ i v, (Faiss.distance (Faiss.metric_type ix) q v,
                                   Z.of_nat (n + i))) l)
            = map Z.of_nat (seq n (length l))).
  { induction l as [|v l IH]; intros n; simpl; [done|].
    rewrite Nat.add_0_r. f_equal. rewrite <- (IH (S n)).
    f_equal. apply imap_ext. intros i x _. simpl. f_equal. f_equal. lia. }
  exact (Hgen (Faiss.xb ix) 0).
Qed.

Lemma ranked_ordinals_nodup ix q : NoDup (map snd (Faiss.ranked ix q)).
Proof.
  rewrite (ranked_perm ix q), scored_ordinals.
  apply NoDup_fmap_2; [intros x y; lia|apply NoDup_seq].
Qed.

Lemma filter_sublist {A} (p : A → bool) (l : list A) :
  List.filter p l `sublist_of` l.
Proof.
  induction l as [|x l IH]; simpl; [done|].
  destruct (p x); by constructor.
Qed.

End SearchExtras.

Lemma Qsquare_nonneg (z : Q) : (0 <= z * z)%Q.
Proof.
  destruct z as [n d]. unfold Qle, Qmult. simpl.
  rewrite Z.mul_1_r. apply Z.square_nonneg.
Qed.

Lemma sqdist_nonneg (a b : vec) : (0 <= sqdist a b)%Q.
Proof.
  unfold sqdist. revert b. induction a as [|x a IH]; intros [|y b]; simpl;
    try apply Qle_refl.
  apply (Qle_trans _ (0 + 0)%Q); [apply Qle_refl|].
  apply Qplus_le_compat; [apply Qsquare_nonneg|apply IH].
Qed.

Section SearchExtraTheorems.
Import VectorSearch SearchSpec.
Context `{EmbeddingBackend}.

Lemma search_length_le svc query top_k metric min_score rs :
  search svc query top_k metric min_score = Ok rs →
  length rs ≤ top_k.
Proof.
  intros Hrs.
  destruct (index svc) as [ix|] eqn:Hix;
    [|by unfold search in Hrs; rewrite Hix in Hrs].
  destruct (metadata svc) as [md|] eqn:Hmd;
    [|by unfold search in Hrs; rewrite Hix, Hmd in Hrs].
  destruct (search_ok_inv _ _ _ _ _ _ _ _ Hix Hmd Hrs) as [_ Hres].
  rewrite <- (Forall2_length _ _ _ Hres).
  etransitivity; [apply List.filter_length_le|].
  rewrite length_take. lia.
Qed.

(** X1. A search that returns, returns at most [top_k] entries, and each
    entry carries the video identifier and title of a metadata row (no
    entry is made up from an unfilled slot). *)
Theorem search_at_most_top_k svc query top_k metric min_score rs :
  search svc query top_k metric min_score = Ok rs →
  length rs ≤ top_k
  ∧ ∃ md, metadata svc = Some md
          ∧ Forall (λ r, ∃ row, row ∈ rows md
                                ∧ hit_video_id r = video_id row
                                ∧ hit_title r = title row) rs.
Proof.
  intros Hrs. split; [by eapply search_length_le|].
  destruct (index svc) as [ix|] eqn:Hix;
    [|by unfold search in Hrs; rewrite Hix in Hrs].
  destruct (metadata svc) as [md|] eqn:Hmd;
    [|by unfold search in Hrs; rewrite Hix, Hmd in Hrs].
  exists md. split; [done|].
  eapply Forall_impl; [exact (search_inv _ _ _ _ _ _ _ _ Hix Hmd Hrs)|].
  simpl. intros r (i & v & row & _ & Hrow & ->). exists row.
  split; [by eapply list_elem_of_lookup_2|done].
Qed.

(** X2. A service that was constructed and whose only load failed, for
    whatever reason, refuses every search with the "Index not loaded"
    error: a freshly constructed service never searches a half-loaded
    state. *)
Theorem search_after_failed_first_load settings model ipath epath (fs : FS)
    e svc' query top_k metric min_score :
  load_index (init settings model ipath epath) fs = (Raise e, svc') →
  search svc' query top_k metric min_score
  = Raise (ValueError "Index not loaded. Call load_index() first.").
Proof.
  unfold load_index.
  destruct (negb (exists_path fs _)); [by intros [= _ <-]|].
  destruct (read_index fs _) as [ix|e1]; [|by intros [= _ <-]].
  destruct (negb (exists_path fs _)).
  - intros [= _ <-]. unfold search. simpl. done.
  - destruct (read_parquet fs _) as [df|e2]; [done|].
    intros [= _ <-]. unfold search. simpl. done.
Qed.

(** X3. When the loaded metadata has fewer rows than the index has
    vectors and [top_k] reaches every vector, a search without [min_score]
    raises [IndexError]: the disagreement that loading accepted surfaces
    at query time as a failure, not as a wrong answer. *)
Theorem search_misaligned_raises svc ix md query top_k metric :
  index svc = Some ix → metadata svc = Some md →
  length (rows md) < Faiss.ntotal ix →
  Faiss.ntotal ix ≤ top_k →
  length (query_embedding_of svc query) = Faiss.d ix →
  search svc query top_k metric None
  = Raise (IndexError "single positional indexer is out-of-bounds").
Proof.
  intros Hix Hmd Hlt Hk Hd. unfold search. rewrite Hix, Hmd.
  fold (query_embedding_of svc query).
  rewrite search_ok by (done || lia).
  set (qe := query_embedding_of svc query).
  unfold Faiss.ntotal in Hlt.
  destruct (lookup_lt_is_Some_2 _ _ Hlt) as [v Hv].
  set (h := (Faiss.distance (Faiss.metric_type ix) qe v,
             Z.of_nat (length (rows md))) : Faiss.hit).
  assert (Hin : h ∈ Faiss.ranked ix qe).
  { rewrite (ranked_perm ix qe). unfold Faiss.scored.
    apply elem_of_lookup_imap. by exists (length (rows md)), v. }
  apply (build_results_raises md None _ h).
  - apply elem_of_app. left. rewrite take_ge; [done|].
    rewrite ranked_length. done.
  - unfold keeps. rewrite (ranked_real ix qe h Hin). done.
  - unfold iloc, h. simpl.
    rewrite (proj2 (Z.leb_le _ _)) by lia. rewrite Nat2Z.id.
    by apply lookup_ge_None.
Qed.

(** X4. When the metadata lists every video once, no video appears twice
    in the answer of a search. *)
Theorem search_no_duplicate_videos svc ix md query top_k metric min_score rs :
  index svc = Some ix → metadata svc = Some md →
  NoDup (map video_id (rows md)) →
  search svc query top_k metric min_score = Ok rs →
  NoDup (map hit_video_id rs).
Proof.
  intros Hix Hmd Hnd Hrs.
  destruct (search_ok_inv _ _ _ _ _ _ _ _ Hix Hmd Hrs) as [_ Hres].
  set (qe := query_embedding_of svc query) in *.
  set (hits := List.filter _ _) in Hres.
  assert (Hsub : hits `sublist_of` Faiss.ranked ix qe).
  { etransitivity; [apply filter_sublist|apply sublist_take]. }
  assert (Hnd_hits : NoDup (map snd hits)).
  { eapply sublist_NoDup; [apply (ranked_ordinals_nodup ix qe)|].
    by apply fmap_sublist. }
  assert (Hreal : Forall (λ h : Faiss.hit, (0 <= h.2)%Z) hits).
  { apply Forall_forall. intros h Hh.
    assert (Hr : h ∈ Faiss.ranked ix qe) by by eapply elem_of_sublist.
    apply ranked_elem in Hr as (i & v & _ & ->). simpl. lia. }
  clear Hsub Hrs. induction Hres as [|h r hs rs Hhr Hrest IH]; simpl.
  - constructor.
  - simpl in Hnd_hits. apply NoDup_cons in Hnd_hits as [Hnotin Hnd_hs].
    apply Forall_cons in Hreal as [Hh Hreal].
    constructor; [|by apply IH].
    intros Hin. apply list_elem_of_fmap in Hin as (r' & Hid & Hr').
    apply list_elem_of_lookup in Hr' as [j Hj].
    destruct (Forall2_lookup_r _ _ _ _ _ Hrest Hj) as (h' & Hh' & Hres').
    destruct Hhr as (row & Hrow & ->), Hres' as (row' & Hrow' & ->).
    simpl in Hid.
    assert (Hh'0 : (0 <= h'.2)%Z).
    { rewrite Forall_forall in Hreal. apply Hreal.
      by eapply list_elem_of_lookup_2. }
    unfold iloc in Hrow, Hrow'.
    rewrite (proj2 (Z.leb_le _ _)) in Hrow by done.
    rewrite (proj2 (Z.leb_le _ _)) in Hrow' by done.
    assert (Hsame : Z.to_nat h.2 = Z.to_nat h'.2).
    { eapply NoDup_lookup; [exact Hnd| |].
      - rewrite list_lookup_fmap, Hrow. simpl. reflexivity.
      - rewrite list_lookup_fmap, Hrow'. simpl. by rewrite Hid. }
    apply Hnotin. apply list_elem_of_fmap. exists h'. split.
    + lia.
    + by eapply list_elem_of_lookup_2.
Qed.

(** X10. On a euclidean index, as the indexing script builds it for
    [--metric euclidean], the score of an entry is the squared distance to
    the query: scores are never negative and the answer is in ascending
    score order, nearest (smallest score) first. *)
Theorem search_euclidean_ascending svc embs ix md query top_k metric
    min_score rs :
  EmbedScript.build_faiss_index embs "euclidean" = Ok ix →
  index svc = Some ix → metadata svc = Some md →
  search svc query top_k metric min_score = Ok rs →
  StronglySorted Snapshot.ascending rs
  ∧ Forall (λ r, (0 <= hit_score r)%Q) rs
  ∧ Forall (λ r, ∃ v, v ∈ embs
                      ∧ hit_score r = sqdist (query_embedding_of svc query) v)
           rs.
Proof.
  intros Hbuild Hix Hmd Hrs.
  unfold EmbedScript.build_faiss_index in Hbuild. simpl in Hbuild.
  injection Hbuild as <-.
  destruct (search_ok_inv _ _ _ _ _ _ _ _ Hix Hmd Hrs) as [_ Hres].
  set (qe := query_embedding_of svc query) in *.
  set (ix := Faiss.add _ embs) in *.
  set (hits := List.filter _ _) in Hres.
  assert (Hsorted : StronglySorted (Faiss.better Faiss.METRIC_L2) hits).
  { apply StronglySorted_filter, StronglySorted_take.
    exact (ranked_sorted ix qe). }
  assert (Hdist : Forall (λ h : Faiss.hit,
                            ∃ v, v ∈ embs ∧ h.1 = sqdist qe v) hits).
  { apply Forall_forall. intros h Hh.
    apply list_elem_of_In, List.filter_In in Hh as [Hh _].
    apply list_elem_of_In, elem_of_take in Hh as (j & Hj & _).
    apply list_elem_of_lookup_2, ranked_elem in Hj as (i & v & Hv & ->).
    exists v. split; [|done]. simpl in Hv. by eapply list_elem_of_lookup_2. }
  split_and!.
  - clear Hdist Hrs. induction Hres as [|h r hs rs Hhr Hrest IH];
      [constructor|].
    apply StronglySorted_inv in Hsorted as [Hs Hh].
    constructor; [by apply IH|].
    clear IH Hs. induction Hrest as [|h' r' hs rs Hhr' _ IH]; [constructor|].
    apply Forall_cons in Hh as [Hhh' Hh]. constructor; [|by apply IH].
    destruct Hhr as (row & _ & ->), Hhr' as (row' & _ & ->). exact Hhh'.
  - eapply Forall2_Forall_right; [exact Hres|].
    intros h r Hh (row & _ & ->). simpl.
    rewrite Forall_forall in Hdist. destruct (Hdist h Hh) as (v & _ & ->).
    apply sqdist_nonneg.
  - eapply Forall2_Forall_right; [exact Hres|].
    intros h r Hh (row & _ & ->). simpl.
    rewrite Forall_forall in Hdist. exact (Hdist h Hh).
Qed.

End SearchExtraTheorems.

(** ** Snippets *)

Lemma string_length_append (s1 s2 : string) :
  String.length (s1 +:+ s2) = String.length s1 + String.length s2.
Proof. induction s1 as [|c s1 IH]; simpl; [done|]. by rewrite IH. Qed.

Lemma substring_0_length n (s : string) :
  String.length (String.substring 0 n s) = n `min` String.length s.
Proof.
  revert n. induction s as [|c s IH]; intros [|n]; simpl; try done.
  by rewrite IH.
Qed.

Lemma substring_0_all n (s : string) :
  String.length s ≤ n → String.substring 0 n s = s.
Proof.
  revert n. induction s as [|c s IH]; intros [|n]; simpl; try done; try lia.
  intros Hle. rewrite IH; [done|lia].
Qed.

Section BuildExtras.
Import VectorSearch SearchSpec Snapshot.
Context `{EmbeddingBackend}.

(** X5. The snippet of an entry is absent exactly when the row has no
    transcript or an empty one; otherwise it is the first 200 characters of
    the transcript followed by "...", also when the transcript is shorter
    than 200 characters, so it is never longer than 203 characters.  This
    holds for every entry a search returns. *)
Theorem search_snippet_shape svc query top_k metric min_score rs :
  search svc query top_k metric min_score = Ok rs →
  (∀ row, snippet_of row = None ↔ has_transcript row = false)
  ∧ (∀ row t, transcript row = Some t → t ≠ "" →
       snippet_of row = Some (String.substring 0 200 t +:+ "...")
       ∧ (String.length t ≤ 200 → snippet_of row = Some (t +:+ "...")))
  ∧ Forall (λ r, ∀ s, hit_snippet r = Some s →
                      3 ≤ String.length s ≤ 203) rs.
Proof.
  intros Hrs.
  assert (Hshape : ∀ row s, snippet_of row = Some s →
                            3 ≤ String.length s ≤ 203).
  { intros row s. unfold snippet_of.
    destruct (transcript row) as [t|]; [|done].
    destruct (String.eqb t ""); [done|]. intros [= <-].
    rewrite string_length_append, substring_0_length.
    change (String.length "...") with 3. lia. }
  split_and!.
  - intros row. unfold snippet_of, has_transcript.
    destruct (transcript row) as [t|]; [|done].
    by destruct (String.eqb t "").
  - intros row t Ht Hne. unfold snippet_of. rewrite Ht.
    rewrite (proj2 (String.eqb_neq _ _) Hne). split; [done|].
    intros Hlen. by rewrite substring_0_all.
  - destruct (index svc) as [ix|] eqn:Hix;
      [|by unfold search in Hrs; rewrite Hix in Hrs].
    destruct (metadata svc) as [md|] eqn:Hmd;
      [|by unfold search in Hrs; rewrite Hix, Hmd in Hrs].
    eapply Forall_impl; [exact (search_inv _ _ _ _ _ _ _ _ Hix Hmd Hrs)|].
    simpl. intros r (i & v & row & _ & _ & ->) s. simpl. apply Hshape.
Qed.

(** X6. Every failure of [build_index] other than an I/O error of a write
    (an unreadable snapshot on the early return, a missing or unreadable
    transcripts file, a missing transcript column, no row with a
    transcript) happens before the first write: the disk is as before, and
    the loaded metadata and the two paths of the service are as before. *)
Theorem build_index_failure_writes_nothing settings svc (fs : FS) model bs
    force e svc' fs' :
  build_index settings svc fs model bs force = (Raise e, svc', fs') →
  fs' = fs
  ∧ metadata svc' = metadata svc
  ∧ index_path svc' = index_path svc
  ∧ embeddings_path svc' = embeddings_path svc.
Proof.
  unfold build_index.
  destruct (exists_path fs (index_path svc) && negb force).
  - unfold load_index.
    destruct (negb (exists_path fs (index_path svc))).
    { by intros [= _ <- <-]. }
    destruct (read_index fs (index_path svc)) as [ix|e1].
    2:{ by intros [= _ <- <-]. }
    destruct (negb (exists_path fs (embeddings_path svc))).
    { by intros [= _ <- <-]. }
    destruct (read_parquet fs (embeddings_path svc)) as [df|e2]; simpl.
    + done.
    + by intros [= _ <- <-].
  - pose proof (model_name_choice svc model) as [Hip Hep].
    set (svc1 := match model with Some _ => _ | None => _ end) in *.
    assert (Hmd : metadata svc1 = metadata svc).
    { unfold svc1. destruct model as [m|]; [|done].
      by destruct (truthy (Some m) && negb (String.eqb m (model_name svc))). }
    destruct (negb (exists_path fs _)); [by intros [= _ <- <-]|].
    destruct (read_parquet fs _) as [df0|e1]; [|by intros [= _ <- <-]].
    destruct (negb (has_column "transcript" df0)); [by intros [= _ <- <-]|].
    case_bool_decide; [by intros [= _ <- <-]|done].
Qed.

(** A successful build, in terms of the transcripts frame alone. *)
Lemma build_index_snapshot settings svc (fs : FS) model bs force counts
    svc' fs' :
  exists_path fs (index_path svc) && negb force = false →
  build_index settings svc fs model bs force = (Ok counts, svc', fs') →
  ∃ df0,
    read_parquet fs (settings_transcripts_path settings) = Ok df0
    ∧ model_name svc' = chosen_model svc model
    ∧ index svc' = Some (built_index (model_name svc') df0)
    ∧ metadata svc' = Some (built_metadata (model_name svc') df0)
    ∧ counts = (length (rows (with_transcripts df0)),
                length (rows (with_transcripts df0))).
Proof.
  intros Hcond. unfold build_index. rewrite Hcond.
  set (svc1 := match model with Some _ => _ | None => _ end) in *.
  assert (Hm : model_name svc1 = chosen_model svc model).
  { unfold svc1, chosen_model. destruct model as [m|]; [|done].
    by destruct (truthy (Some m) && negb (String.eqb m (model_name svc))). }
  destruct (exists_path fs (settings_transcripts_path settings)); simpl;
    [|done].
  destruct (read_parquet fs (settings_transcripts_path settings))
    as [df0|] eqn:Hread; [|done].
  destruct (has_column "transcript" df0); simpl; [|done].
  case_bool_decide as Hempty; [done|].
  intros [= <- <- <-]. exists df0.
  set (rs := List.filter has_transcript (rows df0)) in *.
  set (b := match bs with Some (S _) => _ | _ => _ end).
  assert (Hembs :
    map normalize_L2
        (encode_batch (model_name svc1) (map transcript_text rs) b)
    = built_vectors (model_name svc1) df0).
  { unfold encode_batch, built_vectors. simpl. by rewrite !map_map. }
  assert (Hdim :
    encode_batch (model_name svc1) (map transcript_text rs) b
    = map (λ r, encode (model_name svc1) (transcript_text r)) rs).
  { unfold encode_batch. by rewrite map_map. }
  split_and!.
  - done.
  - done.
  - simpl. unfold built_index, Faiss.add. simpl. by rewrite Hembs, Hdim.
  - simpl. unfold built_metadata. by rewrite Hembs.
  - unfold Faiss.ntotal, assign_embeddings. simpl. rewrite Hembs.
    unfold built_vectors. simpl. fold rs.
    rewrite length_zip_with, !length_map. f_equal. lia.
Qed.

(** X7. A successful build indexes exactly the rows of the transcripts
    file whose transcript is present and not empty: both returned counts
    are the number of those rows, and the metadata lists those rows, in
    the order of the file, with their identifiers and transcripts
    unchanged; rows without a transcript are in neither the index nor the
    metadata. *)
Theorem build_index_selects_transcribed_rows settings svc (fs : FS) model bs
    force counts svc' fs' df0 :
  read_parquet fs (settings_transcripts_path settings) = Ok df0 →
  exists_path fs (index_path svc) && negb force = false →
  build_index settings svc fs model bs force = (Ok counts, svc', fs') →
  ∃ ix md,
    index svc' = Some ix ∧ metadata svc' = Some md
    ∧ counts = (length (List.filter has_transcript (rows df0)),
                length (List.filter has_transcript (rows df0)))
    ∧ Faiss.ntotal ix = length (List.filter has_transcript (rows df0))
    ∧ map video_id (rows md)
      = map video_id (List.filter has_transcript (rows df0))
    ∧ map transcript (rows md)
      = map transcript (List.filter has_transcript (rows df0))
    ∧ Forall (λ r, has_transcript r = true) (rows md).
Proof.
  intros Hread Hcond Hbuild.
  destruct (build_index_snapshot _ _ _ _ _ _ _ _ _ Hcond Hbuild)
    as (df0' & Hread' & _ & Hix & Hmd & ->).
  assert (df0' = df0) as -> by congruence.
  eexists _, _. split; [exact Hix|]. split; [exact Hmd|].
  set (rs := List.filter has_transcript (rows df0)).
  assert (Hrows : ∀ (g : VideoRow → vec) (l : list VideoRow),
            zip_with set_embedding l (map g l)
            = map (λ r, set_embedding r (g r)) l).
  { intros g l. induction l as [|r l IH]; simpl; [done|]. by rewrite IH. }
  unfold built_metadata, built_index, built_vectors, assign_embeddings,
    Faiss.ntotal. simpl. fold rs.
  rewrite Hrows, !map_map, length_map. simpl.
  split_and!; try done.
  apply Forall_forall. intros r Hr.
  apply list_elem_of_In, in_map_iff in Hr as (r0 & <- & Hr0).
  unfold rs in Hr0. apply List.filter_In in Hr0 as [_ Hr0].
  exact Hr0.
Qed.

(** X9. The snapshot a build produces depends on the transcripts frame
    and the model alone: two successful builds that read the same frame
    with the same model end with the same index and the same metadata,
    whatever was loaded or stored before; nothing of a previous snapshot is
    merged in. *)
Theorem build_index_supersedes settings1 settings2 svc1 svc2 (fs1 fs2 : FS)
    model1 model2 bs1 bs2 force1 force2 counts1 counts2 svc1' svc2'
    fs1' fs2' :
  exists_path fs1 (index_path svc1) && negb force1 = false →
  exists_path fs2 (index_path svc2) && negb force2 = false →
  read_parquet fs1 (settings_transcripts_path settings1)
  = read_parquet fs2 (settings_transcripts_path settings2) →
  chosen_model svc1 model1 = chosen_model svc2 model2 →
  build_index settings1 svc1 fs1 model1 bs1 force1 = (Ok counts1, svc1', fs1') →
  build_index settings2 svc2 fs2 model2 bs2 force2 = (Ok counts2, svc2', fs2') →
  index svc1' = index svc2' ∧ metadata svc1' = metadata svc2'
  ∧ counts1 = counts2.
Proof.
  intros Hc1 Hc2 Hread Hmodel Hb1 Hb2.
  destruct (build_index_snapshot _ _ _ _ _ _ _ _ _ Hc1 Hb1)
    as (df1 & Hr1 & Hm1 & Hix1 & Hmd1 & ->).
  destruct (build_index_snapshot _ _ _ _ _ _ _ _ _ Hc2 Hb2)
    as (df2 & Hr2 & Hm2 & Hix2 & Hmd2 & ->).
  assert (df1 = df2) as -> by congruence.
  rewrite Hix1, Hix2, Hmd1, Hmd2, Hm1, Hm2, Hmodel. done.
Qed.

(** X8. Round trip: after a successful build with two different paths,
    any service configured with the same paths loads the snapshot from
    disk successfully and then holds the index and the metadata the
    builder holds; with the same model it answers every search as the
    builder does. *)
Theorem build_then_load_round_trip settings svc (fs : FS) model bs force
    counts svc' fs' other :
  index_path svc ≠ embeddings_path svc →
  exists_path fs (index_path svc) && negb force = false →
  build_index settings svc fs model bs force = (Ok counts, svc', fs') →
  index_path other = index_path svc →
  embeddings_path other = embeddings_path svc →
  ∃ other',
    load_index other fs' = (Ok (), other')
    ∧ index other' = index svc'
    ∧ metadata other' = metadata svc'
    ∧ (model_name other = model_name svc' →
       ∀ query top_k metric min_score,
         search other' query top_k metric min_score
         = search svc' query top_k metric min_score).
Proof.
  intros Hne Hcond Hbuild Hip Hep.
  destruct (build_index_built _ _ _ _ _ _ _ _ _ Hcond Hbuild)
    as (df0 & embs & dim & _ & _ & _ & Hix & Hmd & _ & _ & -> & _).
  eexists. split_and!.
  - apply load_index_ok.
    + rewrite Hip. rewrite lookup_insert_ne by done. apply lookup_insert_eq.
    + rewrite Hep. apply lookup_insert_eq.
  - by rewrite Hix.
  - by rewrite Hmd.
  - intros Hmodel query top_k metric min_score. unfold search. simpl.
    by rewrite Hix, Hmd, Hmodel.
Qed.

End BuildExtras.

(** The indexing script builds an index for "cosine"
    (inner product) and for "euclidean" (L2) only; every other metric
    name, "dot_product" of the API included, is rejected with a
    [ValueError].  A built index holds the embeddings given, in their
    order, under the dimension of the first. *)
Theorem build_faiss_index_metrics (embeddings : list vec) (metric : string) :
  (is_ok (EmbedScript.build_faiss_index embeddings metric) = true
   ↔ metric = "cosine" ∨ metric = "euclidean")
  ∧ EmbedScript.build_faiss_index embeddings "dot_product"
    = Raise (ValueError "Unsupported metric: dot_product")
  ∧ (∀ ix, EmbedScript.build_faiss_index embeddings metric = Ok ix →
       Faiss.xb ix = embeddings
       ∧ Faiss.ntotal ix = length embeddings
       ∧ Faiss.d ix = VectorSearch.shape1 embeddings
       ∧ Faiss.metric_type ix
         = if String.eqb metric "cosine" then Faiss.METRIC_INNER_PRODUCT
           else Faiss.METRIC_L2).
Proof.
  unfold EmbedScript.build_faiss_index. split_and!.
  - destruct (String.eqb_spec metric "cosine") as [->|Hc]; simpl; [tauto|].
    destruct (String.eqb_spec metric "euclidean") as [->|He]; simpl; [tauto|].
    split; [done|]. by intros [?|?].
  - done.
  - intros ix.
    destruct (String.eqb metric "cosine"); [by intros [= <-]|].
    destruct (String.eqb metric "euclidean"); [by intros [= <-]|done].
Qed.

(** * Collection *)

Lemma filter_all_true_on {A} (p : A → bool) (l : list A) :
  Forall (λ x, p x = true) l → List.filter p l = l.
Proof.
  induction 1 as [|x l Hx _ IH]; simpl; [done|]. by rewrite Hx, IH.
Qed.

Section CollectProps.
Import Collect.

Lemma string_app_cons x (a b : string) :
  String x a +:+ b = String x (a +:+ b).
Proof. reflexivity. Qed.

Lemma string_app_assoc (a b c : string) : (a +:+ b) +:+ c = a +:+ (b +:+ c).
Proof.
  induction a as [|x a IH]; [done|].
  by rewrite !string_app_cons, IH.
Qed.

Lemma has_char_app c (a b : string) :
  has_char c (a +:+ b) = has_char c a || has_char c b.
Proof.
  induction a as [|x a IH]; [done|].
  rewrite string_app_cons. simpl. by rewrite IH, orb_assoc.
Qed.

Lemma split_on_nonempty sep s : split_on sep s ≠ [].
Proof.
  destruct s as [|c s]; simpl; [done|].
  destruct (Ascii.eqb c sep); [done|]. by destruct (split_on sep s).
Qed.

Lemma split_on_head sep s x xs :
  split_on sep s = x :: xs →
  has_char sep x = false
  ∧ (xs = [] → s = x)
  ∧ (xs ≠ [] → ∃ rest, s = x +:+ String sep rest ∧ split_on sep rest = xs).
Proof.
  revert x xs. induction s as [|c s IH]; intros x xs; simpl.
  - intros [= <- <-]. done.
  - destruct (Ascii.eqb_spec c sep) as [->|Hc].
    + intros [= <- <-]. split_and!; [done| |].
      * intros Hnil. by destruct (split_on_nonempty sep s).
      * intros _. by exists s.
    + destruct (split_on sep s) as [|x' xs'] eqn:Hs;
        [by destruct (split_on_nonempty sep s)|].
      intros [= <- <-].
      destruct (IH x' xs' eq_refl) as (Hno & Hone & Hmore).
      split_and!.
      * simpl. rewrite Hno.
        by rewrite (proj2 (Ascii.eqb_neq _ _) Hc).
      * intros Hnil. by rewrite (Hone Hnil).
      * intros Hne. destruct (Hmore Hne) as (rest & -> & Hrest).
        by exists rest.
Qed.

Lemma split_on_last sep l s :
  split_on sep s = l →
  has_char sep (List.last l EmptyString) = false
  ∧ ∃ prefix, s = prefix +:+ List.last l EmptyString
              ∧ (prefix = EmptyString
                 ∨ ∃ p, prefix = p +:+ String sep EmptyString).
Proof.
  revert s. induction l as [|x xs IH]; intros s Hs.
  - by destruct (split_on_nonempty sep s).
  - destruct (split_on_head sep s x xs Hs) as (Hno & Hone & Hmore).
    destruct xs as [|y ys].
    + simpl. split; [done|]. exists EmptyString. split; [|by left].
      by rewrite (Hone eq_refl).
    + destruct (Hmore ltac:(done)) as (rest & -> & Hrest).
      destruct (IH rest Hrest) as (Hno' & prefix' & Hrest' & Hprefix').
      change (List.last (x :: y :: ys) EmptyString)
        with (List.last (y :: ys) EmptyString).
      split; [done|].
      exists (x +:+ String sep prefix'). split.
      * rewrite Hrest' at 1. by rewrite string_app_assoc.
      * right. destruct Hprefix' as [->|(p & ->)].
        -- by exists x.
        -- exists (x +:+ String sep p). by rewrite string_app_assoc.
Qed.

(** X12. [_extract_channel_id] returns the part of the URL after its last
    "/": the result contains no "/", the URL is the result preceded by
    nothing or by a text that ends in "/", and a text without "/" (a bare
    channel identifier) is returned as it is.  A URL that ends in "/"
    therefore gives the empty identifier. *)
Theorem extract_channel_id_last_segment (channel_url : string) :
  has_char slash (_extract_channel_id channel_url) = false
  ∧ (∃ prefix, channel_url = prefix +:+ _extract_channel_id channel_url
               ∧ (prefix = "" ∨ ∃ p, prefix = p +:+ "/"))
  ∧ (has_char slash channel_url = false →
     _extract_channel_id channel_url = channel_url)
  ∧ (∀ p, _extract_channel_id (p +:+ "/") = "").
Proof.
  unfold _extract_channel_id.
  destruct (split_on_last slash _ channel_url eq_refl) as (Hno & Hpre).
  split_and!; [done|done| |].
  - intros Hnoslash.
    destruct (split_on slash channel_url) as [|x xs] eqn:Hs;
      [by destruct (split_on_nonempty slash channel_url)|].
    destruct (split_on_head slash _ _ _ Hs) as (_ & Hone & Hmore).
    destruct xs as [|y ys]; [by rewrite (Hone eq_refl)|].
    destruct (Hmore ltac:(done)) as (rest & Heq & _).
    rewrite Heq, has_char_app in Hnoslash. simpl in Hnoslash.
    by rewrite orb_true_r in Hnoslash.
  - intros p. induction p as [|c p IH]; [done|].
    rewrite string_app_cons. simpl. destruct (Ascii.eqb c slash).
    + destruct (split_on slash (p +:+ "/")) as [|x xs] eqn:Hs;
        [by destruct (split_on_nonempty slash (p +:+ "/"))|].
      exact IH.
    + destruct (split_on slash (p +:+ "/")) as [|x xs] eqn:Hs;
        [by destruct (split_on_nonempty slash (p +:+ "/"))|].
      destruct xs as [|y ys]; [|exact IH].
      destruct (split_on_head slash _ _ _ Hs) as (Hnox & Hone & _).
      rewrite <- (Hone eq_refl), has_char_app in Hnox. simpl in Hnox.
      by rewrite orb_true_r in Hnox.
Qed.

Lemma batches_concat_upto (l : list string) a n :
  concat (map (λ k, take 50 (drop (50 * k) l)) (seq a n))
  = take (50 * n) (drop (50 * a) l).
Proof.
  revert a. induction n as [|n IH]; intros a.
  - by rewrite Nat.mul_0_r.
  - change (concat (map (λ k, take 50 (drop (50 * k) l)) (seq a (S n))))
      with (take 50 (drop (50 * a) l)
            ++ concat (map (λ k, take 50 (drop (50 * k) l)) (seq (S a) n))).
    rewrite IH.
    replace (50 * S a) with (50 * a + 50) by lia.
    rewrite <- drop_drop.
    replace (50 * S n) with (50 + 50 * n) by lia.
    apply take_take_drop.
Qed.

Lemma batches_cover (n : nat) : n ≤ 50 * ((n + 49) / 50).
Proof.
  pose proof (Nat.div_mod_eq (n + 49) 50) as Hdm.
  pose proof (Nat.mod_upper_bound (n + 49) 50 ltac:(lia)) as Hlt.
  lia.
Qed.

Lemma batches_tight (n k : nat) : k < (n + 49) / 50 → 50 * k < n.
Proof.
  intros Hk.
  pose proof (Nat.div_mod_eq (n + 49) 50) as Hdm.
  pose proof (Nat.mod_upper_bound (n + 49) 50 ltac:(lia)) as Hlt.
  lia.
Qed.

Lemma batches_concat (video_ids : list string) :
  concat (batches video_ids) = video_ids.
Proof.
  unfold batches. rewrite batches_concat_upto. simpl drop.
  apply take_ge, batches_cover.
Qed.

Lemma fetch_video_details_ids (api : DataApi) (video_ids : list string) :
  (∀ b items, videos_list api b = Resp items → map item_video_id items = b) →
  map video_id (_fetch_video_details api video_ids)
  = concat (List.filter (answered api) (batches video_ids)).
Proof.
  intros Hwell. unfold _fetch_video_details.
  induction (batches video_ids) as [|b bs IH]; simpl; [done|].
  rewrite map_app, IH. unfold batch_details, answered.
  destruct (videos_list api b) as [items|] eqn:Hb; simpl; [|done].
  assert (map video_id (map row_of_item items) = b) as ->; [|done].
  rewrite map_map. exact (Hwell b items Hb).
Qed.

Lemma fetch_video_details_all (api : DataApi) (video_ids : list string) :
  (∀ b items, videos_list api b = Resp items → map item_video_id items = b) →
  Forall (λ b, answered api b = true) (batches video_ids) →
  map video_id (_fetch_video_details api video_ids) = video_ids.
Proof.
  intros Hwell Hall. rewrite (fetch_video_details_ids api video_ids Hwell).
  rewrite filter_all_true_on; [apply batches_concat|exact Hall].
Qed.

(** X13. [_fetch_video_details] asks for the identifiers in batches that
    cover the list exactly once and in order, each batch holding between 1
    and 50 identifiers.  When the API answers a batch with one item per
    identifier asked, the rows returned are those of the batches whose
    request did not fail, in order: a failing batch is skipped and the
    batches after it are still fetched; without failures every identifier
    comes back. *)
Theorem fetch_video_details_batches (api : DataApi) (video_ids : list string) :
  concat (batches video_ids) = video_ids
  ∧ Forall (λ b, 1 ≤ length b ≤ 50) (batches video_ids)
  ∧ ((∀ b items, videos_list api b = Resp items →
                 map item_video_id items = b) →
     map video_id (_fetch_video_details api video_ids)
     = concat (List.filter (answered api) (batches video_ids))
     ∧ (Forall (λ b, answered api b = true) (batches video_ids) →
        map video_id (_fetch_video_details api video_ids) = video_ids)).
Proof.
  split_and!.
  - apply batches_concat.
  - unfold batches. apply Forall_forall. intros b Hb.
    apply list_elem_of_fmap in Hb as (k & -> & Hk).
    apply elem_of_seq in Hk as [_ Hk]. simpl in Hk.
    apply batches_tight in Hk.
    rewrite length_take, length_drop. lia.
  - intros Hwell. split.
    + by apply fetch_video_details_ids.
    + by apply fetch_video_details_all.
Qed.

End CollectProps.

Section PlaylistProps.
Import Collect.

Lemma filter_take_prefix {A} (p : A → bool) (l : list A) n :
  List.filter p (take n l)
  = take (length (List.filter p (take n l))) (List.filter p l).
Proof.
  rewrite <- (take_drop n l) at 3. rewrite List.filter_app.
  by rewrite take_app_length.
Qed.

Lemma merge_details_id detailed v :
  video_id (merge_details detailed v) = video_id v.
Proof.
  unfold merge_details, details_for.
  destruct (List.find _ _) as [d|] eqn:Hd; [|done].
  apply List.find_some in Hd as [_ Hd]. simpl.
  by apply String.eqb_eq in Hd.
Qed.

Lemma playlist_loop_S fuel (api : DataApi) playlist max_results after token
    videos :
  playlist_loop (S fuel) api playlist max_results after token videos
  = if length videos <? max_results then
      match playlist_items api playlist
              (50 `min` (max_results - length videos)) token with
      | HttpError => Some videos
      | Resp page =>
          match next_page_token page with
          | None =>
              Some (videos ++ map row_of_item
                                  (List.filter (kept after) (page_items page)))
          | Some t =>
              playlist_loop fuel api playlist max_results after (Some t)
                (videos ++ map row_of_item
                               (List.filter (kept after) (page_items page)))
          end
      end
    else Some videos.
Proof. reflexivity. Qed.

Lemma playlist_loop_list (api : DataApi) playlist items max_results after :
  playlist_items api playlist = list_playlist items →
  ∀ fuel token videos,
    videos = map row_of_item
                 (List.filter (kept after) (take (default 0 token) items)) →
    length videos ≤ max_results →
    length items - default 0 token < fuel →
    playlist_loop fuel api playlist max_results after token videos
    = Some (map row_of_item
                (take max_results (List.filter (kept after) items))).
Proof.
  intros Hapi. induction fuel as [|fuel IH]; intros token videos Hv Hlen Hfuel;
    [lia|].
  set (off := default 0 token) in *.
  rewrite playlist_loop_S.
  destruct (length videos <? max_results) eqn:Hlt.
  - apply Nat.ltb_lt in Hlt. rewrite Hapi. unfold list_playlist.
    fold off. cbn [page_items next_page_token].
    set (m := 50 `min` (max_results - length videos)).
    assert (Hm : 1 ≤ m ≤ max_results - length videos) by (unfold m; lia).
    assert (Hnew : videos ++ map row_of_item
                     (List.filter (kept after) (take m (drop off items)))
                   = map row_of_item
                       (List.filter (kept after) (take (off + m) items))).
    { rewrite Hv, <- map_app, <- List.filter_app. by rewrite take_take_drop. }
    assert (Hnewlen :
      length (List.filter (kept after) (take (off + m) items)) ≤ max_results).
    { rewrite <- (length_map row_of_item), <- Hnew.
      rewrite length_app, length_map.
      pose proof (List.filter_length_le (kept after) (take m (drop off items)))
        as Hle.
      rewrite length_take in Hle. lia. }
    rewrite Hnew.
    destruct (off + m <? length items) eqn:Hmore.
    + apply Nat.ltb_lt in Hmore. apply IH.
      * done.
      * by rewrite length_map.
      * change (default 0 (Some (off + m))) with (off + m). lia.
    + apply Nat.ltb_ge in Hmore. f_equal.
      rewrite (take_ge items) in * by lia.
      by rewrite take_ge.
  - apply Nat.ltb_ge in Hlt. f_equal.
    assert (Heq : length videos = max_results) by lia.
    rewrite Hv, filter_take_prefix. f_equal. f_equal.
    rewrite Hv, length_map in Heq. exact Heq.
Qed.

(** X14. Against a playlist that is a finite list of items served in
    pages of at most the size asked, [_fetch_playlist_videos] returns
    (given one unit of fuel per item, plus one) and its videos are the
    first [max_results] items that are not dated before [published_after],
    in playlist order: items that are filtered out do not count towards
    [max_results], and paging continues until the limit is reached or the
    playlist ends.  Whether the detail requests succeed does not change
    which videos are returned. *)
Theorem fetch_playlist_videos_first_kept (api : DataApi) playlist items
    max_results published_after fuel :
  playlist_items api playlist = list_playlist items →
  length items < fuel →
  ∃ videos,
    _fetch_playlist_videos fuel api playlist max_results published_after
    = Some videos
    ∧ map video_id videos
      = map item_video_id
            (take max_results (List.filter (kept published_after) items))
    ∧ length videos ≤ max_results.
Proof.
  intros Hapi Hfuel. unfold _fetch_playlist_videos.
  rewrite (playlist_loop_list api playlist items max_results published_after
             Hapi fuel None []); [|done|simpl; lia|simpl; lia].
  set (sel := take max_results (List.filter (kept published_after) items)).
  assert (Hsel : length sel ≤ max_results).
  { unfold sel. rewrite length_take. lia. }
  destruct (map row_of_item sel) as [|v vs] eqn:Hrows.
  - exists []. destruct sel; [done|discriminate].
  - eexists. split; [reflexivity|]. rewrite <- Hrows. split.
    + rewrite map_map.
      rewrite (map_ext _ _ (merge_details_id _)).
      by rewrite map_map.
    + by rewrite !length_map.
Qed.

(** X15. For every upstream, whatever it answers: the videos the paging
    loop of [_fetch_playlist_videos] adds are, in order, the items of the
    pages the upstream answered to its requests (each request asking for
    at most [min(50, max_results - len(videos))] items at the cursor the
    previous page handed out) that are not dated before [published_after]
    (as text, in lexicographic order); an item dated before it is in no
    case added. *)
Theorem playlist_loop_only_kept (api : DataApi) playlist max_results
    published_after fuel token videos0 videos :
  playlist_loop fuel api playlist max_results published_after token videos0
  = Some videos →
  ∃ pages,
    CollectSpec.reads api playlist max_results published_after token
                      (length videos0) pages
    ∧ videos
      = videos0
        ++ map row_of_item
             (flat_map (λ page, List.filter (kept published_after)
                                            (page_items page)) pages)
    ∧ Forall (λ page, ∃ m tok, m ≤ 50
                               ∧ playlist_items api playlist m tok = Resp page)
             pages.
Proof.
  revert token videos0.
  induction fuel as [|fuel IH]; intros token videos0.
  - simpl. destruct (length videos0 <? max_results); [done|].
    intros [= <-]. exists []. rewrite app_nil_r.
    split_and!; [constructor|done|constructor].
  - rewrite playlist_loop_S.
    destruct (length videos0 <? max_results) eqn:Hlt.
    2:{ intros [= <-]. exists []. rewrite app_nil_r.
        split_and!; [constructor|done|constructor]. }
    apply Nat.ltb_lt in Hlt.
    destruct (playlist_items api playlist
                (50 `min` (max_results - length videos0)) token)
      as [page|] eqn:Hpage.
    2:{ intros [= <-]. exists []. rewrite app_nil_r.
        split_and!; [constructor|done|constructor]. }
    assert (Hthis : ∃ m tok, m ≤ 50
                             ∧ playlist_items api playlist m tok = Resp page).
    { exists (50 `min` (max_results - length videos0)), token.
      split; [apply Nat.le_min_l|exact Hpage]. }
    destruct (next_page_token page) as [t|] eqn:Hnext.
    + intros Hrec. destruct (IH _ _ Hrec) as (pages & Hreads & -> & Hall).
      exists (page :: pages). split_and!.
      * apply CollectSpec.reads_page; [done|done|by rewrite Hnext|].
        rewrite Hnext. unfold CollectSpec.contribution.
        by rewrite length_app, length_map in Hreads.
      * simpl. by rewrite map_app, app_assoc.
      * by constructor.
    + intros [= <-]. exists [page]. split_and!.
      * apply CollectSpec.reads_page; [done|done|done|].
        rewrite Hnext. constructor.
      * simpl. by rewrite app_nil_r.
      * by constructor.
Qed.

End PlaylistProps.

Section CollectVideosProps.
Import Collect.

Lemma save_videos_effect settings cols videos (fs : FS) res fs' :
  save_videos settings cols videos fs = (res, fs') →
  res = Collected (length videos)
  ∧ (videos = [] → fs' = fs)
  ∧ (videos ≠ [] →
     fs' = <[settings_videos_path settings :=
               ParquetFile (mkFrame cols videos)]> fs).
Proof.
  unfold save_videos. destruct videos as [|v vs].
  - by intros [= <- <-].
  - intros [= <- <-]. split_and!; [done|done|].
    intros _. apply run_write_steps.
Qed.

(** X16. What [collect_videos] does to the disk.  A call that fails, or
    that collects no video, leaves the disk as it is (an existing videos
    file stays).  A call that collects [n > 0] videos replaces the videos
    file by a frame of exactly these [n] rows and touches no other path:
    the previous content of the file is not merged in. *)
Theorem collect_videos_disk_effect fuel settings (api : DataApi) (fs : FS)
    channel_id channel_url playlist_id video_ids max_results published_after
    res fs' :
  collect_videos fuel settings api fs channel_id channel_url playlist_id
                 video_ids max_results published_after = Some (res, fs') →
  match res with
  | CollectFailed _ => fs' = fs
  | Collected 0 => fs' = fs
  | Collected n =>
      ∃ df, fs' = <[settings_videos_path settings := ParquetFile df]> fs
            ∧ length (rows df) = n
  end.
Proof.
  assert (Hsave : ∀ cols videos res0 fs0,
            save_videos settings cols videos fs = (res0, fs0) →
            match res0 with
            | CollectFailed _ => fs0 = fs
            | Collected 0 => fs0 = fs
            | Collected n =>
                ∃ df, fs0 = <[settings_videos_path settings := ParquetFile df]> fs
                      ∧ length (rows df) = n
            end).
  { intros cols videos res0 fs0 Hs.
    destruct (save_videos_effect _ _ _ _ _ _ Hs) as (-> & Hnil & Hcons).
    destruct videos as [|v vs]; [by apply Hnil|].
    simpl. eexists. split; [by apply Hcons|done]. }
  unfold collect_videos.
  destruct (truthy_list video_ids).
  { intros [= Hs]. by eapply Hsave. }
  destruct (truthy channel_id || truthy channel_url).
  { destruct (channels_list api _) as [[uploads|]|].
    - destruct (_fetch_playlist_videos _ _ _ _ _) as [videos|]; [|done].
      intros [= Hs]. by eapply Hsave.
    - by intros [= <- <-].
    - by intros [= <- <-]. }
  destruct (truthy playlist_id).
  { destruct (_fetch_playlist_videos _ _ _ _ _) as [videos|]; [|done].
    intros [= Hs]. by eapply Hsave. }
  by intros [= <- <-].
Qed.

(** X17. How [collect_videos] chooses its source.  Without any selector
    it fails with a [ValueError].  A non-empty list of video identifiers
    wins over every other selector, and then neither [max_results] nor
    [published_after] is looked at: when the API answers every batch with
    one item per identifier, all the identifiers are collected and stored,
    however small [max_results] is.  When a channel URL is given, the
    channel identifier is ignored in its favour. *)
Theorem collect_videos_selectors fuel settings (api : DataApi) (fs : FS)
    channel_id channel_url playlist_id video_ids max_results published_after :
  (truthy_list video_ids = false → truthy channel_id = false →
   truthy channel_url = false → truthy playlist_id = false →
   collect_videos fuel settings api fs channel_id channel_url playlist_id
                  video_ids max_results published_after
   = Some (CollectFailed
             (CollectValueError
                "Must provide channel_id, channel_url, playlist_id, or video_ids"),
           fs))
  ∧ (∀ ids,
       video_ids = Some ids → ids ≠ [] →
       (∀ b items, videos_list api b = Resp items →
                   map item_video_id items = b) →
       Forall (λ b, answered api b = true) (batches ids) →
       ∃ df,
         collect_videos fuel settings api fs channel_id channel_url
                        playlist_id video_ids max_results published_after
         = Some (Collected (length ids),
                 <[settings_videos_path settings := ParquetFile df]> fs)
         ∧ map video_id (rows df) = ids)
  ∧ (truthy_list video_ids = false → truthy channel_url = true →
     ∀ other_id,
       collect_videos fuel settings api fs channel_id channel_url playlist_id
                      video_ids max_results published_after
       = collect_videos fuel settings api fs other_id channel_url None
                        video_ids max_results published_after).
Proof.
  split_and!.
  - unfold collect_videos. by intros -> -> -> ->.
  - intros ids -> Hne Hwell Hall.
    pose proof (fetch_video_details_all api ids Hwell Hall) as Hids.
    unfold collect_videos.
    destruct ids as [|v vs]; [done|]. cbn [truthy_list default from_option id].
    destruct (_fetch_video_details api (v :: vs)) as [|r rs] eqn:Hfetch;
      [done|].
    exists (mkFrame YouTube.collected_columns (r :: rs)).
    unfold save_videos. rewrite run_write_steps. split; [|exact Hids].
    do 3 f_equal. by rewrite <- (length_map video_id), Hids.
  - unfold collect_videos. intros -> Hurl other_id.
    rewrite Hurl, !orb_true_r. done.
Qed.

End CollectVideosProps.

(** * Further properties of transcript fetching *)

Section FetchExtras.
Import YouTube.

Lemma read_parquet_exists (fs : FS) p df :
  read_parquet fs p = Ok df → exists_path fs p = true.
Proof.
  unfold read_parquet, exists_path. by destruct (fs !! p) as [[]|].
Qed.

Lemma fetch_one_entry_ids api st row :
  map te_video_id (transcripts (fetch_one api st row))
  = map te_video_id (transcripts st) ++ [video_id row].
Proof.
  unfold fetch_one.
  destruct (get_transcript api (video_id row) (trace st))
    as [[[|seg segs]|] t']; simpl; by rewrite map_app.
Qed.

Lemma fetch_loop_entry_ids api rs st :
  map te_video_id (transcripts (foldl (fetch_one api) st rs))
  = map te_video_id (transcripts st) ++ map video_id rs.
Proof.
  revert st. induction rs as [|r rs IH]; intros st; simpl.
  - by rewrite app_nil_r.
  - by rewrite IH, fetch_one_entry_ids, <- app_assoc.
Qed.

Lemma filter_unique_key (entries : list TranscriptEntry) (k : string) :
  NoDup (map te_video_id entries) →
  k ∈ map te_video_id entries →
  ∃ e, List.filter (λ e, String.eqb (te_video_id e) k) entries = [e].
Proof.
  induction entries as [|x l IH]; simpl; intros Hnd Hin.
  - by apply elem_of_nil in Hin.
  - apply NoDup_cons in Hnd as [Hx Hnd].
    destruct (String.eqb_spec (te_video_id x) k) as [Heq|Hne].
    + exists x. f_equal. apply filter_all_false.
      apply Forall_forall. intros e He.
      apply String.eqb_neq. intros Hek. apply Hx. rewrite Heq, <- Hek.
      apply list_elem_of_fmap. by exists e.
    + apply elem_of_cons in Hin as [Hin|Hin]; [congruence|].
      by apply IH.
Qed.

Lemma flat_map_singletons {A B C} (g : A → list B) (f : B → C) (h : A → C)
    (l : list A) :
  (∀ x, x ∈ l → map f (g x) = [h x]) →
  map f (flat_map g l) = map h l.
Proof.
  induction l as [|x l IH]; intros Hg; [done|].
  change (flat_map g (x :: l)) with (g x ++ flat_map g l).
  rewrite map_app, (Hg x) by left.
  rewrite IH; [done|]. intros y Hy. apply Hg. by right.
Qed.

Lemma merge_rows_ids had (rs : list VideoRow) entries :
  NoDup (map te_video_id entries) →
  map te_video_id entries = map video_id rs →
  map video_id (merge_rows had rs entries) = map video_id rs.
Proof.
  intros Hnd Hids. unfold merge_rows.
  apply flat_map_singletons. intros r Hr.
  destruct (filter_unique_key entries (video_id r) Hnd) as [e ->]; [|done].
  rewrite Hids. apply list_elem_of_fmap. by exists r.
Qed.

(** X18. When nothing is selected for fetching (no row matches
    [video_ids], or, on a frame that has the transcript column, every row
    already has a transcript and [force_refresh] is off),
    [fetch_transcripts] does not return (0, 0): it raises [KeyError] from
    the merge with the empty result table, after no request and without
    writing; the transcripts route then answers 500. *)
Theorem fetch_transcripts_nothing_to_fetch settings provider (fs : FS) t
    video_ids force_refresh df0 :
  read_parquet fs (settings_videos_path settings) = Ok df0 →
  rows (skip_existing force_refresh (select_ids video_ids df0)) = [] →
  fetch_transcripts settings provider fs t video_ids force_refresh
  = (Raise (KeyError "video_id"), fs, t)
  ∧ Endpoints.transcripts_endpoint settings provider fs t video_ids
                                   force_refresh
    = (Endpoints.ReplyError 500 "Transcript fetching failed: 'video_id'",
       fs, t).
Proof.
  intros Hread Hnone.
  assert (Hfetch : fetch_transcripts settings provider fs t video_ids
                     force_refresh = (Raise (KeyError "video_id"), fs, t)).
  { unfold fetch_transcripts.
    rewrite (read_parquet_exists _ _ _ Hread), Hread. simpl.
    by rewrite Hnone. }
  split; [exact Hfetch|].
  unfold Endpoints.transcripts_endpoint. by rewrite Hfetch.
Qed.

(** The selection is empty when every row of a frame with the transcript
    column has a transcript. *)
Lemma skip_existing_all_done video_ids df0 :
  has_column "transcript" df0 = true →
  Forall (λ r, lacks_transcript r = false) (rows df0) →
  rows (skip_existing false (select_ids video_ids df0)) = [].
Proof.
  intros Hcol Hall. unfold skip_existing.
  assert (Hcol' : has_column "transcript" (select_ids video_ids df0) = true).
  { unfold select_ids. by destruct video_ids as [[|v vs]|]. }
  rewrite Hcol'. simpl. apply filter_all_false.
  unfold select_ids. destruct video_ids as [[|v vs]|]; simpl; try done.
  apply Forall_forall. intros r Hr.
  apply list_elem_of_In, List.filter_In in Hr as [Hr _].
  rewrite Forall_forall in Hall. by apply Hall, list_elem_of_In.
Qed.

(** X19. A successful [fetch_transcripts] replaces the transcripts file
    by a frame that has the transcript column and, when the selected rows
    have pairwise different identifiers, exactly one row per selected
    video, in the order of selection; no other path is written.  Videos
    that were not selected are not in the file: it is the result of this
    call alone, not a merge with what the file held before. *)
Theorem fetch_transcripts_written_file settings provider (fs : FS) t
    video_ids force_refresh df0 counts fs' t' :
  read_parquet fs (settings_videos_path settings) = Ok df0 →
  NoDup (map video_id
             (rows (skip_existing force_refresh (select_ids video_ids df0)))) →
  fetch_transcripts settings provider fs t video_ids force_refresh
  = (Ok counts, fs', t') →
  ∃ result,
    fs' = <[settings_transcripts_path settings := ParquetFile result]> fs
    ∧ has_column "transcript" result = true
    ∧ map video_id (rows result)
      = map video_id
            (rows (skip_existing force_refresh (select_ids video_ids df0)))
    ∧ length (rows result) = counts.1 + counts.2.
Proof.
  intros Hread Hnd. unfold fetch_transcripts.
  rewrite (read_parquet_exists _ _ _ Hread), Hread. simpl negb. cbv iota.
  set (sel := skip_existing force_refresh (select_ids video_ids df0)) in *.
  set (st := foldl (fetch_one provider) (mkLoop 0 0 [] t) (rows sel)).
  pose proof (fetch_loop_entry_ids provider (rows sel) (mkLoop 0 0 [] t))
    as Hids.
  pose proof (fetch_loop_calls provider (rows sel) (mkLoop 0 0 [] t))
    as (_ & Hn & _).
  fold st in Hids, Hn. simpl in Hids, Hn.
  destruct (transcripts st) as [|e es] eqn:Hentries; [done|].
  intros [= <- <- <-]. eexists. split; [apply run_write_steps|].
  assert (Hmerged : map video_id (merge_rows (has_column "transcript" sel)
                                             (rows sel) (e :: es))
                    = map video_id (rows sel)).
  { apply merge_rows_ids; [by rewrite Hids|done]. }
  split_and!.
  - unfold has_column, add_column. cbn [columns].
    destruct (existsb (String.eqb "transcript") (columns sel)) eqn:Hc;
      [exact Hc|].
    rewrite existsb_app. simpl. by rewrite orb_true_r.
  - exact Hmerged.
  - simpl. rewrite <- (length_map video_id), Hmerged, length_map. lia.
Qed.

End FetchExtras.

(** * The HTTP handlers *)

Section EndpointProps.
Import Endpoints.


(** X21. The collection route never answers 400.  A request without any
    selector raises the 400 inside the handler's own [try], whose only
    [except] clause turns every exception into a 500: the client gets 500
    with the 400 quoted in the detail, and nothing is collected or
    written.  Every reply is 200, 422 or 500. *)
Theorem collect_endpoint_never_400 fuel settings (api : Collect.DataApi)
    (fs : FS) (r : CollectRequest) :
  (collect_request_valid r = true → any_selector r = false →
   ∃ detail,
     collect_endpoint fuel settings api fs r
     = Some (ReplyError 500 detail, fs))
  ∧ (∀ reply fs',
       collect_endpoint fuel settings api fs r = Some (reply, fs') →
       match reply with
       | Reply200 _ => True
       | ReplyError s _ => s = 422 ∨ s = 500
       end).
Proof.
  unfold collect_endpoint, collect_body. split.
  - intros -> ->. eexists. reflexivity.
  - intros reply fs'.
    destruct (collect_request_valid r); simpl; [|intros [= <- <-]; by right].
    destruct (any_selector r); simpl; [|intros [= <- <-]; by right].
    destruct (Collect.collect_videos _ _ _ _ _ _ _ _ _ _)
      as [[[n|e] fs1]|]; [| |done].
    + by intros [= <- <-].
    + intros [= <- <-]. by right.
Qed.

(** X22. The status route always reports [total_videos = 0]: with
    metadata loaded, asking for the truth value of the frame raises inside
    the handler's [try] and the number keeps its initial value.  The index
    is reported as loaded, with its size, exactly when the service holds
    an index; the overall status is "healthy" when the index is loaded and
    the YouTube API answers, "unhealthy" when neither holds, and
    "degraded" otherwise. *)
Theorem system_status_report (vector_search : option VectorSearch.Service)
    (youtube_ok : bool) :
  st_total_videos (get_system_status vector_search youtube_ok) = 0
  ∧ (st_index_loaded (get_system_status vector_search youtube_ok) = true
     ↔ ∃ svc ix, vector_search = Some svc ∧ VectorSearch.index svc = Some ix)
  ∧ (∀ svc ix, vector_search = Some svc → VectorSearch.index svc = Some ix →
       st_index_size (get_system_status vector_search youtube_ok)
       = Faiss.ntotal ix)
  ∧ st_status (get_system_status vector_search youtube_ok)
    = (if st_index_loaded (get_system_status vector_search youtube_ok)
          && youtube_ok then "healthy"
       else if st_index_loaded (get_system_status vector_search youtube_ok)
               || youtube_ok then "degraded"
       else "unhealthy").
Proof.
  unfold get_system_status.
  destruct vector_search as [svc|]; simpl.
  - destruct (VectorSearch.index svc) as [ix|] eqn:Hix; simpl.
    + destruct (VectorSearch.metadata svc) as [md|]; simpl;
        split_and!; try done.
      * split; [|done]. intros _. by exists svc, ix.
      * intros svc' ix' [= <-] Hix'. congruence.
      * split; [|done]. intros _. by exists svc, ix.
      * intros svc' ix' [= <-] Hix'. congruence.
    + split_and!; try done.
      * split; [done|]. intros (svc' & ix' & [= <-] & Hix'). congruence.
      * intros svc' ix' [= <-] Hix'. congruence.
  - split_and!; try done.
    split; [done|]. by intros (svc' & ix' & [=] & _).
Qed.

(** X23. The video route answers 404 exactly when [get_video_details]
    finds nothing.  An unreadable transcripts file gives 404 without the
    API being consulted; a video present in the transcripts file is
    answered from that row whatever the API would say, its transcript
    fetched anew from the provider when the row has one and left out
    otherwise; a video absent from a readable or missing file is answered
    from the API and is a 404 exactly when the API returns no item. *)
Theorem video_endpoint_lookup settings (api : Collect.DataApi)
    (provider : YouTube.Provider) (fs : FS) (vid : string) (t : YouTube.Trace) :
  (∀ f, fs !! settings_transcripts_path settings = Some f →
        (∀ df, f ≠ ParquetFile df) →
        video_endpoint settings api provider fs vid t
        = (ReplyError 404 ("Video not found: " +:+ vid), t))
  ∧ (∀ df r,
       read_parquet fs (settings_transcripts_path settings) = Ok df →
       VideoDetails.local_row df vid = Some r →
       video_id r = vid
       ∧ ∀ api',
           VideoDetails.get_video_details settings api' provider fs vid t
           = if VideoDetails.stored_transcript_present df r
             then (Some (VideoDetails.mkData r
                           (YouTube.get_transcript provider vid t).1),
                   (YouTube.get_transcript provider vid t).2)
             else (Some (VideoDetails.mkData r None), t))
  ∧ ((fs !! settings_transcripts_path settings = None
      ∨ ∃ df, read_parquet fs (settings_transcripts_path settings) = Ok df
              ∧ VideoDetails.local_row df vid = None) →
     ((video_endpoint settings api provider fs vid t).1
      = ReplyError 404 ("Video not found: " +:+ vid)
      ↔ Collect._fetch_video_details api [vid] = [])).
Proof.
  split_and!.
  - intros f Hf Hnot. unfold video_endpoint, VideoDetails.get_video_details.
    rewrite (exists_path_true _ _ _ Hf). unfold read_parquet. rewrite Hf.
    destruct f as [ix|df|]; [done| |done]. by destruct (Hnot df).
  - intros df r Hread Hrow. split.
    + unfold VideoDetails.local_row in Hrow.
      apply List.find_some in Hrow as [_ Hrow].
      by apply String.eqb_eq in Hrow.
    + intros api'. unfold VideoDetails.get_video_details.
      rewrite (read_parquet_exists _ _ _ Hread), Hread, Hrow.
      destruct (VideoDetails.stored_transcript_present df r); [|done].
      by destruct (YouTube.get_transcript provider vid t).
  - intros Hlocal.
    assert (Hget : VideoDetails.get_video_details settings api provider fs vid t
                   = VideoDetails.from_api api provider vid t).
    { unfold VideoDetails.get_video_details.
      destruct Hlocal as [Hnone|(df & Hread & Hrow)].
      - by rewrite (exists_path_false _ _ Hnone).
      - by rewrite (read_parquet_exists _ _ _ Hread), Hread, Hrow. }
    unfold video_endpoint. rewrite Hget. unfold VideoDetails.from_api.
    destruct (Collect._fetch_video_details api [vid]) as [|v vs]; simpl.
    + done.
    + destruct (YouTube.get_transcript provider vid t) as [segs t0]. simpl.
      unfold to_video_detail. simpl.
      destruct (channel v); simpl; split; done.
Qed.

End EndpointProps.

(** * The indexing script *)

(** X11. [main] of the indexing script, whatever goes wrong in its two
    writes.  With an accepted metric, an existing output index and no
    [--force], it exits with 0 and writes nothing.  When it exits with
    another code, no path other than the two output paths has changed,
    and nothing at all has changed unless one of the two writes failed.
    When it exits with 0 after building and the two output paths differ,
    the index file and the embeddings file are both written and agree
    position by position: as many vectors as rows, vector [i] being the
    embedding stored in row [i], computed from the transcript of that
    row; the index is an inner-product index for "cosine" and an L2 index
    for "euclidean".  When a run would build, a failure of the second
    write ([save_embeddings]) makes it exit with 1 after the index file
    has been replaced: the new index is then on disk next to the previous
    embeddings file (or a truncated one); a failure of the first write
    exits with 1 with the disk as it was or with a truncated index
    file. *)
Theorem embed_main_effects (encode_normalized : string → string → vec)
    (faults : EmbedMain.Faults) (args : EmbedMain.Args) (fs : FS) :
  (existsb (String.eqb (EmbedMain.arg_metric args)) ["cosine"; "euclidean"]
   = true →
   exists_path fs (EmbedMain.arg_output_index args) = true →
   EmbedMain.arg_force args = false →
   EmbedMain.main encode_normalized faults args fs = (0, fs))
  ∧ (∀ code fs',
       EmbedMain.main encode_normalized faults args fs = (code, fs') →
       code ≠ 0 →
       (∀ p, p ≠ EmbedMain.arg_output_index args →
             p ≠ EmbedMain.arg_output_embeddings args →
             fs' !! p = fs !! p)
       ∧ (EmbedMain.index_fault faults = EmbedMain.NoFault →
          EmbedMain.embeddings_fault faults = EmbedMain.NoFault →
          fs' = fs))
  ∧ (∀ fs',
       EmbedMain.main encode_normalized faults args fs = (0, fs') →
       exists_path fs (EmbedMain.arg_output_index args)
       && negb (EmbedMain.arg_force args) = false →
       EmbedMain.arg_output_index args
       ≠ EmbedMain.arg_output_embeddings args →
       ∃ ix df,
         fs' !! EmbedMain.arg_output_index args = Some (FaissFile ix)
         ∧ fs' !! EmbedMain.arg_output_embeddings args = Some (ParquetFile df)
         ∧ Faiss.ntotal ix = length (rows df)
         ∧ Faiss.metric_type ix
           = (if String.eqb (EmbedMain.arg_metric args) "cosine"
              then Faiss.METRIC_INNER_PRODUCT else Faiss.METRIC_L2)
         ∧ ∀ i v, Faiss.xb ix !! i = Some v →
             ∃ row, rows df !! i = Some row
                    ∧ embedding row = Some v
                    ∧ VectorSearch.has_transcript row = true
                    ∧ v = encode_normalized (EmbedMain.arg_model args)
                            (VectorSearch.transcript_text row))
  ∧ (∀ fs0,
       EmbedMain.main encode_normalized
         (EmbedMain.mkFaults EmbedMain.NoFault EmbedMain.NoFault) args fs
       = (0, fs0) →
       exists_path fs (EmbedMain.arg_output_index args)
       && negb (EmbedMain.arg_force args) = false →
       ∃ ix df,
         fs0 = <[EmbedMain.arg_output_embeddings args := ParquetFile df]>
                 (<[EmbedMain.arg_output_index args := FaissFile ix]> fs)
         ∧ EmbedMain.main encode_normalized
             (EmbedMain.mkFaults EmbedMain.NoFault EmbedMain.FailsBeforeOpen)
             args fs
           = (1, <[EmbedMain.arg_output_index args := FaissFile ix]> fs)
         ∧ EmbedMain.main encode_normalized
             (EmbedMain.mkFaults EmbedMain.NoFault EmbedMain.FailsWhileWriting)
             args fs
           = (1, <[EmbedMain.arg_output_embeddings args := PartialFile]>
                   (<[EmbedMain.arg_output_index args := FaissFile ix]> fs))
         ∧ ∀ second,
             EmbedMain.main encode_normalized
               (EmbedMain.mkFaults EmbedMain.FailsBeforeOpen second) args fs
             = (1, fs)
             ∧ EmbedMain.main encode_normalized
                 (EmbedMain.mkFaults EmbedMain.FailsWhileWriting second)
                 args fs
               = (1, <[EmbedMain.arg_output_index args := PartialFile]> fs)).
Proof.
  unfold EmbedMain.main. split_and!.
  - by intros -> -> ->.
  - intros code fs'.
    destruct (negb (existsb _ _)); [by intros [= <- <-]|].
    destruct (exists_path fs _ && negb _); [by intros [= <- <-]|].
    destruct (EmbedMain.load_transcripts fs _) as [df|];
      [|by intros [= <- <-]].
    case_bool_decide; [by intros [= <- <-]|].
    destruct (negb (has_column "published_at" df)); [by intros [= <- <-]|].
    destruct (EmbedScript.build_faiss_index _ _) as [ix|];
      [|by intros [= <- <-]].
    unfold EmbedMain.try_write, EmbedScript.save_index,
      EmbedScript.save_embeddings, write_steps, run_steps.
    destruct (EmbedMain.index_fault faults),
      (EmbedMain.embeddings_fault faults); simpl;
      intros [= <- <-] Hcode; try done;
      (split; [|done]); intros p Hp1 Hp2;
      by rewrite ?(lookup_insert_ne _ _ p) by done.
  - intros fs' Hmain Hcond Hne. revert Hmain.
    destruct (negb (existsb _ _)); [done|]. rewrite Hcond.
    unfold EmbedMain.load_transcripts.
    destruct (negb (exists_path fs _)); [done|].
    destruct (read_parquet fs _) as [df0|]; [|done].
    destruct (has_column "transcript" df0); [|done].
    case_bool_decide; [done|].
    destruct (negb (has_column "published_at" _)); [done|].
    set (df := VectorSearch.with_transcripts df0) in *.
    set (f := λ r, encode_normalized (EmbedMain.arg_model args)
                                     (VectorSearch.transcript_text r)).
    assert (Hembs :
      EmbedMain.generate_embeddings encode_normalized
        (map VectorSearch.transcript_text (rows df))
        (EmbedMain.arg_model args) (EmbedMain.arg_batch_size args)
      = map f (rows df)).
    { unfold EmbedMain.generate_embeddings. by rewrite map_map. }
    rewrite Hembs.
    destruct (EmbedScript.build_faiss_index (map f (rows df))
                (EmbedMain.arg_metric args)) as [ix|] eqn:Hbuild; [|done].
    unfold EmbedMain.try_write, EmbedScript.save_index,
      EmbedScript.save_embeddings, write_steps, run_steps.
    destruct (EmbedMain.index_fault faults),
      (EmbedMain.embeddings_fault faults); simpl; try done.
    intros [= <-].
    rewrite !insert_insert_eq.
    assert (Hix : Faiss.xb ix = map f (rows df)
                  ∧ Faiss.metric_type ix
                    = (if String.eqb (EmbedMain.arg_metric args) "cosine"
                       then Faiss.METRIC_INNER_PRODUCT else Faiss.METRIC_L2)).
    { revert Hbuild. unfold EmbedScript.build_faiss_index.
      destruct (String.eqb (EmbedMain.arg_metric args) "cosine");
        [by intros [= <-]|].
      destruct (String.eqb (EmbedMain.arg_metric args) "euclidean");
        [by intros [= <-]|done]. }
    destruct Hix as [Hxb Hmetric].
    exists ix, (VectorSearch.assign_embeddings df (map f (rows df))).
    split_and!.
    + rewrite lookup_insert_ne by done. apply lookup_insert_eq.
    + apply lookup_insert_eq.
    + unfold Faiss.ntotal, VectorSearch.assign_embeddings.
      rewrite Hxb. unfold df. simpl.
      rewrite length_zip_with, !length_map. lia.
    + exact Hmetric.
    + intros i v Hv. rewrite Hxb in Hv.
      apply list_lookup_fmap_Some in Hv as (r & -> & Hr).
      exists (VectorSearch.set_embedding r (f r)).
      rewrite assign_embeddings_lookup, Hr. split_and!; try done.
      apply list_elem_of_lookup_2, list_elem_of_In in Hr.
      unfold df, VectorSearch.with_transcripts in Hr. simpl in Hr.
      by apply List.filter_In in Hr as [_ Hr].
  - intros fs0 Hmain Hcond. revert Hmain.
    destruct (negb (existsb _ _)); [done|]. rewrite Hcond.
    destruct (EmbedMain.load_transcripts fs _) as [df|]; [|done].
    case_bool_decide; [done|].
    destruct (negb (has_column "published_at" df)); [done|].
    destruct (EmbedScript.build_faiss_index _ _) as [ix|]; [|done].
    unfold EmbedMain.try_write, EmbedScript.save_index,
      EmbedScript.save_embeddings, write_steps, run_steps. simpl.
    intros [= <-]. rewrite !insert_insert_eq.
    eexists ix, _. split_and!; try done.
Qed.

(** * The further properties at the toy instances *)

(** X1 at the toy service: three results asked for "cats". *)
Lemma search_at_most_top_k_witness :
  @VectorSearch.search Toy.backend Toy.svc1 "cats" 3 "cosine" None
  = Ok ToyExtra.cats3
  ∧ length ToyExtra.cats3 ≤ 3.
Proof.
  assert (H1 : @VectorSearch.search Toy.backend Toy.svc1 "cats" 3 "cosine" None
               = Ok ToyExtra.cats3) by (vm_compute; reflexivity).
  split; [exact H1|].
  destruct (@search_at_most_top_k Toy.backend Toy.svc1 "cats" 3 "cosine" None
              ToyExtra.cats3 H1) as [Hlen _].
  exact Hlen.
Defined.

(** X2 on an empty disk. *)
Lemma search_after_failed_first_load_witness :
  VectorSearch.load_index
    (VectorSearch.init default_settings "all-MiniLM-L6-v2" None None) ∅
  = (Raise (FileNotFoundError "Index not found: ./data/index.faiss"), Toy.svc0)
  ∧ @VectorSearch.search Toy.backend Toy.svc0 "cats" 3 "cosine" None
    = Raise (ValueError "Index not loaded. Call load_index() first.").
Proof.
  assert (H1 : VectorSearch.load_index
                 (VectorSearch.init default_settings "all-MiniLM-L6-v2"
                                    None None) ∅
               = (Raise (FileNotFoundError "Index not found: ./data/index.faiss"),
                  Toy.svc0)) by (vm_compute; reflexivity).
  split; [exact H1|].
  exact (@search_after_failed_first_load Toy.backend default_settings
           "all-MiniLM-L6-v2" None None ∅ _ Toy.svc0 "cats" 3 "cosine" None H1).
Defined.

(** X3 at the snapshot with two vectors and one row. *)
Lemma search_misaligned_raises_witness :
  length (rows ToyExtra.mismatched_md) < Faiss.ntotal ToyExtra.mismatched_ix
  ∧ @VectorSearch.search Toy.backend ToyL2.mismatched_svc "cats" 2 "cosine"
                         None
    = Raise (IndexError "single positional indexer is out-of-bounds").
Proof.
  assert (H1 : VectorSearch.index ToyL2.mismatched_svc
               = Some ToyExtra.mismatched_ix) by (vm_compute; reflexivity).
  assert (H2 : VectorSearch.metadata ToyL2.mismatched_svc
               = Some ToyExtra.mismatched_md) by (vm_compute; reflexivity).
  assert (H3 : length (rows ToyExtra.mismatched_md)
               < Faiss.ntotal ToyExtra.mismatched_ix) by (vm_compute; lia).
  assert (H4 : Faiss.ntotal ToyExtra.mismatched_ix ≤ 2) by (vm_compute; lia).
  assert (H5 : length (@SearchSpec.query_embedding_of Toy.backend
                         ToyL2.mismatched_svc "cats")
               = Faiss.d ToyExtra.mismatched_ix) by (vm_compute; reflexivity).
  split; [exact H3|].
  exact (@search_misaligned_raises Toy.backend ToyL2.mismatched_svc
           ToyExtra.mismatched_ix ToyExtra.mismatched_md "cats" 2 "cosine"
           H1 H2 H3 H4 H5).
Defined.

(** X4 at the toy service. *)
Lemma search_no_duplicate_videos_witness :
  NoDup (map video_id (rows Toy.md1))
  ∧ NoDup (map VectorSearch.hit_video_id ToyExtra.cats3).
Proof.
  assert (H1 : VectorSearch.index Toy.svc1 = Some Toy.ix1)
    by (vm_compute; reflexivity).
  assert (H2 : VectorSearch.metadata Toy.svc1 = Some Toy.md1)
    by (vm_compute; reflexivity).
  assert (H3 : NoDup (map video_id (rows Toy.md1)))
    by (apply (bool_decide_unpack _); vm_compute; exact I).
  assert (H4 : @VectorSearch.search Toy.backend Toy.svc1 "cats" 3 "cosine" None
               = Ok ToyExtra.cats3) by (vm_compute; reflexivity).
  split; [exact H3|].
  exact (@search_no_duplicate_videos Toy.backend Toy.svc1 Toy.ix1 Toy.md1
           "cats" 3 "cosine" None ToyExtra.cats3 H1 H2 H3 H4).
Defined.

(** X5 at the toy service. *)
Lemma search_snippet_shape_witness :
  @VectorSearch.search Toy.backend Toy.svc1 "cats" 3 "cosine" None
  = Ok ToyExtra.cats3
  ∧ Forall (λ r, ∀ s, VectorSearch.hit_snippet r = Some s →
                      3 ≤ String.length s ≤ 203) ToyExtra.cats3.
Proof.
  assert (H1 : @VectorSearch.search Toy.backend Toy.svc1 "cats" 3 "cosine" None
               = Ok ToyExtra.cats3) by (vm_compute; reflexivity).
  split; [exact H1|].
  destruct (@search_snippet_shape Toy.backend Toy.svc1 "cats" 3 "cosine" None
              ToyExtra.cats3 H1) as (_ & _ & Hall).
  exact Hall.
Defined.

(** X6: a forced build without a transcripts file. *)
Lemma build_index_failure_writes_nothing_witness :
  @VectorSearch.build_index Toy.backend default_settings Toy.svc0 ∅
                            None None true
  = (Raise (FileNotFoundError
              "Transcripts not found: ./data/transcripts.parquet"),
     Toy.svc0, ∅)
  ∧ VectorSearch.metadata Toy.svc0 = VectorSearch.metadata Toy.svc0.
Proof.
  assert (H1 : @VectorSearch.build_index Toy.backend default_settings Toy.svc0
                 ∅ None None true
               = (Raise (FileNotFoundError
                           "Transcripts not found: ./data/transcripts.parquet"),
                  Toy.svc0, ∅)) by (vm_compute; reflexivity).
  split; [exact H1|].
  destruct (@build_index_failure_writes_nothing Toy.backend default_settings
              Toy.svc0 ∅ None None true _ Toy.svc0 ∅ H1) as (_ & Hmd & _).
  exact Hmd.
Defined.

(** X7 at the toy transcripts frame: seven rows, six with a transcript. *)
Lemma build_index_selects_transcribed_rows_witness :
  read_parquet Toy.fs0 (settings_transcripts_path default_settings)
  = Ok Toy.transcripts_frame
  ∧ ∃ ix md,
      VectorSearch.index Toy.svc1 = Some ix
      ∧ VectorSearch.metadata Toy.svc1 = Some md
      ∧ map video_id (rows md)
        = map video_id (List.filter VectorSearch.has_transcript
                                    (rows Toy.transcripts_frame)).
Proof.
  assert (H1 : read_parquet Toy.fs0 (settings_transcripts_path default_settings)
               = Ok Toy.transcripts_frame) by (vm_compute; reflexivity).
  assert (H2 : exists_path Toy.fs0 (VectorSearch.index_path Toy.svc0)
               && negb false = false) by (vm_compute; reflexivity).
  assert (H3 : @VectorSearch.build_index Toy.backend default_settings
                 Toy.svc0 Toy.fs0 None None false
               = (Ok (6, 6), Toy.svc1, Toy.fs1)) by (vm_compute; reflexivity).
  split; [exact H1|].
  destruct (@build_index_selects_transcribed_rows Toy.backend default_settings
              Toy.svc0 Toy.fs0 None None false (6, 6) Toy.svc1 Toy.fs1
              Toy.transcripts_frame H1 H2 H3)
    as (ix & md & Hix & Hmd & _ & _ & Hids & _).
  exists ix, md. split; [exact Hix|]. split; [exact Hmd|exact Hids].
Defined.

(** X8 at the toy service: a second service with the same paths. *)
Lemma build_then_load_round_trip_witness :
  VectorSearch.index_path Toy.svc0 ≠ VectorSearch.embeddings_path Toy.svc0
  ∧ ∃ other',
      VectorSearch.load_index Toy.svc0 Toy.fs1 = (Ok (), other')
      ∧ VectorSearch.index other' = VectorSearch.index Toy.svc1
      ∧ VectorSearch.metadata other' = VectorSearch.metadata Toy.svc1.
Proof.
  assert (H1 : VectorSearch.index_path Toy.svc0
               ≠ VectorSearch.embeddings_path Toy.svc0)
    by (vm_compute; discriminate).
  assert (H2 : exists_path Toy.fs0 (VectorSearch.index_path Toy.svc0)
               && negb false = false) by (vm_compute; reflexivity).
  assert (H3 : @VectorSearch.build_index Toy.backend default_settings
                 Toy.svc0 Toy.fs0 None None false
               = (Ok (6, 6), Toy.svc1, Toy.fs1)) by (vm_compute; reflexivity).
  split; [exact H1|].
  destruct (@build_then_load_round_trip Toy.backend default_settings Toy.svc0
              Toy.fs0 None None false (6, 6) Toy.svc1 Toy.fs1 Toy.svc0
              H1 H2 H3 eq_refl eq_refl) as (other' & Hload & Hix & Hmd & _).
  exists other'. split; [exact Hload|]. split; [exact Hix|exact Hmd].
Defined.

(** X9: the first build and a forced rebuild on top of it. *)
Lemma build_index_supersedes_witness :
  ToyExtra.rebuilt = (Ok (6, 6), ToyExtra.rebuilt.1.2, ToyExtra.rebuilt.2)
  ∧ VectorSearch.index Toy.svc1 = VectorSearch.index ToyExtra.rebuilt.1.2
  ∧ VectorSearch.metadata Toy.svc1 = VectorSearch.metadata ToyExtra.rebuilt.1.2.
Proof.
  assert (H1 : exists_path Toy.fs0 (VectorSearch.index_path Toy.svc0)
               && negb false = false) by (vm_compute; reflexivity).
  assert (H2 : exists_path Toy.fs1 (VectorSearch.index_path Toy.svc1)
               && negb true = false) by (vm_compute; reflexivity).
  assert (H3 : read_parquet Toy.fs0 (settings_transcripts_path default_settings)
               = read_parquet Toy.fs1
                   (settings_transcripts_path default_settings))
    by (vm_compute; reflexivity).
  assert (H4 : Snapshot.chosen_model Toy.svc0 None
               = Snapshot.chosen_model Toy.svc1 None)
    by (vm_compute; reflexivity).
  assert (H5 : @VectorSearch.build_index Toy.backend default_settings
                 Toy.svc0 Toy.fs0 None None false
               = (Ok (6, 6), Toy.svc1, Toy.fs1)) by (vm_compute; reflexivity).
  assert (H6 : @VectorSearch.build_index Toy.backend default_settings
                 Toy.svc1 Toy.fs1 None None true
               = (Ok (6, 6), ToyExtra.rebuilt.1.2, ToyExtra.rebuilt.2))
    by (vm_compute; reflexivity).
  split; [exact H6|].
  destruct (@build_index_supersedes Toy.backend default_settings
              default_settings Toy.svc0 Toy.svc1 Toy.fs0 Toy.fs1 None None
              None None false true (6, 6) (6, 6) Toy.svc1
              ToyExtra.rebuilt.1.2 Toy.fs1 ToyExtra.rebuilt.2
              H1 H2 H3 H4 H5 H6) as (Hix & Hmd & _).
  split; [exact Hix|exact Hmd].
Defined.

(** X10 at the euclidean toy index. *)
Lemma search_euclidean_ascending_witness :
  EmbedScript.build_faiss_index (Faiss.xb Toy.ix1) "euclidean" = Ok ToyL2.ix
  ∧ StronglySorted Snapshot.ascending ToyExtra.cats3_l2.
Proof.
  assert (H1 : EmbedScript.build_faiss_index (Faiss.xb Toy.ix1) "euclidean"
               = Ok ToyL2.ix) by (vm_compute; reflexivity).
  assert (H2 : VectorSearch.index ToyL2.svc = Some ToyL2.ix)
    by (vm_compute; reflexivity).
  assert (H3 : VectorSearch.metadata ToyL2.svc = Some Toy.md1)
    by (vm_compute; reflexivity).
  assert (H4 : @VectorSearch.search Toy.backend ToyL2.svc "cats" 3 "euclidean"
                 None = Ok ToyExtra.cats3_l2) by (vm_compute; reflexivity).
  split; [exact H1|].
  destruct (@search_euclidean_ascending Toy.backend ToyL2.svc
              (Faiss.xb Toy.ix1) ToyL2.ix Toy.md1 "cats" 3 "euclidean" None
              ToyExtra.cats3_l2 H1 H2 H3 H4) as (Hsorted & _).
  exact Hsorted.
Defined.

(** X11 at the toy transcripts, no snapshot on disk yet: the run builds;
    when the write of the embeddings file fails before the file is opened
    it exits with 1 and leaves the new index on disk without an embeddings
    file. *)
Lemma embed_main_effects_witness :
  ∃ ix,
    EmbedMain.main Toy.toy_encode
      (EmbedMain.mkFaults EmbedMain.NoFault EmbedMain.FailsBeforeOpen)
      ToyExtra.script_args Toy.fs0
    = (1, <[EmbedMain.arg_output_index ToyExtra.script_args := FaissFile ix]>
            Toy.fs0)
    ∧ Toy.fs0 !! EmbedMain.arg_output_embeddings ToyExtra.script_args = None.
Proof.
  destruct (embed_main_effects Toy.toy_encode
              (EmbedMain.mkFaults EmbedMain.NoFault EmbedMain.NoFault)
              ToyExtra.script_args Toy.fs0)
    as (_ & _ & _ & Hfail).
  destruct (Hfail (EmbedMain.main Toy.toy_encode
                     (EmbedMain.mkFaults EmbedMain.NoFault EmbedMain.NoFault)
                     ToyExtra.script_args Toy.fs0).2)
    as (ix & df & _ & Hsecond & _).
  - vm_compute. reflexivity.
  - vm_compute. reflexivity.
  - exists ix. split; [exact Hsecond|]. vm_compute. reflexivity.
Defined.

(** X12 at a bare channel identifier. *)
Lemma extract_channel_id_last_segment_witness :
  Collect.has_char Collect.slash "UC123" = false
  ∧ Collect._extract_channel_id "UC123" = "UC123".
Proof.
  assert (H1 : Collect.has_char Collect.slash "UC123" = false)
    by (vm_compute; reflexivity).
  split; [exact H1|].
  destruct (extract_channel_id_last_segment "UC123") as (_ & _ & Hbare & _).
  exact (Hbare H1).
Defined.

(** X13 at an API that knows every video. *)
Lemma fetch_video_details_batches_witness :
  Forall (λ b, Collect.answered ToyExtra.echo_api b = true)
         (Collect.batches Toy.video_ids10)
  ∧ map video_id (Collect._fetch_video_details ToyExtra.echo_api
                                               Toy.video_ids10)
    = Toy.video_ids10.
Proof.
  assert (H1 : ∀ b items,
            Collect.videos_list ToyExtra.echo_api b = Collect.Resp items →
            map Collect.item_video_id items = b).
  { intros b items Heq. simpl in Heq. injection Heq as <-.
    rewrite map_map. simpl. apply map_id. }
  assert (H2 : Forall (λ b, Collect.answered ToyExtra.echo_api b = true)
                      (Collect.batches Toy.video_ids10))
    by (vm_compute; repeat constructor).
  split; [exact H2|].
  destruct (fetch_video_details_batches ToyExtra.echo_api Toy.video_ids10)
    as (_ & _ & Hids).
  destruct (Hids H1) as (_ & Hall).
  exact (Hall H2).
Defined.

(** X14 at the eight uploads (five before the bound, three after). *)
Lemma fetch_playlist_videos_first_kept_witness :
  length ToyCollect.uploads < 9
  ∧ ∃ videos,
      Collect._fetch_playlist_videos 9 ToyCollect.api "uploads" 3 ToyExtra.bound
      = Some videos
      ∧ map video_id videos = ["vid6"; "vid7"; "vid8"].
Proof.
  assert (H1 : Collect.playlist_items ToyCollect.api "uploads"
               = Collect.list_playlist ToyCollect.uploads) by reflexivity.
  assert (H2 : length ToyCollect.uploads < 9) by (vm_compute; lia).
  split; [exact H2|].
  destruct (fetch_playlist_videos_first_kept ToyCollect.api "uploads"
              ToyCollect.uploads 3 ToyExtra.bound 9 H1 H2)
    as (videos & Hfetch & Hids & _).
  exists videos. split; [exact Hfetch|]. rewrite Hids. vm_compute. reflexivity.
Defined.

(** X15 at the same playlist: three videos asked for, the first page of
    three items is dated before the bound and contributes nothing. *)
Lemma playlist_loop_only_kept_witness :
  Collect.playlist_loop 9 ToyCollect.api "uploads" 3 ToyExtra.bound None []
  = Some ToyExtra.paged
  ∧ map video_id ToyExtra.paged = ["vid6"; "vid7"; "vid8"]
  ∧ ∃ pages,
      CollectSpec.reads ToyCollect.api "uploads" 3 ToyExtra.bound None 0 pages
      ∧ ToyExtra.paged
        = map Collect.row_of_item
              (flat_map (λ page, List.filter (Collect.kept ToyExtra.bound)
                                             (Collect.page_items page)) pages).
Proof.
  assert (H1 : Collect.playlist_loop 9 ToyCollect.api "uploads" 3
                 ToyExtra.bound None [] = Some ToyExtra.paged)
    by (vm_compute; reflexivity).
  split; [exact H1|]. split; [vm_compute; reflexivity|].
  destruct (playlist_loop_only_kept ToyCollect.api "uploads" 3 ToyExtra.bound 9
              None [] ToyExtra.paged H1) as (pages & Hreads & Hvideos & _).
  exists pages. split; [exact Hreads|exact Hvideos].
Defined.

(** X16: collecting three videos from a channel onto an empty disk. *)
Lemma collect_videos_disk_effect_witness :
  ToyExtra.collected = Some (Collect.Collected 3, ToyExtra.collected_fs)
  ∧ ∃ df, ToyExtra.collected_fs
          = <[settings_videos_path default_settings := ParquetFile df]> ∅
          ∧ length (rows df) = 3.
Proof.
  assert (H1 : Collect.collect_videos 9 default_settings ToyCollect.api ∅
                 (Some "X") None None None 3 ToyExtra.bound
               = Some (Collect.Collected 3, ToyExtra.collected_fs))
    by (vm_compute; reflexivity).
  split; [exact H1|].
  exact (collect_videos_disk_effect 9 default_settings ToyCollect.api ∅
           (Some "X") None None None 3 ToyExtra.bound
           (Collect.Collected 3) ToyExtra.collected_fs H1).
Defined.

(** X17: a call without any selector. *)
Lemma collect_videos_selectors_witness :
  Collect.collect_videos 9 default_settings ToyCollect.api ∅
                         None None None None 3 None
  = Some (Collect.CollectFailed
            (Collect.CollectValueError
               "Must provide channel_id, channel_url, playlist_id, or video_ids"),
          ∅).
Proof.
  destruct (collect_videos_selectors 9 default_settings ToyCollect.api ∅
              None None None None 3 None) as (Hnone & _).
  exact (Hnone eq_refl eq_refl eq_refl eq_refl).
Defined.

(** X18: asking for a video that was not collected. *)
Lemma fetch_transcripts_nothing_to_fetch_witness :
  read_parquet Toy.videos_fs (settings_videos_path default_settings)
  = Ok Toy.videos_frame
  ∧ YouTube.fetch_transcripts default_settings Toy.provider7 Toy.videos_fs
                              YouTube.empty_trace (Some ["unknown"]) false
    = (Raise (KeyError "video_id"), Toy.videos_fs, YouTube.empty_trace).
Proof.
  assert (H1 : read_parquet Toy.videos_fs (settings_videos_path default_settings)
               = Ok Toy.videos_frame) by (vm_compute; reflexivity).
  assert (H2 : rows (YouTube.skip_existing false
                       (YouTube.select_ids (Some ["unknown"])
                                           Toy.videos_frame)) = [])
    by (vm_compute; reflexivity).
  split; [exact H1|].
  destruct (fetch_transcripts_nothing_to_fetch default_settings Toy.provider7
              Toy.videos_fs YouTube.empty_trace (Some ["unknown"]) false
              Toy.videos_frame H1 H2) as (Hfetch & _).
  exact Hfetch.
Defined.

(** X19 at the run over the ten collected videos. *)
Lemma fetch_transcripts_written_file_witness :
  YouTube.fetch_transcripts default_settings Toy.provider7 Toy.videos_fs
                            YouTube.empty_trace None false
  = (Ok (9, 1), Toy.run1.1.2, Toy.run1.2)
  ∧ ∃ result,
      Toy.run1.1.2
      = <[settings_transcripts_path default_settings := ParquetFile result]>
          Toy.videos_fs
      ∧ map video_id (rows result) = Toy.video_ids10.
Proof.
  assert (H1 : read_parquet Toy.videos_fs (settings_videos_path default_settings)
               = Ok Toy.videos_frame) by (vm_compute; reflexivity).
  assert (H2 : NoDup (map video_id
                        (rows (YouTube.skip_existing false
                                 (YouTube.select_ids None Toy.videos_frame)))))
    by (apply (bool_decide_unpack _); vm_compute; exact I).
  assert (H3 : YouTube.fetch_transcripts default_settings Toy.provider7
                 Toy.videos_fs YouTube.empty_trace None false
               = (Ok (9, 1), Toy.run1.1.2, Toy.run1.2))
    by (vm_compute; reflexivity).
  split; [exact H3|].
  destruct (fetch_transcripts_written_file default_settings Toy.provider7
              Toy.videos_fs YouTube.empty_trace None false Toy.videos_frame
              (9, 1) Toy.run1.1.2 Toy.run1.2 H1 H2 H3)
    as (result & Hfs & _ & Hids & _).
  exists result. split; [exact Hfs|]. rewrite Hids. vm_compute. reflexivity.
Defined.


(** X21 at a request without selector. *)
Lemma collect_endpoint_never_400_witness :
  Endpoints.any_selector ToyExtra.no_selector = false
  ∧ ∃ detail,
      Endpoints.collect_endpoint 9 default_settings ToyCollect.api ∅
                                 ToyExtra.no_selector
      = Some (Endpoints.ReplyError 500 detail, ∅).
Proof.
  assert (H1 : Endpoints.collect_request_valid ToyExtra.no_selector = true)
    by (vm_compute; reflexivity).
  assert (H2 : Endpoints.any_selector ToyExtra.no_selector = false)
    by (vm_compute; reflexivity).
  split; [exact H2|].
  destruct (collect_endpoint_never_400 9 default_settings ToyCollect.api ∅
              ToyExtra.no_selector) as (H500 & _).
  exact (H500 H1 H2).
Defined.

(** X22 at the toy service, loaded with six rows of metadata. *)
Lemma system_status_report_witness :
  VectorSearch.index Toy.svc1 = Some Toy.ix1
  ∧ Endpoints.st_index_size
      (Endpoints.get_system_status (Some Toy.svc1) true)
    = Faiss.ntotal Toy.ix1
  ∧ Endpoints.st_total_videos
      (Endpoints.get_system_status (Some Toy.svc1) true) = 0.
Proof.
  assert (H1 : VectorSearch.index Toy.svc1 = Some Toy.ix1)
    by (vm_compute; reflexivity).
  split; [exact H1|].
  destruct (system_status_report (Some Toy.svc1) true)
    as (Hzero & _ & Hsize & _).
  split; [exact (Hsize Toy.svc1 Toy.ix1 eq_refl H1)|exact Hzero].
Defined.

(** X23 at a disk whose transcripts file is unreadable. *)
Lemma video_endpoint_lookup_witness :
  ToyExtra.broken_fs !! settings_transcripts_path default_settings
  = Some PartialFile
  ∧ Endpoints.video_endpoint default_settings ToyExtra.echo_api Toy.provider7
                             ToyExtra.broken_fs "vid1" YouTube.empty_trace
    = (Endpoints.ReplyError 404 "Video not found: vid1", YouTube.empty_trace).
Proof.
  assert (H1 : ToyExtra.broken_fs !! settings_transcripts_path default_settings
               = Some PartialFile) by (vm_compute; reflexivity).
  assert (H2 : ∀ df, PartialFile ≠ ParquetFile df)
    by (intros df; discriminate).
  split; [exact H1|].
  destruct (video_endpoint_lookup default_settings ToyExtra.echo_api
              Toy.provider7 ToyExtra.broken_fs "vid1" YouTube.empty_trace)
    as (Hbroken & _).
  exact (Hbroken PartialFile H1 H2).
Defined.

(** X24. The transcript route sends one request to the provider and
    answers 404 whenever that request fails, whatever the failure: a
    transient error (a time-out, a rate limit) is reported to the client as
    "Transcript not available", exactly like captions that do not exist.
    When the provider answers, the segments are returned with 200, also
    when the list is empty. *)
Theorem video_transcript_endpoint_not_found (provider : YouTube.Provider)
    (vid : string) (t : YouTube.Trace) :
  YouTube.calls (Endpoints.video_transcript_endpoint provider vid t).2
  = YouTube.calls t ++ [vid]
  ∧ (∀ segs, provider vid (YouTube.attempts t vid) = YouTube.Segments segs →
       (Endpoints.video_transcript_endpoint provider vid t).1
       = Endpoints.Reply200 segs)
  ∧ ((∀ segs, provider vid (YouTube.attempts t vid) ≠ YouTube.Segments segs) →
     (Endpoints.video_transcript_endpoint provider vid t).1
     = Endpoints.ReplyError 404
         ("Transcript not available for video: " +:+ vid)).
Proof.
  unfold Endpoints.video_transcript_endpoint.
  pose proof (get_transcript_calls provider vid t) as Hcalls.
  pose proof (get_transcript_none provider vid t) as Hnone.
  unfold YouTube.get_transcript in *.
  destruct (provider vid (YouTube.attempts t vid)) as [segs| | | |msg];
    simpl in *; split_and!; try done.
  - by intros segs' [= <-].
  - intros Hno. by destruct (Hno segs).
Qed.

(** X24 at a provider that times out on the first request. *)
Lemma video_transcript_endpoint_not_found_witness :
  (∀ segs, Toy.flaky "vid1" (YouTube.attempts YouTube.empty_trace "vid1")
           ≠ YouTube.Segments segs)
  ∧ (Endpoints.video_transcript_endpoint Toy.flaky "vid1"
                                         YouTube.empty_trace).1
    = Endpoints.ReplyError 404 "Transcript not available for video: vid1".
Proof.
  assert (H1 : ∀ segs,
            Toy.flaky "vid1" (YouTube.attempts YouTube.empty_trace "vid1")
            ≠ YouTube.Segments segs) by (intros segs; discriminate).
  split; [exact H1|].
  destruct (video_transcript_endpoint_not_found Toy.flaky "vid1"
              YouTube.empty_trace) as (_ & _ & H404).
  exact (H404 H1).
Defined.
